(** * The data-access resilience layer of the blood-inventory application

        A shallow embedding of [lib/db-health.ts] (the health monitor and the
    query execution facade [executeQuery]), [lib/db-config.ts] and
    [lib/environment-detection.ts], together with models of the query cache
    and of the retry executor, and the properties of these components. *)

From Stdlib Require Import ZArith String Ascii List Bool Lia DecimalString.
From stdpp Require Import gmap strings list fin_maps.
From Equations Require Import Equations.
Import ListNotations.

Local Open Scope Z_scope.
Local Open Scope string_scope.

(** ** JavaScript values, truthiness and thrown values *)

Module Js.

(** The values a query operation can produce.  Numbers are the integral
    ones; objects and arrays (query rows) are opaque references. *)
Inductive JsValue : Type :=
| JUndefined
| JNull
| JBool (b : bool)
| JNum (n : Z)
| JStr (s : string)
| JObj (ref : positive).

(** [if (v)] *)
Definition truthy (v : JsValue) : bool :=
  match v with
  | JUndefined | JNull => false
  | JBool b => b
  | JNum n => negb (Z.eqb n 0)
  | JStr s => negb (String.eqb s EmptyString)
  | JObj _ => true
  end.

(** [if (s)] for [s : string | undefined] *)
Definition truthy_str (s : option string) : bool :=
  match s with
  | Some s => negb (String.eqb s EmptyString)
  | None => false
  end.

(** [a || b] on [string | undefined] *)
Definition or_str (a b : option string) : option string :=
  if truthy_str a then a else b.

(** [o === s] for an environment variable [o] and a literal [s] *)
Definition str_is (o : option string) (s : string) : bool :=
  match o with
  | Some x => String.eqb x s
  | None => false
  end.

(** [s.includes(sub)] *)
Definition includes (s sub : string) : bool :=
  match String.index 0 sub s with
  | Some _ => true
  | None => false
  end.

(** [s.startsWith(p)] *)
Definition startsWith (s p : string) : bool := String.prefix p s.

(** [s.split(sep)] for a non-empty separator: [skip] counts the characters
    of a separator occurrence still to be dropped, [cur] is the piece
    being collected. *)
Fixpoint split_go (sep : string) (skip : nat) (cur s : string) : list string :=
  match s with
  | EmptyString => [cur]
  | String c s' =>
      match skip with
      | S k => split_go sep k cur s'
      | O =>
          if String.prefix sep s
          then cur :: split_go sep (String.length sep - 1) EmptyString s'
          else split_go sep 0 (cur ++ String c EmptyString) s'
      end
  end.

Definition split (s sep : string) : list string := split_go sep 0 EmptyString s.

(** Modelled from the spec: [lib/error-handling.ts] is missing; the closed
    enumeration of error kinds of section 7, under the names the sources
    use ([DATABASE_CONNECTION] for the connection kind, and [NAVIGATION],
    which [app/error.tsx] reads). *)
Inductive ErrorType : Type :=
| DATABASE_CONNECTION
| TIMEOUT
| VALIDATION
| NOT_FOUND
| AUTHENTICATION
| DATA_PROCESSING
| NAVIGATION
| SERVER.

(** Modelled from the spec: [lib/error-handling.ts] is missing; an
    [AppError] carries "kind, message, detail, and retryability flag", in
    the order of the calls [new AppError(type, message, details?,
    retryable?)] of the sources; an argument left out is [None]. *)
Record AppError : Type := mkAppError {
  type : ErrorType;
  message : string;
  details : option string;
  retryable : option bool;
}.

(** What a [throw] can carry: an [AppError], another [Error] with its
    message, or any other value. *)
Inductive Thrown : Type :=
| ThrownApp (e : AppError)
| ThrownError (msg : string)
| ThrownValue (v : JsValue).

(** [error instanceof Error]; [AppError] is an [Error] subclass. *)
Definition instanceofError (t : Thrown) : option string :=
  match t with
  | ThrownApp e => Some (message e)
  | ThrownError m => Some m
  | ThrownValue _ => None
  end.



End Js.
Import Js.

(** ** [lib/db-config.ts] and [lib/environment-detection.ts] *)

Module Config.

(** [DB_CONFIG] *)
Definition CONNECTION_TIMEOUT_MS : Z := 10000.
Definition QUERY_TIMEOUT_MS : Z := 30000.
Definition CACHE_TTL_MS : Z := 60000.
Definition RETRY_ATTEMPTS : nat := 3.
Definition RETRY_DELAY_MS : Z := 500.
Definition HEALTH_CHECK_INTERVAL_MS : Z := 300000.

(** What the detection functions read: [process.env], and
    [window.location.hostname] and [document.cookie] where [window] and
    [document] are defined. *)
Record ProcessEnv : Type := mkProcessEnv {
  IS_PREVIEW : option string;
  VERCEL_ENV : option string;
  NEXT_PUBLIC_VERCEL_ENV : option string;
  DATABASE_URL : option string;
  POSTGRES_URL : option string;
  POSTGRES_PRISMA_URL : option string;
  POSTGRES_URL_NON_POOLING : option string;
  hostname : option string;
  cookie : option string;
}.

Definition previewHostname (h : string) : bool :=
  includes h "vercel.app" || includes h "localhost" || includes h "vusercontent.net".

(** [isPreviewEnvironment] of [db-config.ts] *)
Definition isPreviewEnvironment (env : ProcessEnv) : bool :=
  if str_is (IS_PREVIEW env) "true" || str_is (VERCEL_ENV env) "preview" then true
  else
    match hostname env with
    | Some h => if previewHostname h then true else false
    | None => false
    end.

(** [getDatabaseUrl] of [db-config.ts]; [null] is [None]. *)
Definition getDatabaseUrl (env : ProcessEnv) : option string :=
  if isPreviewEnvironment env then None
  else
    let dbUrl :=
      or_str (or_str (or_str (DATABASE_URL env) (POSTGRES_URL env))
                     (POSTGRES_PRISMA_URL env))
             (POSTGRES_URL_NON_POOLING env) in
    if negb (truthy_str dbUrl) then None else dbUrl.

(** [isPreviewMode] of [environment-detection.ts]; none of the reads of
    the model can fail, so the [catch] branch is never taken. *)
Definition isPreviewMode (env : ProcessEnv) : bool :=
  if str_is (NEXT_PUBLIC_VERCEL_ENV env) "preview" then true
  else if match hostname env with
          | Some h => previewHostname h
          | None => false
          end then true
  else if match cookie env with
          | Some c => existsb (fun row => startsWith row "__previewMode=") (split c "; ")
          | None => false
          end then true
  else if str_is (IS_PREVIEW env) "true" then true
  else false.

End Config.
Import Config.

(** ** The query cache ([lib/cache]) *)

Module Cache.

(** Modelled from the spec: [lib/cache.ts] is missing; [CacheEntry] is
    "[{ value: T, expiresAt: timestamp }]". *)
Record CacheEntry : Type := mkEntry {
  value : JsValue;
  expiresAt : Z;
}.

Abbreviation Store := (gmap string CacheEntry).

(** Modelled from the spec: [lib/cache.ts] is missing; [get(key)] "returns
    nothing once [now > expiresAt], and the entry is evicted lazily on
    that read"; absent otherwise when the key was never set.  The result
    is the value read and the store left behind. *)
Definition get (key : string) (now : Z) (c : Store) : option JsValue * Store :=
  match c !! key with
  | None => (None, c)
  | Some e =>
      if Z.ltb (expiresAt e) now then (None, delete key c)
      else (Some (value e), c)
  end.

(** Modelled from the spec: [lib/cache.ts] is missing; [set(key, value,
    ttlMs)] "overwrites any existing entry" and "starts/refreshes the
    entry's expiry clock from the call time". *)
Definition set (key : string) (v : JsValue) (ttlMs : Z) (now : Z) (c : Store) : Store :=
  <[key := mkEntry v (now + ttlMs)]> c.

(** Modelled from the spec: [lib/cache.ts] is missing; [invalidate(key)]
    "removes one entry; no-op if absent". *)
Definition invalidate (key : string) (c : Store) : Store := delete key c.

(** Modelled from the spec: [lib/cache.ts] is missing;
    [invalidateByPrefix(namespace)] "removes every entry whose key starts
    with [namespace:]". *)
Definition invalidateByPrefix (namespace : string) (c : Store) : Store :=
  filter (fun kv => startsWith (fst kv) (namespace ++ ":") = false) c.

(** Modelled from the spec: [lib/cache.ts] is missing; [invalidateAll()]
    "empties the cache". *)
Definition invalidateAll (c : Store) : Store := ∅.

(** A series of [get] calls, each with its key and the time of the call. *)
Fixpoint readAll (reads : list (string * Z)) (c : Store) : Store :=
  match reads with
  | [] => c
  | (key, now) :: rest => readAll rest (snd (get key now c))
  end.

End Cache.

(** ** The process: its mutable singletons, its clock and what it did *)

Module Runtime.

(** [DbHealthStatus]; a [Date] is its millisecond timestamp. *)
Record DbHealthStatus : Type := mkHealth {
  isConnected : bool;
  lastChecked : Z;
  responseTimeMs : option Z;
  error : option string;
}.

(** The module-level initial value of [dbHealthStatus]. *)
Definition initialHealth : DbHealthStatus :=
  mkHealth false 0 None (Some "Health check not yet performed").

(** The observable steps of a run, oldest first in a trace. *)
Inductive Event : Type :=
| EvOperation (k : nat)
| EvWithRetry
| EvSleep (ms : Z)
| EvCacheGet (key : string)
| EvCacheSet (key : string) (v : JsValue) (ttlMs : Z)
| EvInvalidateAll
| EvProbe
| EvLogError (context : string)
| EvConsole (text : string).

Record World : Type := mkWorld {
  cache : gmap string Cache.CacheEntry;
  dbHealthStatus : DbHealthStatus;
  clock : Z;
  opCalls : nat;
  trace : list Event;
}.

Definition initialWorld : World := mkWorld ∅ initialHealth 0 0 [].

Definition with_cache (c : gmap string Cache.CacheEntry) (w : World) : World :=
  mkWorld c (dbHealthStatus w) (clock w) (opCalls w) (trace w).
Definition with_health (h : DbHealthStatus) (w : World) : World :=
  mkWorld (cache w) h (clock w) (opCalls w) (trace w).
Definition with_clock (t : Z) (w : World) : World :=
  mkWorld (cache w) (dbHealthStatus w) t (opCalls w) (trace w).
Definition with_opCalls (n : nat) (w : World) : World :=
  mkWorld (cache w) (dbHealthStatus w) (clock w) n (trace w).
Definition record (ev : Event) (w : World) : World :=
  mkWorld (cache w) (dbHealthStatus w) (clock w) (opCalls w) (trace w ++ [ev]).

(** A call either returns or throws; a settled promise either is
    fulfilled or is rejected. *)
Inductive Result (A : Type) : Type :=
| Returned (a : A)
| Threw (e : Thrown).
Arguments Returned {A} a.
Arguments Threw {A} e.

Definition M (A : Type) : Type := World -> Result A * World.

Definition ret {A} (a : A) : M A := fun w => (Returned a, w).
Definition throw {A} (e : Thrown) : M A := fun w => (Threw e, w).
Definition bind {A B} (m : M A) (k : A -> M B) : M B :=
  fun w =>
    match m w with
    | (Returned a, w') => k a w'
    | (Threw e, w') => (Threw e, w')
    end.
(** [try { body } catch (error) { handler }] *)
Definition tryCatch {A} (body : M A) (handler : Thrown -> M A) : M A :=
  fun w =>
    match body w with
    | (Returned a, w') => (Returned a, w')
    | (Threw e, w') => handler e w'
    end.
Definition gets {A} (f : World -> A) : M A := fun w => (Returned (f w), w).
Definition modify (f : World -> World) : M unit := fun w => (Returned tt, f w).
Definition emit (ev : Event) : M unit := modify (record ev).
(** Time passing while the task is suspended. *)
Definition elapse (ms : Z) : M unit := modify (fun w => with_clock (clock w + ms) w).

#[global] Instance M_ret : MRet M := @ret.
#[global] Instance M_bind : MBind M := fun A B k m => bind m k.

(** The singleton [queryCache], its methods read the clock of the call. *)
Definition queryCache_get (key : string) : M (option JsValue) :=
  fun w =>
    let (r, c) := Cache.get key (clock w) (cache w) in
    (Returned r, record (EvCacheGet key) (with_cache c w)).
Definition queryCache_set (key : string) (v : JsValue) (ttlMs : Z) : M unit :=
  fun w =>
    (Returned tt,
     record (EvCacheSet key v ttlMs) (with_cache (Cache.set key v ttlMs (clock w) (cache w)) w)).
Definition queryCache_invalidateAll : M unit :=
  fun w => (Returned tt, record EvInvalidateAll (with_cache (Cache.invalidateAll (cache w)) w)).

(** A caller-supplied asynchronous operation, by what its successive
    invocations do: settle with a value or with a failure, after some
    time. *)
Inductive OpOutcome : Type :=
| OpResolves (v : JsValue) (elapsedMs : Z)
| OpRejects (e : Thrown) (elapsedMs : Z).

Definition Operation : Type := nat -> OpOutcome.

(** [await operation()] *)
Definition callOperation (op : Operation) : M JsValue :=
  fun w =>
    let k := opCalls w in
    let w1 := record (EvOperation k) (with_opCalls (S k) w) in
    match op k with
    | OpResolves v d => (Returned v, with_clock (clock w1 + d) w1)
    | OpRejects e d => (Threw e, with_clock (clock w1 + d) w1)
    end.

(** How an invocation that met outcome [o] settles, and the world it
    leaves. *)
Definition resultOf (o : OpOutcome) : Result JsValue :=
  match o with
  | OpResolves v _ => Returned v
  | OpRejects e _ => Threw e
  end.

Definition elapsedOf (o : OpOutcome) : Z :=
  match o with
  | OpResolves _ d => d
  | OpRejects _ d => d
  end.

Definition settled (o : OpOutcome) (w : World) : World :=
  let w1 := record (EvOperation (opCalls w)) (with_opCalls (S (opCalls w)) w) in
  with_clock (clock w1 + elapsedOf o) w1.

(** The events of the retry loop: invocations and waits. *)
Definition retryEvent (ev : Event) : Prop :=
  match ev with
  | EvOperation _ | EvSleep _ => True
  | _ => False
  end.

(** The number of probes of a trace. *)
Fixpoint probes (tr : list Event) : nat :=
  match tr with
  | [] => O
  | EvProbe :: rest => S (probes rest)
  | _ :: rest => probes rest
  end.

(** Two worlds that differ at most in what the cache holds. *)
Definition sameButCache (w1 w2 : World) : Prop :=
  dbHealthStatus w1 = dbHealthStatus w2 /\ clock w1 = clock w2 /\
  opCalls w1 = opCalls w2 /\ trace w1 = trace w2.

(** The number of full flushes of the cache of a trace. *)
Fixpoint flushes (tr : list Event) : nat :=
  match tr with
  | [] => O
  | EvInvalidateAll :: rest => S (flushes rest)
  | _ :: rest => flushes rest
  end.

End Runtime.
Import Runtime.

(** ** The retry executor ([lib/retry-utils]) *)

Module Retry.

(** Modelled from the spec: [lib/retry-utils.ts] is missing; [RetryConfig]
    is "[{ maxAttempts, baseDelayMs, backoffMultiplier, retryableCheck }]";
    the multiplier is taken at its integral values. *)
Record RetryConfig : Type := mkRetryConfig {
  maxAttempts : nat;
  baseDelayMs : Z;
  backoffMultiplier : Z;
  retryableCheck : Thrown -> bool;
}.

(** Modelled from the spec: [lib/retry-utils.ts] is missing; the wait
    before the next attempt is "[baseDelayMs × backoffMultiplier^(attempt-1)]". *)
Definition backoffDelay (config : RetryConfig) (attempt : nat) : Z :=
  (baseDelayMs config * backoffMultiplier config ^ Z.of_nat (attempt - 1))%Z.

(** [await new Promise(resolve => setTimeout(resolve, ms))] *)
Definition sleep (ms : Z) : M unit := emit (EvSleep ms);; elapse ms.

(** Modelled from the spec: [lib/retry-utils.ts] is missing; steps 2 to 4
    of the algorithm of the Retry Executor: invoke the operation and
    return on success; on failure propagate "if [retryableCheck(error)]
    returns false, or the attempt counter has reached [maxAttempts]";
    otherwise wait, "increment the attempt counter, and go to step 2". *)
Equations? retryFrom (config : RetryConfig) (operation : M JsValue)
    (attempt : nat) (w : World) : Result JsValue * World
    by wf (maxAttempts config - attempt)%nat lt :=
  retryFrom config operation attempt w with operation w => {
    | (Returned r, w1) => (Returned r, w1);
    | (Threw e, w1) with retryableCheck config e => {
        | false => (Threw e, w1);
        | true with le_lt_dec (maxAttempts config) attempt => {
            | left _ => (Threw e, w1);
            | right _ =>
                retryFrom config operation (S attempt)
                          (snd (sleep (backoffDelay config attempt) w1)) } } }.
Proof. lia. Qed.

(** Modelled from the spec: [lib/retry-utils.ts] is missing;
    [withRetry(operation, config)], "attempt counter starts at 1". *)
Definition withRetry (operation : M JsValue) (config : RetryConfig) : M JsValue :=
  emit EvWithRetry;; retryFrom config operation 1.

End Retry.
Import Retry.

(** ** The health monitor ([lib/db-health.ts]) *)

Module Health.

(** How the probe query [SELECT 1] settles, if it does. *)
Inductive QuerySettles : Type :=
| QueryResolves (elapsedMs : Z)
| QueryRejects (e : Thrown) (elapsedMs : Z)
| QueryHangs.

(** What one probe meets: [neon(dbUrl)] may refuse the connection string,
    otherwise the query is issued. *)
Inductive ProbeOutcome : Type :=
| ClientCreationFails (e : Thrown)
| ClientQueries (q : QuerySettles).

(** [Promise.race([query, timeoutPromise])]: the timer was started first
    and rejects after [CONNECTION_TIMEOUT_MS]. *)
Definition raceWithTimeout (q : QuerySettles) : M unit :=
  let timedOut : M unit :=
    elapse CONNECTION_TIMEOUT_MS;;
    throw (ThrownError "Database health check timed out") in
  match q with
  | QueryResolves d =>
      if Z.ltb d CONNECTION_TIMEOUT_MS then elapse d else timedOut
  | QueryRejects e d =>
      if Z.ltb d CONNECTION_TIMEOUT_MS then elapse d;; throw e else timedOut
  | QueryHangs => timedOut
  end.

(** [getDbHealthStatus]: a copy of the current snapshot. *)
Definition getDbHealthStatus : M DbHealthStatus := gets dbHealthStatus.

Section WithErrorHandling.

(** [logError(error, context)] of [lib/error-handling]: the classified
    [AppError] it returns for what was caught. *)
Variable logError : Thrown -> string -> AppError.

(** [dbHealthStatus = { ... }; return dbHealthStatus] *)
Definition publish (connected : bool) (rt : option Z) (err : option string)
  : M DbHealthStatus :=
  now ← gets clock;
  let snapshot := mkHealth connected now rt err in
  modify (with_health snapshot);;
  mret snapshot.

(** The [try] block of [checkDbHealth]. *)
Definition probeDatabase (env : ProcessEnv) (probe : ProbeOutcome) : M DbHealthStatus :=
  match getDatabaseUrl env with
  | None =>
      throw (ThrownApp (mkAppError DATABASE_CONNECTION "Database URL not found"
                                   (Some "Check environment variables") None))
  | Some dbUrl =>
      match probe with
      | ClientCreationFails e => throw e
      | ClientQueries q =>
          startTime ← gets clock;
          raceWithTimeout q;;
          endTime ← gets clock;
          publish true (Some (endTime - startTime)) None
      end
  end.

(** [checkDbHealth] *)
Definition checkDbHealth (env : ProcessEnv) (probe : ProbeOutcome) : M DbHealthStatus :=
  emit EvProbe;;
  if isPreviewEnvironment env then publish true (Some 0) None
  else
    tryCatch
      (probeDatabase env probe)
      (fun error =>
         let appError := logError error "Database Health Check" in
         emit (EvLogError "Database Health Check");;
         publish false None (Some (message appError))).

(** The callback given to [setInterval]: the probe, its [then] handler
    and [catch(console.error)]. *)
Definition onInterval (env : ProcessEnv) (probe : ProbeOutcome) : M unit :=
  tryCatch
    (status ← checkDbHealth env probe;
     current ← gets dbHealthStatus;
     if isConnected status && negb (isConnected current)
     then emit (EvConsole "Database connection restored, invalidating cache");;
          queryCache_invalidateAll
     else mret tt)
    (fun _ => emit (EvConsole "error")).

(** The timer: each firing comes after some idle time and runs the
    callback with what its probe meets; an exception escaping a
    callback ends the run. *)
Fixpoint runInterval (env : ProcessEnv) (firings : list (Z * ProbeOutcome)) : M unit :=
  match firings with
  | [] => mret tt
  | (idle, probe) :: rest =>
      elapse idle;;
      onInterval env probe;;
      runInterval env rest
  end.

(** [startHealthChecks], run until the timer has fired [length firings]
    times; the probes run one at a time, each settling before the next
    firing. *)
Definition startHealthChecks (env : ProcessEnv) (initial : ProbeOutcome)
    (firings : list (Z * ProbeOutcome)) : M unit :=
  if isPreviewEnvironment env then mret tt
  else
    tryCatch (checkDbHealth env initial;; mret tt)
             (fun _ => emit (EvConsole "error"));;
    runInterval env firings.

End WithErrorHandling.

End Health.
Import Health.

(** ** The query execution facade ([executeQuery]) *)

Module Facade.

(** The [options] of [executeQuery], each field possibly left out. *)
Record QueryOptions : Type := mkOptions {
  cacheKey : option string;
  cacheTtl : option Z;
  retryConfig : option RetryConfig;
  critical : option bool;
}.

(** [dbClient]: [dbUrl ? neon(dbUrl) : null], by the URL it was made for. *)
Definition dbClient (env : ProcessEnv) : option string := getDatabaseUrl env.

(** What the [catch] of the wrapper handed to [withRetry] throws for what
    it caught: failures whose message mentions a timeout or the
    connection become retryable [AppError]s. *)
Definition enhanceError (error : Thrown) : Thrown :=
  match instanceofError error with
  | Some msg =>
      if includes msg "timeout"
      then ThrownApp (mkAppError TIMEOUT "Database query timed out" (Some msg) (Some true))
      else if includes msg "connection"
      then ThrownApp (mkAppError DATABASE_CONNECTION "Database connection error"
                                 (Some msg) (Some true))
      else error
  | None => error
  end.

(** The wrapper handed to [withRetry]. *)
Definition enhanced (queryFn : M JsValue) : M JsValue :=
  tryCatch queryFn (fun error => throw (enhanceError error)).

(** [if (cacheKey) { const cached = queryCache.get(cacheKey); if (cached) ... }]:
    the value to return at once, if any. *)
Definition cachedResult (cacheKey : option string) : M (option JsValue) :=
  match cacheKey with
  | Some key =>
      if truthy_str (Some key)
      then cached ← queryCache_get key;
           mret (match cached with
                 | Some v => if truthy v then Some v else None
                 | None => None
                 end)
      else mret None
  | None => mret None
  end.

(** The gate of the critical queries. *)
Definition healthGate (critical : bool) : M unit :=
  if critical
  then health ← getDbHealthStatus;
       now ← gets clock;
       if negb (isConnected health) && Z.ltb (now - 60000) (lastChecked health)
       then throw (ThrownApp
                     (mkAppError DATABASE_CONNECTION "Database is currently unavailable"
                        (if truthy_str (error health) then error health
                         else Some "Recent health check failed")
                        None))
       else mret tt
  else mret tt.

(** [if (cacheKey && result) { queryCache.set(cacheKey, result, cacheTtl) }] *)
Definition storeResult (cacheKey : option string) (result : JsValue) (cacheTtl : Z)
  : M unit :=
  match cacheKey with
  | Some key =>
      if truthy_str (Some key) && truthy result
      then queryCache_set key result cacheTtl
      else mret tt
  | None => mret tt
  end.

(** The operation as the retry executor meets it through the wrapper. *)
Definition enhanceOp (queryFn : Operation) : Operation :=
  fun k =>
    match queryFn k with
    | OpResolves v d => OpResolves v d
    | OpRejects e d => OpRejects (enhanceError e) d
    end.

(** The events of the cache check. *)
Definition lookupEvents (cacheKey : option string) : list Event :=
  match cacheKey with
  | Some key => if truthy_str (Some key) then [EvCacheGet key] else []
  | None => []
  end.

Section WithCollaborators.

(** [logError] of [lib/error-handling] and [DEFAULT_RETRY_CONFIG] of
    [lib/retry-utils]. *)
Variable logError : Thrown -> string -> AppError.
Variable DEFAULT_RETRY_CONFIG : RetryConfig.

(** [executeQuery], after the cache check. *)
Definition queryDatabase (env : ProcessEnv) (queryFn : Operation)
    (options : QueryOptions) : M JsValue :=
  let cacheTtl := default CACHE_TTL_MS (cacheTtl options) in
  let retryConfig := default DEFAULT_RETRY_CONFIG (retryConfig options) in
  let critical := default false (critical options) in
  match dbClient env with
  | None =>
      throw (ThrownApp
               (mkAppError DATABASE_CONNECTION "Database client not initialized"
                  (Some "Database URL environment variable may be missing or invalid")
                  None))
  | Some _ =>
      healthGate critical;;
      tryCatch
        (result ← withRetry (enhanced (callOperation queryFn)) retryConfig;
         storeResult (cacheKey options) result cacheTtl;;
         mret result)
        (fun error =>
           emit (EvLogError "Database Query");;
           throw (ThrownApp (logError error "Database Query")))
  end.

(** [executeQuery] *)
Definition executeQuery (env : ProcessEnv) (queryFn : Operation)
    (options : QueryOptions) : M JsValue :=
  if isPreviewMode env
  then throw (ThrownApp
                (mkAppError SERVER "Database queries cannot be executed in preview mode"
                            (Some "Use mock data instead") None))
  else
    hit ← cachedResult (cacheKey options);
    match hit with
    | Some cached => mret cached
    | None => queryDatabase env queryFn options
    end.

End WithCollaborators.

End Facade.
Import Facade.

(** ** Concrete collaborators and inputs used in the examples *)

Module Examples.

(** A classifier in the manner of the spec: an [AppError] passes through
    unchanged, anything else becomes a [SERVER] error with its message. *)
Definition sampleLogError (t : Thrown) (context : string) : AppError :=
  match t with
  | ThrownApp e => e
  | ThrownError m => mkAppError SERVER m (Some context) None
  | ThrownValue _ => mkAppError SERVER "Unknown error" (Some context) None
  end.

(** Retry on the [retryable] flag of an [AppError]. *)
Definition retryableFlag (t : Thrown) : bool :=
  match t with
  | ThrownApp e => default false (retryable e)
  | _ => false
  end.

(** "Default policy: 3 attempts, 500 ms base delay". *)
Definition sampleRetryConfig : RetryConfig :=
  mkRetryConfig RETRY_ATTEMPTS RETRY_DELAY_MS 2 retryableFlag.



(** A server process with a database URL. *)
Definition production : ProcessEnv :=
  mkProcessEnv None None None (Some "postgres://db") None None None None None.

(** A server process whose public environment name is [preview] and
    which has no database URL. *)
Definition publicPreview : ProcessEnv :=
  mkProcessEnv None None (Some "preview") None None None None None None.

(** The same with a database URL: [getDatabaseUrl] and [dbClient] are
    there, and functions that do not ask [isPreviewMode], such as
    [getAllHospitals], fill the cache. *)
Definition publicPreviewWithDb : ProcessEnv :=
  mkProcessEnv None None (Some "preview") (Some "postgres://db") None None None None None.

(** A process whose cache holds one live entry and whose clock shows a
    day of 2023. *)
Definition populated : World :=
  mkWorld {[ "platelets:1" := Cache.mkEntry (JObj 1) 1700000060000 ]}
          initialHealth 1700000000000 0 [].

(** The first firing of the timer, five minutes on, whose probe succeeds. *)
Definition recovery : list (Z * ProbeOutcome) :=
  [(300000%Z, ClientQueries (QueryResolves 12))].

(** An operation that always resolves with [v], after 4 ms. *)
Definition resolvesWith (v : JsValue) : Operation := fun _ => OpResolves v 4.

(** [publicPreview] ten seconds after a probe that found no database
    URL: the health checks run there, since [isPreviewEnvironment] does
    not read [NEXT_PUBLIC_VERCEL_ENV]. *)
Definition afterFailedProbe : World :=
  snd ((checkDbHealth sampleLogError publicPreview (ClientQueries QueryHangs);;
        elapse 10000)
         (with_clock 1700000000000 initialWorld)).

(** [production] ten seconds after a probe that timed out. *)
Definition afterTimeout : World :=
  snd ((checkDbHealth sampleLogError production (ClientQueries QueryHangs);;
        elapse 10000)
         (with_clock 1700000000000 initialWorld)).

(** A cache whose live entry for ["alerts:1"] holds the number 0. *)
Definition zeroCached : World :=
  mkWorld {[ "alerts:1" := Cache.mkEntry (JNum 0) 1700000060000 ]}
          initialHealth 1700000000000 0 [].

(** A cache whose live entry is under the empty key. *)
Definition emptyKeyCached : World :=
  mkWorld {[ EmptyString := Cache.mkEntry (JObj 1) 1700000060000 ]}
          initialHealth 1700000000000 0 [].

Definition keyed (key : string) : QueryOptions := mkOptions (Some key) None None None.


End Examples.
Import Examples.

(** ** The middleware ([middleware.ts]) *)

Module Middleware.

(** What the middleware reads of a [NextRequest]: [nextUrl.pathname],
    [nextUrl.hostname] and the cookies by name. *)
Record Request : Type := mkRequest {
  pathname : string;
  requestHostname : string;
  cookies : gmap string string;
}.

(** [NextResponse.next()], or [NextResponse.redirect] to a path of the
    same origin with its search string. *)
Inductive Response : Type :=
| Next
| Redirect (path : string) (search : string).

(** [isPreviewModeMiddleware]; none of the reads of the model can fail, so
    the [catch] branch is never taken. *)
Definition isPreviewModeMiddleware (env : ProcessEnv) (request : Request) : bool :=
  let vercelEnv := or_str (VERCEL_ENV env) (NEXT_PUBLIC_VERCEL_ENV env) in
  if str_is vercelEnv "preview" then true
  else if str_is (IS_PREVIEW env) "true" then true
  else if previewHostname (requestHostname request) then true
  else match cookies request !! "__previewMode" with
       | Some _ => true
       | None => false
       end.

(** [!!adminId && !!hospitalId] *)
Definition isAuthenticated (request : Request) : bool :=
  truthy_str (cookies request !! "adminId") && truthy_str (cookies request !! "hospitalId").

(** [middleware] *)
Definition middleware (env : ProcessEnv) (request : Request) : Response :=
  let path := pathname request in
  if String.eqb path "/" && isPreviewModeMiddleware env request then Next
  else
    let isPublicPath := String.eqb path "/login" || String.eqb path "/register" in
    let isAuthenticated := isAuthenticated request in
    let inPreviewMode := isPreviewModeMiddleware env request in
    if inPreviewMode then Next
    else if negb isAuthenticated && negb isPublicPath
    then Redirect "/login" "?reason=login-required"
    else if isAuthenticated && (String.eqb path "/login" || String.eqb path "/register")
    then Redirect "/dashboard" EmptyString
    else if String.eqb path "/"
    then Redirect (if isAuthenticated then "/dashboard" else "/login") EmptyString
    else Next.

(** The request that follows a redirect: the same cookies and host, the
    new path. *)
Definition follow (request : Request) (path : string) : Request :=
  mkRequest path (requestHostname request) (cookies request).

End Middleware.

(** ** The session check ([app/api/check-session/route.ts],
    [lib/session-timeout.ts] and the session monitor) *)

Module Session.

(** What [isAuthenticated()] of [lib/auth] does when called. *)
Inductive AuthOutcome : Type :=
| AuthReturns (authenticated : bool)
| AuthThrows (e : Thrown).

(** The JSON bodies of the route. *)
Inductive Body : Type :=
| BodyAuthenticated (authenticated : bool)
| BodyFailure (error : string) (type : ErrorType).

Record HttpResponse : Type := mkResponse {
  status : Z;
  body : Body;
}.

(** [GET] of [app/api/check-session/route.ts] *)
Definition GET (logError : Thrown -> string -> AppError) (env : ProcessEnv)
    (auth : AuthOutcome) : HttpResponse :=
  if isPreviewMode env then mkResponse 200 (BodyAuthenticated true)
  else
    match auth with
    | AuthReturns authenticated => mkResponse 200 (BodyAuthenticated authenticated)
    | AuthThrows (ThrownApp error) =>
        mkResponse (match Js.type error with AUTHENTICATION => 401 | _ => 500 end)
                   (BodyFailure (message error) (Js.type error))
    | AuthThrows error =>
        let appError := logError error "Check Session API" in
        mkResponse 500 (BodyFailure (message appError) (Js.type appError))
    end.

(** What [fetch("/api/check-session")] and [response.json()] give the
    client: no response at all, a response whose body does not parse, or
    a response with its body. *)
Inductive FetchOutcome : Type :=
| FetchFails
| FetchUnparsable (status : Z)
| FetchResponds (response : HttpResponse).

(** [response.ok] *)
Definition ok (status : Z) : bool := Z.leb 200 status && Z.leb status 299.

(** [checkSessionTimeout]: the [expired] field of its result. *)
Definition checkSessionTimeout (fetched : FetchOutcome) : bool :=
  match fetched with
  | FetchFails => false
  | FetchUnparsable status => if negb (ok status) then true else false
  | FetchResponds response =>
      if negb (ok (status response)) then true
      else match body response with
           | BodyAuthenticated authenticated => negb authenticated
           | BodyFailure _ _ => true
           end
  end.

(** [checkSession] of the session monitor, for a monitor that runs (it is
    not set up when [isPreviewMode()] holds in the browser): whether it
    calls [setLoggedOut(true, "session-expired")]. *)
Definition checkSession (clientEnv : ProcessEnv) (fetched : FetchOutcome) : bool :=
  if isPreviewMode clientEnv then false
  else if checkSessionTimeout fetched then true else false.

(** One firing of the interval of [useSessionTimeout], with integral
    minutes: the new [timeRemaining], the new [showWarning], and whether
    the session has timed out (the interval is cleared and the browser is
    sent to the login page). *)
Definition sessionTick (timeoutMinutes warningMinutes : Z) (lastActivity now : Z)
    (showWarning : bool) : Z * bool * bool :=
  let elapsedSeconds := ((now - lastActivity) / 1000)%Z in
  let remainingSeconds := (timeoutMinutes * 60 - elapsedSeconds)%Z in
  let showWarning' :=
    if Z.leb remainingSeconds (warningMinutes * 60) && Z.ltb 0 remainingSeconds
    then true else showWarning in
  (remainingSeconds, showWarning', Z.leb remainingSeconds 0).

End Session.

(** ** The data-access helpers of [lib/db-health.ts] *)

Module DataAccess.

(** The three inventory tables. *)
Inductive Table : Type :=
| RedBloodInventory
| PlasmaInventory
| PlateletsInventory.

(** The table an [entryType] names, in the order of the [if] chains. *)
Definition tableOf (entryType : string) : option Table :=
  if String.eqb entryType "RedBlood" then Some RedBloodInventory
  else if String.eqb entryType "Plasma" then Some PlasmaInventory
  else if String.eqb entryType "Platelets" then Some PlateletsInventory
  else None.

(** The namespace of the cache keys of a table. *)
Definition cacheNamespace (table : Table) : string :=
  match table with
  | RedBloodInventory => "redblood"
  | PlasmaInventory => "plasma"
  | PlateletsInventory => "platelets"
  end.

(** [`${n}`] for an integral number below 10^21 in absolute value. *)
Definition numberToString (n : Z) : string := NilZero.string_of_int (Z.to_int n).

(** The SQL statements of the helpers below, with their parameters. *)
Inductive Statement : Type :=
| SelectOwner (table : Table) (bagId : Z)
| DeactivateBag (table : Table) (bagId hospitalId : Z)
| SelectAdmin (username password : string)
| InsertRedBlood (donorName : string) (amount hospitalId : Z)
                 (expirationDate bloodType rh : string).

(** A row, by the value of each column ([undefined] for a column it does
    not have). *)
Definition Row : Type := string -> JsValue.

(** What the database does with a statement: answer rows or fail. *)
Inductive DbOutcome : Type :=
| DbRows (rows : list Row)
| DbFails (e : Thrown).

Definition Database : Type := Statement -> DbOutcome.

(** [a === b] *)
Definition strictEq (a b : JsValue) : bool :=
  match a, b with
  | JUndefined, JUndefined => true
  | JNull, JNull => true
  | JBool x, JBool y => Bool.eqb x y
  | JNum x, JNum y => Z.eqb x y
  | JStr x, JStr y => String.eqb x y
  | JObj x, JObj y => Pos.eqb x y
  | _, _ => false
  end.

(** The process of [Runtime], with the statements sent to the database,
    oldest first. *)
Record Server : Type := mkServer {
  world : World;
  issued : list Statement;
}.

Definition S (A : Type) : Type := Server -> Result A * Server.

Definition sret {A} (a : A) : S A := fun s => (Returned a, s).
Definition sthrow {A} (e : Thrown) : S A := fun s => (Threw e, s).
Definition sbind {A B} (m : S A) (k : A -> S B) : S B :=
  fun s =>
    match m s with
    | (Returned a, s') => k a s'
    | (Threw e, s') => (Threw e, s')
    end.
(** [try { body } catch (error) { handler }] *)
Definition stryCatch {A} (body : S A) (handler : Thrown -> S A) : S A :=
  fun s =>
    match body s with
    | (Returned a, s') => (Returned a, s')
    | (Threw e, s') => handler e s'
    end.
(** A step that only concerns the process. *)
Definition liftM {A} (m : M A) : S A :=
  fun s =>
    let (r, w') := m (world s) in
    (r, mkServer w' (issued s)).

#[global] Instance S_ret : MRet S := @sret.
#[global] Instance S_bind : MBind S := fun A B k m => sbind m k.

(** [await dbClient`...`]: calling the [null] client throws a
    [TypeError]; otherwise the statement is sent and answered. *)
Definition dbQuery (env : ProcessEnv) (db : Database) (stmt : Statement) : S (list Row) :=
  fun s =>
    match dbClient env with
    | None => (Threw (ThrownError "dbClient is not a function"), s)
    | Some _ =>
        let s' := mkServer (world s) (issued s ++ [stmt]) in
        match db stmt with
        | DbRows rows => (Returned rows, s')
        | DbFails e => (Threw e, s')
        end
    end.

(** [queryCache.invalidate(key)] *)
Definition queryCache_invalidate (key : string) : M unit :=
  modify (fun w => with_cache (Cache.invalidate key (cache w)) w).

(** The result objects of the helpers: [{ success, error?, details?,
    type?, retryable? }]. *)
Record ActionResult : Type := mkActionResult {
  success : bool;
  error : option string;
  details : option string;
  type : option ErrorType;
  retryable : option bool;
}.

Definition succeeded : ActionResult := mkActionResult true None None None None.
Definition failed (message : string) : ActionResult :=
  mkActionResult false (Some message) None None None.

(** [MOCK_DATA.admins[0]] and the admin that preview mode gives to any
    other credentials. *)
Definition mockAdmin : Row :=
  fun column =>
    if String.eqb column "admin_id" then JNum 1
    else if String.eqb column "hospital_id" then JNum 1
    else if String.eqb column "admin_username" then JStr "admin"
    else if String.eqb column "admin_password" then JStr "password"
    else JUndefined.
Definition previewAdmin : Row :=
  fun column =>
    if String.eqb column "admin_id" then JNum 1
    else if String.eqb column "hospital_id" then JNum 1
    else JUndefined.

Section WithErrorHandling.

(** [logError(error, context)] of [lib/error-handling]. *)
Variable logError : Thrown -> string -> AppError.

(** [const appError = logError(error, context)] *)
Definition logged (error : Thrown) (context : string) : S AppError :=
  liftM (emit (EvLogError context));;
  mret (logError error context).

(** [verifyEntryOwnership] *)
Definition verifyEntryOwnership (env : ProcessEnv) (db : Database)
    (bagId : Z) (entryType : string) (hospitalId : Z) : S ActionResult :=
  stryCatch
    (match tableOf entryType with
     | Some table =>
         result ← dbQuery env db (SelectOwner table bagId);
         match result with
         | [] => mret (failed "Entry not found")
         | row :: _ =>
             if negb (strictEq (row "hospital_id") (JNum hospitalId))
             then mret (failed "You don't have permission to modify this entry")
             else mret succeeded
         end
     | None => mret (failed "Invalid entry type")
     end)
    (fun error =>
       liftM (emit (EvConsole "Error verifying entry ownership:"));;
       appError ← logged error "Verify Entry Ownership";
       mret (mkActionResult false (Some (message appError)) (Js.details appError) None None)).

(** [softDeleteBloodEntry] *)
Definition softDeleteBloodEntry (env : ProcessEnv) (db : Database)
    (bagId : Z) (entryType : string) (hospitalId : Z) : S ActionResult :=
  stryCatch
    (ownershipCheck ← verifyEntryOwnership env db bagId entryType hospitalId;
     if negb (success ownershipCheck) then mret ownershipCheck
     else
       match tableOf entryType with
       | Some table =>
           result ← dbQuery env db (DeactivateBag table bagId hospitalId);
           liftM (queryCache_invalidate
                    (cacheNamespace table ++ ":" ++ numberToString hospitalId));;
           match result with
           | _ :: _ => mret succeeded
           | [] => mret (failed "Failed to delete entry")
           end
       | None => mret (failed "Invalid entry type")
       end)
    (fun error =>
       liftM (emit (EvConsole "Error soft-deleting blood entry:"));;
       appError ← logged error "Soft Delete Blood Entry";
       mret (mkActionResult false (Some (message appError)) (Js.details appError) None None)).

(** [verifyAdminCredentials]; [null] is [None]. *)
Definition verifyAdminCredentials (env : ProcessEnv) (db : Database)
    (username password : string) : S (option Row) :=
  if isPreviewMode env
  then if String.eqb username "admin" && String.eqb password "password"
       then mret (Some mockAdmin)
       else mret (Some previewAdmin)
  else
    stryCatch
      (match dbClient env with
       | None =>
           liftM (emit (EvConsole
                          "Database client not initialized, authentication will fail"));;
           mret None
       | Some _ =>
           result ← dbQuery env db (SelectAdmin username password);
           mret (head result)
       end)
      (fun error =>
         _ ← logged error "Verify Admin Credentials";
         mret None).

(** [addNewRedBloodBag] *)
Definition addNewRedBloodBag (env : ProcessEnv) (db : Database)
    (donorName : string) (amount hospitalId : Z) (expirationDate bloodType rh : string)
    (adminUsername adminPassword : option string) : S ActionResult :=
  stryCatch
    (match dbClient env with
     | None =>
         sthrow (ThrownApp
                   (mkAppError DATABASE_CONNECTION "Database client not initialized"
                      (Some "Database URL environment variable may be missing or invalid")
                      None))
     | Some _ =>
         rejected ←
           match adminUsername, adminPassword with
           | Some username, Some password =>
               if truthy_str adminUsername && truthy_str adminPassword
               then admin ← verifyAdminCredentials env db username password;
                    mret (match admin with Some _ => false | None => true end)
               else mret false
           | _, _ => mret false
           end;
         if (rejected : bool)
         then mret (mkActionResult false (Some "Invalid admin credentials") None
                                   (Some AUTHENTICATION) (Some false))
         else
           result ← dbQuery env db
                      (InsertRedBlood donorName amount hospitalId expirationDate bloodType rh);
           match result with
           | _ :: _ => mret succeeded
           | [] => mret (mkActionResult false (Some "Failed to add red blood cell bag") None
                                        (Some SERVER) (Some true))
           end
     end)
    (fun error =>
       liftM (emit (EvConsole "Add red blood cell error:"));;
       appError ← logged error "Add Red Blood Cell";
       mret (mkActionResult false (Some (message appError)) (Js.details appError)
                            (Some (Js.type appError)) (Some true))).

End WithErrorHandling.

End DataAccess.

(** ** The connection test ([testDatabaseConnection]) *)

Module ConnectionTest.

(** Whether a character occurs in a string. *)
Fixpoint hasChar (c : ascii) (s : string) : bool :=
  match s with
  | EmptyString => false
  | String x rest => Ascii.eqb x c || hasChar c rest
  end.

(** What [[^:]*] can consume at the start of [s]: its longest prefix
    without a colon, and what follows it. *)
Fixpoint spanNoColon (s : string) : string * string :=
  match s with
  | EmptyString => (EmptyString, EmptyString)
  | String c rest =>
      if Ascii.eqb c ":" then (EmptyString, s)
      else let (run, tail) := spanNoColon rest in (String c run, tail)
  end.

(** Where the greedy [[^:]*] is backtracked to for the [@] that ends the
    match: what follows the last [@] of [run], if it has one. *)
Fixpoint afterLastAt (run : string) : option string :=
  match run with
  | EmptyString => None
  | String c rest =>
      match afterLastAt rest with
      | Some kept => Some kept
      | None => if Ascii.eqb c "@" then Some rest else None
      end
  end.

(** [dbUrl.replace(/:[^:]*@/, ":****@")]: the leftmost match, which
    starts at a colon and ends at the last [@] before the next colon, is
    replaced; without a match the string is unchanged. *)
Fixpoint maskPassword (dbUrl : string) : string :=
  match dbUrl with
  | EmptyString => EmptyString
  | String c rest =>
      if Ascii.eqb c ":"
      then let (run, tail) := spanNoColon rest in
           match afterLastAt run with
           | Some kept => ":****@" ++ kept ++ tail
           | None => String c (maskPassword rest)
           end
      else String c (maskPassword rest)
  end.

(** How the test query settles, if it does: with the [version] column of
    its first row ([undefined] without a row), or with a failure. *)
Inductive TestQuery : Type :=
| TestResolves (version : option string) (elapsedMs : Z)
| TestRejects (e : Thrown) (elapsedMs : Z)
| TestHangs.

(** What the test meets: [neon(dbUrl)] may refuse the connection string,
    otherwise the query is issued. *)
Inductive TestOutcome : Type :=
| TestClientFails (e : Thrown)
| TestClientQueries (q : TestQuery).

Record Diagnostics : Type := mkDiagnostics {
  responseTimeMs : Z;
  databaseUrl : string;
  serverVersion : string;
}.

Record ConnectionResult : Type := mkConnectionResult {
  connected : bool;
  error : option string;
  diagnostics : option Diagnostics;
}.

(** [Promise.race([query, timeoutPromise])]: the version and the time
    taken, or what the [await] throws. *)
Definition raceWithTimeout (q : TestQuery) : (option string * Z) + Thrown :=
  let timedOut := inr (ThrownError "Database connection timed out") in
  match q with
  | TestResolves version d =>
      if Z.ltb d CONNECTION_TIMEOUT_MS then inl (version, d) else timedOut
  | TestRejects e d =>
      if Z.ltb d CONNECTION_TIMEOUT_MS then inr e else timedOut
  | TestHangs => timedOut
  end.

(** [result[0]?.version || "Unknown"] *)
Definition versionOf (version : option string) : string :=
  match version with
  | Some v => if String.eqb v EmptyString then "Unknown" else v
  | None => "Unknown"
  end.

(** [testDatabaseConnection], with the times in whole milliseconds: its
    result and the [CONNECTION_ERROR_MESSAGE] it leaves, from the one it
    found. *)
Definition testDatabaseConnection (env : ProcessEnv) (outcome : TestOutcome)
    (CONNECTION_ERROR_MESSAGE : string) : ConnectionResult * string :=
  if isPreviewEnvironment env
  then (mkConnectionResult true None
          (Some (mkDiagnostics 0 "preview-mode-mock-url" "PostgreSQL 14.0 (preview mode)")),
        CONNECTION_ERROR_MESSAGE)
  else
    let missing :=
      let errorMsg := "Database connection string is missing" in
      (mkConnectionResult false (Some errorMsg) None, errorMsg) in
    match getDatabaseUrl env with
    | None => missing
    | Some dbUrl =>
        if String.eqb dbUrl EmptyString then missing
        else
          match outcome with
          | TestClientFails error =>
              let errorMessage :=
                match instanceofError error with
                | Some message => message
                | None => "Unknown database connection error"
                end in
              (mkConnectionResult false (Some errorMessage) None, errorMessage)
          | TestClientQueries q =>
              match raceWithTimeout q with
              | inl (version, responseTimeMs) =>
                  (mkConnectionResult true None
                     (Some (mkDiagnostics responseTimeMs (maskPassword dbUrl)
                                          (versionOf version))),
                   EmptyString)
              | inr fetchError =>
                  let errorMessage :=
                    match instanceofError fetchError with
                    | Some message => "Error connecting to database: " ++ message
                    | None => "Failed to connect to database"
                    end in
                  (mkConnectionResult false (Some errorMessage) None, errorMessage)
              end
          end
    end.

End ConnectionTest.

(** ** The lookups of [lib/db-health.ts] that go through [executeQuery] *)

Module Lookups.

(** [MOCK_DATA.hospitals], each with its [hospital_id] and
    [hospital_name], and its first element. *)
Definition MOCK_hospitals_0 : Z * string := (1%Z, "Central Hospital").
Definition MOCK_hospitals : list (Z * string) :=
  [MOCK_hospitals_0; (2%Z, "Memorial Medical Center"); (3%Z, "University Hospital")].

(** What [getHospitalById] returns: one of the mock hospitals, or what
    [executeQuery] returned. *)
Inductive HospitalData : Type :=
| MockHospital (hospital : Z * string)
| QueriedHospital (v : JsValue).

(** What [getBloodInventory] returns: [MOCK_DATA.redblood], or what
    [executeQuery] returned. *)
Inductive Inventory : Type :=
| MockInventory
| QueriedInventory (v : JsValue).

(** What the [SELECT] of the hospital does at one invocation: it answers
    rows, each an object, or fails, after some time. *)
Inductive SelectOutcome : Type :=
| SelectRows (rows : list positive) (elapsedMs : Z)
| SelectFails (e : Thrown) (elapsedMs : Z).

(** The [queryFn] of [getHospitalById]. *)
Definition hospitalQuery (select : nat -> SelectOutcome) : Operation :=
  fun k =>
    match select k with
    | SelectRows [] d =>
        OpRejects (ThrownApp (mkAppError NOT_FOUND "Hospital not found" None None)) d
    | SelectRows (row :: _) d => OpResolves (JObj row) d
    | SelectFails e d => OpRejects e d
    end.

(** What the [SELECT] of the inventory does at one invocation: it answers
    rows, of which [map] makes the array [mapped], or fails. *)
Inductive InventoryOutcome : Type :=
| InventoryAnswers (mapped : positive) (elapsedMs : Z)
| InventoryFails (e : Thrown) (elapsedMs : Z).

(** The [queryFn] of [getBloodInventory]. *)
Definition inventoryQuery (select : nat -> InventoryOutcome) : Operation :=
  fun k =>
    match select k with
    | InventoryAnswers mapped d => OpResolves (JObj mapped) d
    | InventoryFails e d => OpRejects e d
    end.

(** Whether [queryDatabase] stops before the operation: there is no
    client, or the gate of the critical queries is closed. *)
Definition stopsEarly (env : ProcessEnv) (options : QueryOptions) (w : World) : bool :=
  match dbClient env with
  | None => true
  | Some _ =>
      default false (critical options) && negb (isConnected (dbHealthStatus w)) &&
      Z.ltb (clock w - 60000) (lastChecked (dbHealthStatus w))
  end.

Section WithCollaborators.

Variable logError : Thrown -> string -> AppError.
Variable DEFAULT_RETRY_CONFIG : RetryConfig.

(** [getHospitalById]; [NODE_ENV] is [process.env.NODE_ENV]. *)
Definition getHospitalById (NODE_ENV : option string) (env : ProcessEnv)
    (hospitalId : Z) (select : nat -> SelectOutcome) : M HospitalData :=
  if isPreviewMode env
  then mret (MockHospital
               (default MOCK_hospitals_0
                        (List.find (fun h => Z.eqb (fst h) hospitalId) MOCK_hospitals)))
  else
    tryCatch
      (let cacheKey := ("hospital:" ++ DataAccess.numberToString hospitalId)%string in
       v ← executeQuery logError DEFAULT_RETRY_CONFIG env (hospitalQuery select)
                        (mkOptions (Some cacheKey) None None (Some true));
       mret (QueriedHospital v))
      (fun error =>
         if str_is NODE_ENV "production"
         then emit (EvConsole "Error getting hospital data, using mock data:");;
              mret (MockHospital MOCK_hospitals_0)
         else emit (EvLogError "Get Hospital");;
              throw (ThrownApp (logError error "Get Hospital"))).

(** [getBloodInventory] *)
Definition getBloodInventory (NODE_ENV : option string) (env : ProcessEnv)
    (hospitalId : Z) (select : nat -> InventoryOutcome) : M Inventory :=
  if isPreviewMode env then mret MockInventory
  else
    tryCatch
      (let cacheKey := ("redblood:" ++ DataAccess.numberToString hospitalId)%string in
       v ← executeQuery logError DEFAULT_RETRY_CONFIG env (inventoryQuery select)
                        (mkOptions (Some cacheKey) None None None);
       mret (QueriedInventory v))
      (fun error =>
         if str_is NODE_ENV "production" || isPreviewMode env
         then emit (EvConsole "Error getting blood inventory, using mock data:");;
              mret MockInventory
         else emit (EvLogError "Get Blood Inventory");;
              throw (ThrownApp (logError error "Get Blood Inventory"))).

End WithCollaborators.

End Lookups.

(** * Properties *)

Local Open Scope list_scope.

(** ** The query cache *)

Section CacheProperties.

Import Cache.

Lemma get_fresh key now (c : gmap string CacheEntry) e :
  c !! key = Some e -> (now <= expiresAt e)%Z -> get key now c = (Some (value e), c).
Proof.
  intros Hk Hle. unfold get. rewrite Hk.
  destruct (Z.ltb_spec (expiresAt e) now); [lia | reflexivity].
Qed.

Lemma get_expired key now (c : gmap string CacheEntry) e :
  c !! key = Some e -> (expiresAt e < now)%Z -> get key now c = (None, delete key c).
Proof.
  intros Hk Hlt. unfold get. rewrite Hk.
  destruct (Z.ltb_spec (expiresAt e) now); [reflexivity | lia].
Qed.

Lemma get_absent key now (c : gmap string CacheEntry) :
  c !! key = None -> get key now c = (None, c).
Proof. intros Hk. unfold get. now rewrite Hk. Qed.

(** A read returns only what an entry holds, and only up to its expiry. *)
Lemma get_Some_inv key now (c : gmap string CacheEntry) v :
  fst (get key now c) = Some v ->
  exists e, c !! key = Some e /\ value e = v /\ (now <= expiresAt e)%Z.
Proof.
  unfold get. destruct (c !! key) as [e|] eqn:Hk; [|discriminate].
  destruct (Z.ltb_spec (expiresAt e) now); simpl; [discriminate|].
  intros [= <-]. eauto.
Qed.

(** A read of any key leaves an entry that has not expired at that time. *)
Lemma get_keeps key k now (c : gmap string CacheEntry) e :
  c !! key = Some e -> (now <= expiresAt e)%Z -> snd (get k now c) !! key = Some e.
Proof.
  intros Hk Hle. unfold get.
  destruct (c !! k) as [e'|] eqn:Hk'; [|exact Hk].
  destruct (Z.ltb_spec (expiresAt e') now); simpl; [|exact Hk].
  destruct (decide (k = key)) as [->|Hne].
  - rewrite Hk in Hk'. injection Hk' as <-. lia.
  - now rewrite lookup_delete_ne.
Qed.

(** Reads never bring an entry into the store, nor change one. *)
Lemma get_lookup_inv key k now (c : gmap string CacheEntry) e :
  snd (get k now c) !! key = Some e -> c !! key = Some e.
Proof.
  unfold get. destruct (c !! k) as [e'|] eqn:Hk'; [|auto].
  destruct (Z.ltb (expiresAt e') now); simpl; [|auto].
  intros H. apply lookup_delete_Some in H. tauto.
Qed.

Lemma readAll_keeps reads : forall key t (c : gmap string CacheEntry) e,
  Forall (fun r => (snd r <= t)%Z) reads ->
  c !! key = Some e -> (t <= expiresAt e)%Z ->
  readAll reads c !! key = Some e.
Proof.
  induction reads as [|[k now] rest IH]; intros key t c e Hall Hk Hle; simpl; [exact Hk|].
  inversion Hall as [|? ? Hnow Hrest]; subst. simpl in Hnow.
  apply (IH key t); [exact Hrest | | exact Hle].
  apply get_keeps; [exact Hk | lia].
Qed.

Lemma readAll_lookup_inv reads : forall key (c : gmap string CacheEntry) e,
  readAll reads c !! key = Some e -> c !! key = Some e.
Proof.
  induction reads as [|[k now] rest IH]; intros key c e H; simpl in H; [exact H|].
  apply IH in H. now apply get_lookup_inv in H.
Qed.

Lemma lookup_invalidateByPrefix namespace key (c : gmap string CacheEntry) :
  invalidateByPrefix namespace c !! key =
  if startsWith key (namespace ++ ":") then None else c !! key.
Proof.
  unfold invalidateByPrefix.
  destruct (startsWith key (namespace ++ ":")) eqn:Hp.
  - apply map_lookup_filter_None. right. intros e _. simpl. rewrite Hp. discriminate.
  - destruct (c !! key) as [e|] eqn:Hk.
    + apply map_lookup_filter_Some. split; [exact Hk | simpl; exact Hp].
    + apply map_lookup_filter_None. left. exact Hk.
Qed.

End CacheProperties.

(** ** The retry executor *)

Section RetryProperties.

Lemma callOperation_eq op w :
  callOperation op w = (resultOf (op (opCalls w)), settled (op (opCalls w)) w).
Proof. unfold callOperation, settled. now destruct (op (opCalls w)). Qed.

Lemma retryFrom_unfold config operation attempt w :
  retryFrom config operation attempt w =
  match operation w with
  | (Returned r, w1) => (Returned r, w1)
  | (Threw e, w1) =>
      if retryableCheck config e
      then if le_lt_dec (maxAttempts config) attempt
           then (Threw e, w1)
           else retryFrom config operation (S attempt)
                          (snd (sleep (backoffDelay config attempt) w1))
      else (Threw e, w1)
  end.
Proof.
  funelim (retryFrom config operation attempt w);
    repeat match goal with
           | H : operation _ = _ |- _ => rewrite H; clear H
           | H : retryableCheck _ _ = _ |- _ => rewrite H; clear H
           | H : le_lt_dec _ _ = _ |- _ => rewrite H; clear H
           end; reflexivity.
Qed.

Lemma sleep_eq ms w :
  sleep ms w = (Returned tt, with_clock (clock w + ms) (record (EvSleep ms) w)).
Proof. reflexivity. Qed.

(** What a run of the loop leaves: the cache and the health snapshot
    untouched, at least one invocation, the outcome of the last one as
    the result, and only invocations and waits in between. *)
Lemma retryFrom_run config operation op :
  (forall w0, operation w0 = callOperation op w0) ->
  forall n attempt w res w',
    (maxAttempts config - attempt)%nat = n ->
    retryFrom config operation attempt w = (res, w') ->
    cache w' = cache w /\ dbHealthStatus w' = dbHealthStatus w /\
    (exists last, opCalls w' = S last /\ (opCalls w <= last)%nat /\
                  res = resultOf (op last)) /\
    (exists tr, trace w' = trace w ++ tr /\ Forall retryEvent tr).
Proof.
  intros Hop n. induction n as [n IH] using lt_wf_ind.
  intros attempt w res w' Hn Hrun.
  assert (Hstop : (resultOf (op (opCalls w)), settled (op (opCalls w)) w) = (res, w') ->
                  cache w' = cache w /\ dbHealthStatus w' = dbHealthStatus w /\
                  (exists last, opCalls w' = S last /\ (opCalls w <= last)%nat /\
                                res = resultOf (op last)) /\
                  (exists tr, trace w' = trace w ++ tr /\ Forall retryEvent tr)).
  { intros [= <- <-]. repeat split.
    - exists (opCalls w). repeat split; lia.
    - exists [EvOperation (opCalls w)]. split; [reflexivity | repeat constructor]. }
  rewrite retryFrom_unfold, Hop, callOperation_eq in Hrun.
  destruct (resultOf (op (opCalls w))) as [r|e] eqn:Hres; [now apply Hstop|].
  destruct (retryableCheck config e); [|now apply Hstop].
  destruct (le_lt_dec (maxAttempts config) attempt) as [Hle|Hlt]; [now apply Hstop|].
  rewrite sleep_eq in Hrun. simpl in Hrun.
  apply (IH (maxAttempts config - S attempt)%nat) in Hrun; [|lia|reflexivity].
  destruct Hrun as (Hc & Hh & (last & Hl1 & Hl2 & Hl3) & (tr & Ht1 & Ht2)).
  simpl in *. repeat split; [exact Hc | exact Hh | | ].
  - exists last. repeat split; [exact Hl1 | lia | exact Hl3].
  - exists (EvOperation (opCalls w) :: EvSleep (backoffDelay config attempt) :: tr).
    split; [| repeat constructor; exact Ht2].
    rewrite Ht1. rewrite <- !app_assoc. reflexivity.
Qed.

(** The loop does not look at the cache. *)
Lemma retryFrom_with_cache config operation op c :
  (forall w0, operation w0 = callOperation op w0) ->
  forall n attempt w,
    (maxAttempts config - attempt)%nat = n ->
    retryFrom config operation attempt (with_cache c w) =
    (fst (retryFrom config operation attempt w),
     with_cache c (snd (retryFrom config operation attempt w))).
Proof.
  intros Hop n. induction n as [n IH] using lt_wf_ind.
  intros attempt w Hn.
  rewrite (retryFrom_unfold config operation attempt w),
          (retryFrom_unfold config operation attempt (with_cache c w)).
  rewrite !Hop, !callOperation_eq. simpl.
  destruct (resultOf (op (opCalls w))) as [r|e]; [reflexivity|].
  destruct (retryableCheck config e); [|reflexivity].
  destruct (le_lt_dec (maxAttempts config) attempt) as [Hle|Hlt]; [reflexivity|].
  rewrite <- (IH (maxAttempts config - S attempt)%nat ltac:(lia) (S attempt) _ eq_refl).
  reflexivity.
Qed.

End RetryProperties.

(** ** Strings *)

Section StringProperties.

Lemma startsWith_spec p : forall s,
  startsWith s p = true <-> exists rest, s = (p ++ rest)%string.
Proof.
  unfold startsWith. induction p as [|a p IH]; intros s; simpl.
  - split; [intros _; now exists s | intros _; now destruct s].
  - destruct s as [|b s]; simpl.
    + split; [discriminate | intros [rest H]; discriminate].
    + destruct (Ascii.ascii_dec a b) as [->|Hne].
      * rewrite IH. split; intros [rest H]; exists rest.
        -- now rewrite H.
        -- now injection H.
      * split; [discriminate|].
        intros [rest H]. injection H as H1 H2. exfalso. apply Hne. now symmetry.
Qed.

End StringProperties.

(** ** Claims on the query cache and on the retry executor *)

Section CacheAndRetryClaims.

Import Cache.

(** C6: a value stored by [set] with some TTL is what [get] returns at
    every time strictly before the TTL has elapsed since the [set] (also
    after any reads made up to that time), [get] returns absent at every
    time after the TTL has elapsed, and whatever [get] returns belongs to
    an entry that is not past its expiry timestamp. *)
Theorem C6_ttl_expiry :
  forall (c : gmap string CacheEntry) key v ttl t0 reads t,
    (Forall (fun r => (snd r <= t)%Z) reads -> (t - t0 < ttl)%Z ->
     fst (get key t (readAll reads (set key v ttl t0 c))) = Some v) /\
    ((ttl < t - t0)%Z ->
     fst (get key t (readAll reads (set key v ttl t0 c))) = None) /\
    (forall (c' : gmap string CacheEntry) now v',
       fst (get key now c') = Some v' ->
       exists e, c' !! key = Some e /\ value e = v' /\ (now <= expiresAt e)%Z).
Proof.
  intros c key v ttl t0 reads t.
  assert (Hset : set key v ttl t0 c !! key = Some (mkEntry v (t0 + ttl))).
  { unfold set. apply lookup_insert_eq. }
  split; [|split].
  - intros Hreads Hlt.
    rewrite (get_fresh key t _ (mkEntry v (t0 + ttl))); [reflexivity | | simpl; lia].
    apply (readAll_keeps reads key t); [exact Hreads | exact Hset | simpl; lia].
  - intros Hgt.
    destruct (readAll reads (set key v ttl t0 c) !! key) as [e|] eqn:Hk.
    + pose proof (readAll_lookup_inv _ _ _ _ Hk) as Hk0.
      rewrite Hset in Hk0. injection Hk0 as <-.
      rewrite (get_expired key t _ _ Hk); [reflexivity | simpl; lia].
    + now rewrite get_absent.
  - intros c' now v'. apply get_Some_inv.
Qed.

Lemma C6_ttl_expiry_witness :
  fst (get "k" 50 (set "k" (JNum 42) 100 0 ∅)) = Some (JNum 42) /\
  fst (get "k" 150 (set "k" (JNum 42) 100 0 ∅)) = None.
Proof.
  destruct (C6_ttl_expiry ∅ "k" (JNum 42) 100 0 [] 50) as (Hbefore & _ & _).
  destruct (C6_ttl_expiry ∅ "k" (JNum 42) 100 0 [] 150) as (_ & Hafter & _).
  split; [apply Hbefore; [constructor | lia] | apply Hafter; lia].
Defined.

(** C8: [invalidateByPrefix(namespace)] removes exactly the entries whose
    key starts with the namespace followed by a colon and leaves every
    other entry unchanged; [invalidateByPrefix("platelets")] removes
    ["platelets:1"] and ["platelets:2"] and leaves ["plasma:1"] as it
    was. *)
Theorem C8_invalidateByPrefix_exact :
  forall (c : gmap string CacheEntry),
    (forall namespace key,
       (exists rest, key = (namespace ++ ":" ++ rest)%string) ->
       invalidateByPrefix namespace c !! key = None) /\
    (forall namespace key,
       ~ (exists rest, key = (namespace ++ ":" ++ rest)%string) ->
       invalidateByPrefix namespace c !! key = c !! key) /\
    invalidateByPrefix "platelets" c !! "platelets:1" = None /\
    invalidateByPrefix "platelets" c !! "platelets:2" = None /\
    invalidateByPrefix "platelets" c !! "plasma:1" = c !! "plasma:1".
Proof.
  intros c.
  assert (Hassoc : forall a b rest : string,
             (a ++ b ++ rest = (a ++ b) ++ rest)%string).
  { intros a b rest. induction a as [|x a IH]; [reflexivity|].
    change (String x (a ++ b ++ rest) = String x ((a ++ b) ++ rest))%string.
    f_equal. exact IH. }
  split; [|split; [|split; [|split]]].
  - intros namespace key [rest ->]. rewrite lookup_invalidateByPrefix.
    replace (startsWith (namespace ++ ":" ++ rest) (namespace ++ ":")) with true;
      [reflexivity|].
    symmetry. apply startsWith_spec. exists rest. apply Hassoc.
  - intros namespace key Hno. rewrite lookup_invalidateByPrefix.
    destruct (startsWith key (namespace ++ ":")) eqn:Hp; [|reflexivity].
    apply startsWith_spec in Hp. destruct Hp as [rest ->].
    exfalso. apply Hno. exists rest. symmetry. apply Hassoc.
  - now rewrite lookup_invalidateByPrefix.
  - now rewrite lookup_invalidateByPrefix.
  - now rewrite lookup_invalidateByPrefix.
Qed.

Lemma C8_invalidateByPrefix_exact_witness :
  let c : gmap string CacheEntry :=
    <["platelets:1" := mkEntry (JObj 1) 100]>
      (<["platelets:2" := mkEntry (JObj 2) 100]>
         (<["plasma:1" := mkEntry (JObj 3) 100]> ∅)) in
  invalidateByPrefix "platelets" c !! "platelets:2" = None /\
  invalidateByPrefix "platelets" c !! "plasma:1" = Some (mkEntry (JObj 3) 100).
Proof.
  intros c.
  destruct (C8_invalidateByPrefix_exact c) as (Hin & Hout & _).
  split.
  - apply Hin. exists "2". reflexivity.
  - rewrite Hout; [reflexivity|].
    intros [rest Hrest]. discriminate Hrest.
Defined.

(** C3: under [{maxAttempts: 3, baseDelayMs: 10, backoffMultiplier: 2}],
    an operation that fails on every attempt with an error the retry
    predicate deems retryable is invoked exactly 3 times, with waits of
    10 ms and then 20 ms, the delays [baseDelayMs × backoffMultiplier^(attempt-1)]
    of attempts 1 and 2, before the re-attempts, and the error propagated
    is the one of the 3rd attempt.  The waits are time that passes: the
    call ends 10 + 20 ms later than the three attempts alone take. *)
Theorem C3_retry_exhaustion :
  forall (op : Operation) (retryable : Thrown -> bool) (w : World),
    (forall k, exists e d, op k = OpRejects e d /\ retryable e = true) ->
    let config := mkRetryConfig 3 10 2 retryable in
    let first := opCalls w in
    exists e1 d1 e2 d2 e3 d3 w',
      op first = OpRejects e1 d1 /\
      op (first + 1)%nat = OpRejects e2 d2 /\
      op (first + 2)%nat = OpRejects e3 d3 /\
      withRetry (callOperation op) config w = (Threw e3, w') /\
      opCalls w' = (first + 3)%nat /\
      trace w' = trace w ++ [EvWithRetry;
                             EvOperation first; EvSleep 10;
                             EvOperation (first + 1); EvSleep 20;
                             EvOperation (first + 2)] /\
      clock w' = (clock w + d1 + 10 + d2 + 20 + d3)%Z /\
      backoffDelay config 1 = 10%Z /\ backoffDelay config 2 = 20%Z.
Proof.
  intros op retryable w Hall config first.
  destruct (Hall first) as (e1 & d1 & H1 & R1).
  destruct (Hall (S first)) as (e2 & d2 & H2 & R2).
  destruct (Hall (S (S first))) as (e3 & d3 & H3 & R3).
  replace (first + 2)%nat with (S (S first)) by lia.
  replace (first + 1)%nat with (S first) by lia.
  replace (first + 3)%nat with (S (S (S first))) by lia.
  exists e1, d1, e2, d2, e3, d3.
  unfold withRetry, mbind, M_bind, bind, emit, modify.
  rewrite retryFrom_unfold, callOperation_eq. simpl. fold first.
  rewrite H1. simpl. rewrite R1. simpl.
  rewrite retryFrom_unfold, callOperation_eq. simpl. fold first.
  rewrite H2. simpl. rewrite R2. simpl.
  rewrite retryFrom_unfold, callOperation_eq. simpl. fold first.
  rewrite H3. simpl. rewrite R3. simpl.
  eexists. do 3 (split; [reflexivity|]). split; [reflexivity|]. split; [reflexivity|].
  simpl. rewrite <- !app_assoc. simpl.
  repeat split; reflexivity.
Qed.

Lemma C3_retry_exhaustion_witness :
  let op : Operation := fun k => OpRejects (ThrownValue (JNum (Z.of_nat k))) 1 in
  fst (withRetry (callOperation op) (mkRetryConfig 3 10 2 (fun _ => true)) initialWorld)
  = Threw (ThrownValue (JNum 2)) /\
  clock (snd (withRetry (callOperation op) (mkRetryConfig 3 10 2 (fun _ => true))
                        initialWorld))
  = 33%Z.
Proof.
  intros op.
  destruct (C3_retry_exhaustion op (fun _ => true) initialWorld)
    as (e1 & d1 & e2 & d2 & e3 & d3 & w' & H1 & H2 & H3 & Hrun & _ & _ & Hclock & _).
  - intros k. exists (ThrownValue (JNum (Z.of_nat k))), 1%Z. split; reflexivity.
  - rewrite Hrun. cbv in H1, H2, H3.
    injection H1 as _ <-. injection H2 as _ <-. injection H3 as <- <-.
    split; [reflexivity | exact Hclock].
Defined.

(** C7: when the first attempt of the operation fails with an error the
    retry predicate deems non-retryable, [withRetry] invokes the
    operation exactly once, waits for nothing and propagates that
    failure, whatever [maxAttempts] is. *)
Theorem C7_non_retryable_short_circuit :
  forall (config : RetryConfig) (op : Operation) (w : World) e d,
    op (opCalls w) = OpRejects e d ->
    retryableCheck config e = false ->
    exists w',
      withRetry (callOperation op) config w = (Threw e, w') /\
      opCalls w' = S (opCalls w) /\
      trace w' = trace w ++ [EvWithRetry; EvOperation (opCalls w)].
Proof.
  intros config op w e d Hop Hno.
  unfold withRetry, mbind, M_bind, bind, emit, modify.
  rewrite retryFrom_unfold, callOperation_eq. simpl.
  rewrite Hop. simpl. rewrite Hno.
  eexists. split; [reflexivity|]. split; [reflexivity|].
  simpl. now rewrite <- app_assoc.
Qed.

Lemma C7_non_retryable_short_circuit_witness :
  let op : Operation := fun _ => OpRejects (ThrownError "syntax error") 3 in
  exists w',
    withRetry (callOperation op) (mkRetryConfig 1000 500 2 retryableFlag) initialWorld
    = (Threw (ThrownError "syntax error"), w') /\
    opCalls w' = 1%nat.
Proof.
  intros op.
  destruct (C7_non_retryable_short_circuit
              (mkRetryConfig 1000 500 2 retryableFlag) op initialWorld
              (ThrownError "syntax error") 3 eq_refl eq_refl) as (w' & Hrun & Hcalls & _).
  exists w'. split; [exact Hrun | exact Hcalls].
Defined.

End CacheAndRetryClaims.

(** ** The health monitor *)

Ltac unfold_M :=
  unfold mbind, M_bind, mret, M_ret, bind, ret, throw, tryCatch, gets, modify, emit, elapse
    in *.

Section HealthProperties.

Variable logError : Thrown -> string -> AppError.

Lemma probes_app tr1 tr2 : probes (tr1 ++ tr2) = (probes tr1 + probes tr2)%nat.
Proof.
  induction tr1 as [|ev tr1 IH]; [reflexivity|].
  destruct ev; simpl; rewrite IH; reflexivity.
Qed.

Lemma flushes_app tr1 tr2 : flushes (tr1 ++ tr2) = (flushes tr1 + flushes tr2)%nat.
Proof.
  induction tr1 as [|ev tr1 IH]; [reflexivity|].
  destruct ev; simpl; rewrite IH; reflexivity.
Qed.

(** The [try] block either publishes a connected snapshot or throws, and
    touches neither the cache nor the trace. *)
Lemma probeDatabase_run env probe w :
  (exists rt t, probeDatabase env probe w =
                (Returned (mkHealth true t rt None),
                 with_health (mkHealth true t rt None) (with_clock t w))) \/
  (exists err t, probeDatabase env probe w = (Threw err, with_clock t w)).
Proof.
  unfold probeDatabase.
  destruct (getDatabaseUrl env) as [dbUrl|].
  2:{ right. eexists _, (clock w). unfold_M. destruct w; reflexivity. }
  destruct probe as [e|q].
  { right. exists e, (clock w). unfold_M. destruct w; reflexivity. }
  unfold raceWithTimeout, publish.
  destruct q as [d|e d|];
    try destruct (Z.ltb d CONNECTION_TIMEOUT_MS);
    unfold_M; simpl;
    solve [ left; eexists _, _; reflexivity | right; eexists _, _; reflexivity ].
Qed.

(** A probe always returns the snapshot it has just recorded. *)
Lemma checkDbHealth_run env probe w :
  exists st t tr,
    checkDbHealth logError env probe w =
    (Returned st, mkWorld (cache w) st t (opCalls w) (trace w ++ EvProbe :: tr)) /\
    probes tr = O /\ flushes tr = O.
Proof.
  unfold checkDbHealth. unfold mbind at 1. unfold M_bind, bind, emit, modify. simpl.
  destruct (isPreviewEnvironment env).
  { unfold publish. unfold_M. simpl. eexists _, _, []. repeat split. }
  unfold tryCatch.
  destruct (probeDatabase_run env probe (record EvProbe w))
    as [(rt & t & ->)|(err & t & ->)].
  - eexists _, _, []. repeat split.
  - unfold publish. unfold_M. simpl.
    eexists _, _, [EvLogError _]. split; [|split; reflexivity].
    unfold with_health, record, with_clock. simpl.
    rewrite <- app_assoc. reflexivity.
Qed.

(** The callback of the timer never throws, runs one probe and never
    flushes the cache: the snapshot it compares the probe's result with
    is the one the probe has just recorded. *)
Lemma onInterval_run env probe w :
  exists w',
    onInterval logError env probe w = (Returned tt, w') /\
    cache w' = cache w /\ opCalls w' = opCalls w /\
    probes (trace w') = S (probes (trace w)) /\
    flushes (trace w') = flushes (trace w).
Proof.
  unfold onInterval, tryCatch. unfold mbind at 1. unfold M_bind, bind.
  destruct (checkDbHealth_run env probe w) as (st & t & tr & -> & Hp & Hf).
  unfold mbind, M_bind, bind, gets. simpl.
  rewrite andb_negb_r. unfold mret, M_ret, ret.
  eexists. split; [reflexivity|]. simpl.
  rewrite probes_app, flushes_app. simpl. rewrite Hp, Hf.
  repeat split; lia.
Qed.

Lemma runInterval_run env firings : forall w,
  exists w',
    runInterval logError env firings w = (Returned tt, w') /\
    cache w' = cache w /\
    probes (trace w') = (probes (trace w) + length firings)%nat /\
    flushes (trace w') = flushes (trace w).
Proof.
  induction firings as [|[idle probe] rest IH]; intros w; simpl.
  - exists w. repeat split; lia.
  - unfold mbind, M_bind, bind, elapse, modify.
    destruct (onInterval_run env probe (with_clock (clock w + idle) w))
      as (w1 & -> & Hc1 & _ & Hp1 & Hf1).
    destruct (IH w1) as (w' & -> & Hc & Hp & Hf).
    exists w'. split; [reflexivity|].
    rewrite Hc, Hp, Hf, Hc1, Hp1, Hf1. simpl. repeat split; lia.
Qed.

(** [startHealthChecks] never throws and never flushes the cache; where
    the timer is started, the initial probe and one probe per firing run. *)
Lemma startHealthChecks_run env initial firings w :
  exists w',
    startHealthChecks logError env initial firings w = (Returned tt, w') /\
    cache w' = cache w /\
    flushes (trace w') = flushes (trace w) /\
    (isPreviewEnvironment env = false ->
     probes (trace w') = (probes (trace w) + S (length firings))%nat).
Proof.
  unfold startHealthChecks.
  destruct (isPreviewEnvironment env) eqn:Henv.
  { exists w. repeat split. discriminate. }
  unfold mbind at 1. unfold M_bind, bind, tryCatch.
  unfold mbind at 1. unfold M_bind, bind.
  destruct (checkDbHealth_run env initial w) as (st & t & tr & -> & Hp & Hf).
  unfold mret, M_ret, ret.
  match goal with
  | |- context [runInterval _ _ _ ?w1] =>
      destruct (runInterval_run env firings w1) as (w' & -> & Hc' & Hp' & Hf')
  end.
  exists w'. split; [reflexivity|].
  rewrite Hc', Hp', Hf'. simpl.
  rewrite probes_app, flushes_app. simpl. rewrite Hp, Hf.
  repeat split; lia.
Qed.

End HealthProperties.

(** ** Claims on the health monitor *)

Section HealthClaims.



(** C1: the monitor never calls [invalidateAll]: no run of
    [startHealthChecks] flushes the cache, whatever its probes meet; in
    particular, when the initial probe records a disconnected status and
    the probe of the first firing records a connected one, a populated
    cache is left as it was, where the claim has one flush. *)
Theorem C1_recovery_never_flushes :
  (forall (logError : Thrown -> string -> AppError) env initial firings w,
     exists w',
       startHealthChecks logError env initial firings w = (Returned tt, w') /\
       cache w' = cache w /\
       flushes (trace w') = flushes (trace w)) /\
  (let down :=
     snd (startHealthChecks sampleLogError production (ClientQueries QueryHangs) []
                            populated) in
   let up :=
     snd (startHealthChecks sampleLogError production (ClientQueries QueryHangs) recovery
                            populated) in
   isConnected (dbHealthStatus down) = false /\
   isConnected (dbHealthStatus up) = true /\
   probes (trace up) = 2%nat /\
   flushes (trace up) = O /\
   cache up = cache populated /\
   cache populated !! "platelets:1" = Some (Cache.mkEntry (JObj 1) 1700000060000)).
Proof.
  split.
  - intros logError env initial firings w.
    destruct (startHealthChecks_run logError env initial firings w)
      as (w' & Hrun & Hc & Hf & _).
    exists w'. repeat split; assumption.
  - vm_compute. repeat split; reflexivity.
Qed.

End HealthClaims.

(** ** The query execution facade *)

Section FacadeProperties.

Variable logError : Thrown -> string -> AppError.
Variable DEFAULT_RETRY_CONFIG : RetryConfig.

Lemma truthy_str_nonempty key : key <> EmptyString -> truthy_str (Some key) = true.
Proof.
  intros Hne. unfold truthy_str.
  destruct (String.eqb_spec key EmptyString); [contradiction | reflexivity].
Qed.

Lemma with_cache_same w : with_cache (cache w) w = w.
Proof. now destruct w. Qed.

Lemma enhanced_callOperation queryFn w :
  enhanced (callOperation queryFn) w = callOperation (enhanceOp queryFn) w.
Proof.
  unfold enhanced, tryCatch, throw. rewrite !callOperation_eq.
  unfold enhanceOp. destruct (queryFn (opCalls w)); reflexivity.
Qed.

(** The cache check never throws, reports only truthy values and leaves
    everything but the cache and the trace as it was. *)
Lemma cachedResult_run cacheKey w :
  exists hit c,
    cachedResult cacheKey w =
    (Returned hit,
     mkWorld c (dbHealthStatus w) (clock w) (opCalls w) (trace w ++ lookupEvents cacheKey)) /\
    (forall v, hit = Some v -> truthy v = true).
Proof.
  unfold cachedResult, lookupEvents.
  assert (Hnone : exists hit c,
             @mret M _ _ (@None JsValue) w =
             (Returned hit,
              mkWorld c (dbHealthStatus w) (clock w) (opCalls w) (trace w ++ [])) /\
             (forall v, hit = Some v -> truthy v = true)).
  { exists None, (cache w). rewrite app_nil_r. destruct w. split; [reflexivity | discriminate]. }
  destruct cacheKey as [key|]; [|exact Hnone].
  destruct (truthy_str (Some key)); [|exact Hnone].
  unfold_M. unfold queryCache_get.
  destruct (Cache.get key (clock w) (cache w)) as [[v|] c]; simpl.
  - destruct (truthy v) eqn:Hv.
    + exists (Some v), c. split; [reflexivity | intros ? [= <-]; exact Hv].
    + exists None, c. split; [reflexivity | discriminate].
  - exists None, c. split; [reflexivity | discriminate].
Qed.

(** The retry executor under the facade: the result is the outcome of
    the last invocation, as the wrapper shows it. *)
Lemma withRetry_run config queryFn w res w' :
  withRetry (enhanced (callOperation queryFn)) config w = (res, w') ->
  cache w' = cache w /\ dbHealthStatus w' = dbHealthStatus w /\
  (exists last, opCalls w' = S last /\ (opCalls w <= last)%nat /\
                res = resultOf (enhanceOp queryFn last)) /\
  (exists tr, trace w' = trace w ++ EvWithRetry :: tr /\ Forall retryEvent tr).
Proof.
  unfold withRetry. unfold_M. intros Hrun.
  apply (retryFrom_run config _ (enhanceOp queryFn) (enhanced_callOperation queryFn)
                       _ _ _ _ _ eq_refl) in Hrun.
  simpl in Hrun. destruct Hrun as (Hc & Hh & Hlast & (tr & Ht & Hev)).
  repeat split; [exact Hc | exact Hh | exact Hlast |].
  exists tr. split; [|exact Hev]. rewrite Ht, <- app_assoc. reflexivity.
Qed.

Lemma healthGate_run critical w :
  healthGate critical w = (Returned tt, w) \/
  exists e, healthGate critical w = (Threw (ThrownApp e), w) /\
            type e = DATABASE_CONNECTION /\ critical = true /\
            isConnected (dbHealthStatus w) = false /\
            (clock w - 60000 < lastChecked (dbHealthStatus w))%Z.
Proof.
  unfold healthGate, getDbHealthStatus. destruct critical; [|now left].
  unfold_M. simpl.
  destruct (isConnected (dbHealthStatus w)) eqn:Hc; simpl; [now left|].
  destruct (Z.ltb_spec (clock w - 60000) (lastChecked (dbHealthStatus w))); [|now left].
  right. eexists. repeat split; solve [reflexivity | assumption].
Qed.

(** Every run of [executeQuery] either stops before the operation, with
    a failure or a truthy cached value, or goes through the retry
    executor, whose result decides the rest. *)
Lemma executeQuery_cases env queryFn options w res w' :
  executeQuery logError DEFAULT_RETRY_CONFIG env queryFn options w = (res, w') ->
  (opCalls w' = opCalls w /\
   ((exists e, res = Threw e) \/ (exists v, res = Returned v /\ truthy v = true))) \/
  (exists wA res2 w2,
     cachedResult (cacheKey options) w = (Returned None, wA) /\
     withRetry (enhanced (callOperation queryFn))
               (default DEFAULT_RETRY_CONFIG (retryConfig options)) wA = (res2, w2) /\
     match res2 with
     | Returned r =>
         res = Returned r /\
         w' = snd (storeResult (cacheKey options) r
                               (default CACHE_TTL_MS (cacheTtl options)) w2)
     | Threw e =>
         res = Threw (ThrownApp (logError e "Database Query")) /\
         w' = record (EvLogError "Database Query") w2
     end).
Proof.
  unfold executeQuery. intros Hrun.
  destruct (isPreviewMode env).
  { injection Hrun as <- <-. left. split; [reflexivity | left; eauto]. }
  unfold mbind at 1 in Hrun. unfold M_bind, bind in Hrun.
  destruct (cachedResult_run (cacheKey options) w) as (hit & c & Hlook & Hhit).
  rewrite Hlook in Hrun.
  destruct hit as [v|].
  { injection Hrun as <- <-. left. split; [reflexivity | right; eauto]. }
  unfold queryDatabase in Hrun.
  destruct (dbClient env).
  2:{ injection Hrun as <- <-. left. split; [reflexivity | left; eauto]. }
  unfold mbind at 1 in Hrun. unfold M_bind, bind in Hrun.
  match type of Hrun with
  | context [healthGate ?cr ?wA] => destruct (healthGate_run cr wA) as [Hg|(e & Hg & _)]
  end; rewrite Hg in Hrun.
  2:{ injection Hrun as <- <-. left. split; [reflexivity | left; eauto]. }
  right. unfold tryCatch in Hrun. unfold mbind at 1 in Hrun. unfold M_bind, bind in Hrun.
  match type of Hrun with
  | context [withRetry ?o ?cfg ?wA] => destruct (withRetry o cfg wA) as [res2 w2] eqn:Hretry
  end.
  eexists _, res2, w2. split; [exact Hlook|]. split; [exact Hretry|].
  destruct res2 as [r|e].
  - unfold mbind, M_bind, bind, mret, M_ret, ret in Hrun.
    destruct (storeResult (cacheKey options) r (default CACHE_TTL_MS (cacheTtl options)) w2)
      as [[[]|e] w3] eqn:Hstore.
    + injection Hrun as <- <-. split; reflexivity.
    + exfalso. revert Hstore. unfold storeResult, queryCache_set, mret, M_ret, ret.
      destruct (cacheKey options) as [key|]; [|discriminate].
      destruct (truthy_str (Some key) && truthy r); discriminate.
  - unfold_M. injection Hrun as <- <-. split; reflexivity.
Qed.

Lemma healthGate_with_cache critical c w :
  healthGate critical (with_cache c w) =
  (fst (healthGate critical w), with_cache c (snd (healthGate critical w))).
Proof.
  unfold healthGate, getDbHealthStatus. destruct critical; [|reflexivity].
  unfold_M. simpl.
  destruct (negb (isConnected (dbHealthStatus w)) &&
            Z.ltb (clock w - 60000) (lastChecked (dbHealthStatus w))); reflexivity.
Qed.

Lemma withRetry_with_cache config queryFn c w :
  withRetry (enhanced (callOperation queryFn)) config (with_cache c w) =
  (fst (withRetry (enhanced (callOperation queryFn)) config w),
   with_cache c (snd (withRetry (enhanced (callOperation queryFn)) config w))).
Proof.
  unfold withRetry. unfold_M.
  apply (retryFrom_with_cache config _ (enhanceOp queryFn) c
                              (enhanced_callOperation queryFn) _ 1%nat
                              (record EvWithRetry w) eq_refl).
Qed.

Lemma sameButCache_with_cache c w : sameButCache (with_cache c w) w.
Proof. repeat split. Qed.

Lemma sameButCache_inv w1 w2 : sameButCache w1 w2 -> w1 = with_cache (cache w1) w2.
Proof.
  destruct w1, w2. unfold sameButCache. simpl. intros (-> & -> & -> & ->). reflexivity.
Qed.

(** What follows the cache check does not depend on what the cache
    holds, but for the cache it leaves. *)
Lemma queryDatabase_with_cache env queryFn options c w :
  fst (queryDatabase logError DEFAULT_RETRY_CONFIG env queryFn options (with_cache c w)) =
  fst (queryDatabase logError DEFAULT_RETRY_CONFIG env queryFn options w) /\
  sameButCache
    (snd (queryDatabase logError DEFAULT_RETRY_CONFIG env queryFn options (with_cache c w)))
    (snd (queryDatabase logError DEFAULT_RETRY_CONFIG env queryFn options w)).
Proof.
  unfold queryDatabase.
  destruct (dbClient env) as [client|]; [|split; [reflexivity | repeat split]].
  unfold mbind, M_bind, bind, tryCatch.
  rewrite healthGate_with_cache.
  match goal with
  | |- context [healthGate ?cr w] => destruct (healthGate_run cr w) as [Hg|(e & Hg & _)]
  end; rewrite Hg; simpl; [|split; [reflexivity | repeat split]].
  rewrite withRetry_with_cache.
  match goal with
  | |- context [withRetry ?o ?cfg w] => destruct (withRetry o cfg w) as [[r|e] w2]
  end; simpl.
  - unfold storeResult.
    destruct (cacheKey options) as [key|]; [|split; [reflexivity | repeat split]].
    destruct (truthy_str (Some key) && truthy r); split; solve [reflexivity | repeat split].
  - unfold_M. simpl. split; [reflexivity | repeat split].
Qed.

End FacadeProperties.

(** ** Claims on the query execution facade *)

Section FacadeClaims.

Lemma storeResult_falsy cacheKey r ttl w :
  truthy r = false -> storeResult cacheKey r ttl w = (Returned tt, w).
Proof.
  intros Hr. unfold storeResult. destruct cacheKey as [key|]; [|reflexivity].
  now rewrite Hr, andb_false_r.
Qed.

Lemma lookupEvents_no_set cacheKey k v t : ~ In (EvCacheSet k v t) (lookupEvents cacheKey).
Proof.
  unfold lookupEvents. destruct cacheKey as [key|]; [|intros []].
  destruct (truthy_str (Some key)); [|intros []].
  intros [H|[]]. discriminate H.
Qed.

(** C2, amended: outside preview mode, a call with [critical] set, no
    cache hit and a health snapshot that is disconnected and was taken
    less than 60 seconds ago throws a connection-kind error at once: the
    operation is not invoked, no time passes and nothing but the cache
    check is done. *)
Theorem C2_critical_gate :
  forall (logError : Thrown -> string -> AppError) (DEFAULT_RETRY_CONFIG : RetryConfig)
         env queryFn options w,
    isPreviewMode env = false ->
    critical options = Some true ->
    fst (cachedResult (cacheKey options) w) = Returned None ->
    isConnected (dbHealthStatus w) = false ->
    (clock w - 60000 < lastChecked (dbHealthStatus w))%Z ->
    exists e w',
      executeQuery logError DEFAULT_RETRY_CONFIG env queryFn options w
      = (Threw (ThrownApp e), w') /\
      type e = DATABASE_CONNECTION /\
      opCalls w' = opCalls w /\ clock w' = clock w /\
      trace w' = trace w ++ lookupEvents (cacheKey options).
Proof.
  intros logError DEFAULT_RETRY_CONFIG env queryFn options w Hprev Hcrit Hmiss Hdown Hrecent.
  unfold executeQuery. rewrite Hprev.
  unfold mbind at 1. unfold M_bind, bind.
  destruct (cachedResult_run (cacheKey options) w) as (hit & c & Hlook & _).
  rewrite Hlook in Hmiss |- *. simpl in Hmiss. injection Hmiss as ->.
  unfold queryDatabase. rewrite Hcrit. simpl.
  destruct (dbClient env) as [client|].
  2:{ eexists _, _. split; [reflexivity|]. repeat split. }
  unfold mbind at 1. unfold M_bind, bind.
  unfold healthGate, getDbHealthStatus. unfold_M. simpl.
  rewrite Hdown. simpl.
  destruct (Z.ltb_spec (clock w - 60000) (lastChecked (dbHealthStatus w))); [|lia].
  eexists _, _. split; [reflexivity|]. repeat split.
Qed.

Lemma C2_critical_gate_witness :
  exists e w',
    executeQuery sampleLogError sampleRetryConfig production (resolvesWith (JObj 7))
                 (mkOptions (Some "hospital:1") None None (Some true)) afterTimeout
    = (Threw (ThrownApp e), w') /\
    type e = DATABASE_CONNECTION /\
    opCalls w' = opCalls afterTimeout.
Proof.
  destruct (C2_critical_gate sampleLogError sampleRetryConfig production
              (resolvesWith (JObj 7))
              (mkOptions (Some "hospital:1") None None (Some true)) afterTimeout)
    as (e & w' & Hrun & Hkind & Hcalls & _).
  - reflexivity.
  - reflexivity.
  - reflexivity.
  - reflexivity.
  - vm_compute. reflexivity.
  - exists e, w'. repeat split; assumption.
Defined.

(** C2 as stated fails in preview mode: with [critical] set, no cache key
    and a snapshot recorded disconnected 10 seconds ago, the error thrown
    is of kind [SERVER]. *)
Lemma C2_counterexample :
  let options := mkOptions None None None (Some true) in
  critical options = Some true /\
  fst (cachedResult (cacheKey options) afterFailedProbe) = Returned None /\
  isConnected (dbHealthStatus afterFailedProbe) = false /\
  (clock afterFailedProbe - lastChecked (dbHealthStatus afterFailedProbe) = 10000)%Z /\
  exists e,
    fst (executeQuery sampleLogError sampleRetryConfig publicPreview
                      (resolvesWith (JObj 7)) options afterFailedProbe)
    = Threw (ThrownApp e) /\
    type e = SERVER /\ type e <> DATABASE_CONNECTION.
Proof.
  repeat split; try reflexivity.
  eexists. split; [reflexivity|]. split; [reflexivity | discriminate].
Qed.

(** C4, amended: outside preview mode, a call with a non-empty cache key
    whose entry is live and holds a truthy value returns that value; the
    cache read is all that happens: neither the retry executor nor the
    operation is invoked. *)
Theorem C4_truthy_cache_hit :
  forall (logError : Thrown -> string -> AppError) (DEFAULT_RETRY_CONFIG : RetryConfig)
         env queryFn options w key entry,
    isPreviewMode env = false ->
    cacheKey options = Some key -> key <> EmptyString ->
    cache w !! key = Some entry ->
    (clock w <= Cache.expiresAt entry)%Z ->
    truthy (Cache.value entry) = true ->
    executeQuery logError DEFAULT_RETRY_CONFIG env queryFn options w
    = (Returned (Cache.value entry), record (EvCacheGet key) w).
Proof.
  intros logError DEFAULT_RETRY_CONFIG env queryFn options w key entry
         Hprev Hkey Hne Hentry Hlive Htruthy.
  unfold executeQuery. rewrite Hprev, Hkey.
  unfold cachedResult. rewrite (truthy_str_nonempty key Hne).
  unfold mbind, M_bind, bind, mret, M_ret, ret, queryCache_get.
  rewrite (get_fresh key (clock w) (cache w) entry Hentry Hlive).
  rewrite Htruthy, with_cache_same. reflexivity.
Qed.

Lemma C4_truthy_cache_hit_witness :
  executeQuery sampleLogError sampleRetryConfig production (resolvesWith (JObj 7))
               (keyed "platelets:1") populated
  = (Returned (JObj 1), record (EvCacheGet "platelets:1") populated).
Proof.
  apply (C4_truthy_cache_hit sampleLogError sampleRetryConfig production
           (resolvesWith (JObj 7)) (keyed "platelets:1") populated
           "platelets:1" (Cache.mkEntry (JObj 1) 1700000060000)).
  - reflexivity.
  - reflexivity.
  - discriminate.
  - reflexivity.
  - vm_compute. discriminate.
  - reflexivity.
Defined.

(** C4 as stated fails in three ways.  A live entry that holds a falsy
    value is passed over: the cached 0 is not returned, the retry executor
    and the operation run.  In preview mode a live, truthy entry is not
    returned: the call throws.  And an entry under the empty key is not
    looked up. *)
Lemma C4_counterexample :
  (let run := executeQuery sampleLogError sampleRetryConfig production
                           (resolvesWith (JObj 7)) (keyed "alerts:1") zeroCached in
   fst (Cache.get "alerts:1" (clock zeroCached) (cache zeroCached)) = Some (JNum 0) /\
   fst run = Returned (JObj 7) /\
   opCalls (snd run) = 1%nat /\
   trace (snd run) = [EvCacheGet "alerts:1"; EvWithRetry; EvOperation 0;
                      EvCacheSet "alerts:1" (JObj 7) 60000]) /\
  (let run := executeQuery sampleLogError sampleRetryConfig publicPreviewWithDb
                           (resolvesWith (JObj 7)) (keyed "platelets:1") populated in
   fst (Cache.get "platelets:1" (clock populated) (cache populated)) = Some (JObj 1) /\
   truthy (JObj 1) = true /\
   fst run = Threw (ThrownApp
                      (mkAppError SERVER "Database queries cannot be executed in preview mode"
                                  (Some "Use mock data instead") None))) /\
  (let run := executeQuery sampleLogError sampleRetryConfig production
                           (resolvesWith (JObj 7)) (keyed EmptyString) emptyKeyCached in
   fst (Cache.get EmptyString (clock emptyKeyCached) (cache emptyKeyCached))
   = Some (JObj 1) /\
   fst run = Returned (JObj 7) /\
   opCalls (snd run) = 1%nat).
Proof. vm_compute. repeat split; reflexivity. Qed.

(** C5, amended: when a non-empty cache key was supplied and the last
    invocation of the operation in the call succeeds with a truthy
    result [r], [executeQuery] returns [r], and its last step before
    returning is the write of [r] under that key with the TTL of
    [options.cacheTtl], or of 60000 ms when there is none. *)
Theorem C5_truthy_result_is_cached :
  forall (logError : Thrown -> string -> AppError) (DEFAULT_RETRY_CONFIG : RetryConfig)
         env queryFn options w res w' key r d last,
    executeQuery logError DEFAULT_RETRY_CONFIG env queryFn options w = (res, w') ->
    cacheKey options = Some key -> key <> EmptyString ->
    opCalls w' = S last -> (opCalls w <= last)%nat ->
    queryFn last = OpResolves r d ->
    truthy r = true ->
    let ttl := match cacheTtl options with Some t => t | None => 60000%Z end in
    res = Returned r /\
    cache w' !! key = Some (Cache.mkEntry r (clock w' + ttl)) /\
    exists tr, trace w' = tr ++ [EvCacheSet key r ttl].
Proof.
  intros logError DEFAULT_RETRY_CONFIG env queryFn options w res w' key r d last
         Hrun Hkey Hne Hcalls Hle Hlast Htruthy ttl.
  apply executeQuery_cases in Hrun.
  destruct Hrun as [(Hsame & _)|(wA & res2 & w2 & Hlook & Hretry & Hrest)]; [lia|].
  apply withRetry_run in Hretry.
  destruct Hretry as (_ & _ & (last2 & Hl1 & Hl2 & Hl3) & _).
  assert (Hres : resultOf (enhanceOp queryFn last) = Returned r).
  { unfold enhanceOp. now rewrite Hlast. }
  destruct res2 as [r2|e].
  - destruct Hrest as (-> & ->).
    rewrite Hkey in Hcalls |- *. unfold storeResult in Hcalls |- *.
    rewrite (truthy_str_nonempty key Hne) in Hcalls |- *. simpl in Hcalls |- *.
    assert (last2 = last) as ->.
    { destruct (truthy r2); simpl in Hcalls; lia. }
    rewrite Hres in Hl3. injection Hl3 as ->.
    rewrite Htruthy. simpl. unfold Cache.set.
    split; [reflexivity|]. split; [apply lookup_insert_eq|].
    exists (trace w2). reflexivity.
  - destruct Hrest as (-> & ->). simpl in Hcalls.
    assert (last2 = last) as -> by lia.
    rewrite Hres in Hl3. discriminate Hl3.
Qed.

Lemma C5_truthy_result_is_cached_witness :
  let run := executeQuery sampleLogError sampleRetryConfig production
                          (resolvesWith (JObj 7)) (keyed "alerts:1") populated in
  fst run = Returned (JObj 7) /\
  cache (snd run) !! "alerts:1" = Some (Cache.mkEntry (JObj 7) (clock (snd run) + 60000)).
Proof.
  intros run.
  destruct (C5_truthy_result_is_cached sampleLogError sampleRetryConfig production
              (resolvesWith (JObj 7)) (keyed "alerts:1") populated
              (fst run) (snd run) "alerts:1" (JObj 7) 4%Z 0%nat)
    as (Hres & Hcache & _).
  - exact (surjective_pairing run).
  - reflexivity.
  - discriminate.
  - reflexivity.
  - vm_compute. lia.
  - reflexivity.
  - reflexivity.
  - split; [exact Hres | exact Hcache].
Defined.

(** C5 as stated fails in two ways.  The operation succeeds with 0 under
    a cache key: 0 is returned and nothing is written.  And under the
    empty key a truthy result is returned without being written. *)
Lemma C5_counterexample :
  (let run := executeQuery sampleLogError sampleRetryConfig production
                           (resolvesWith (JNum 0)) (keyed "alerts:1") populated in
   fst run = Returned (JNum 0) /\
   cache (snd run) !! "alerts:1" = None /\
   trace (snd run) = [EvCacheGet "alerts:1"; EvWithRetry; EvOperation 0]) /\
  (let run := executeQuery sampleLogError sampleRetryConfig production
                           (resolvesWith (JObj 7)) (keyed EmptyString) populated in
   fst run = Returned (JObj 7) /\
   cache (snd run) !! EmptyString = None /\
   trace (snd run) = [EvWithRetry; EvOperation 0]).
Proof. vm_compute. repeat split; reflexivity. Qed.

(** C10: [executeQuery] decides cache hits and cache writes by
    truthiness.  With a cache key whose entry holds a falsy value the
    call goes as on a miss, that is as with the entry removed: same
    result, same invocations of the operation, same events, same clock.
    And a call that returns a falsy result has written nothing: the
    cache is as the cache check left it and no event of the call is a
    cache write, with or without a cache key.  0, the empty string,
    [false] and [null] are falsy. *)
Theorem C10_truthiness_not_presence :
  forall (logError : Thrown -> string -> AppError) (DEFAULT_RETRY_CONFIG : RetryConfig)
         env queryFn options w,
    (forall key entry,
       cacheKey options = Some key ->
       cache w !! key = Some entry ->
       truthy (Cache.value entry) = false ->
       let onEntry :=
         executeQuery logError DEFAULT_RETRY_CONFIG env queryFn options w in
       let onMiss :=
         executeQuery logError DEFAULT_RETRY_CONFIG env queryFn options
                      (with_cache (delete key (cache w)) w) in
       fst onEntry = fst onMiss /\ sameButCache (snd onEntry) (snd onMiss)) /\
    (forall r w',
       executeQuery logError DEFAULT_RETRY_CONFIG env queryFn options w = (Returned r, w') ->
       truthy r = false ->
       cache w' = cache (snd (cachedResult (cacheKey options) w)) /\
       exists tr, trace w' = trace w ++ tr /\
                  forall k v t, ~ In (EvCacheSet k v t) tr) /\
    (truthy (JNum 0) = false /\ truthy (JStr EmptyString) = false /\
     truthy (JBool false) = false /\ truthy JNull = false).
Proof.
  intros logError DEFAULT_RETRY_CONFIG env queryFn options w.
  split; [|split; [|repeat split]].
  - intros key entry Hkey Hentry Hfalsy onEntry onMiss. subst onEntry onMiss.
    unfold executeQuery. destruct (isPreviewMode env); [split; [reflexivity | repeat split]|].
    rewrite Hkey. unfold cachedResult.
    destruct (truthy_str (Some key)).
    2:{ unfold mbind, M_bind, bind, mret, M_ret, ret.
        destruct (queryDatabase_with_cache logError DEFAULT_RETRY_CONFIG env queryFn options
                    (delete key (cache w)) w) as (Hres & Hw).
        split; [now symmetry|]. unfold sameButCache in *. intuition congruence. }
    unfold mbind, M_bind, bind, mret, M_ret, ret, queryCache_get. simpl.
    rewrite (get_absent key (clock w) (delete key (cache w)) (lookup_delete_eq _ _)).
    assert (Hhit : exists c,
               Cache.get key (clock w) (cache w) = (None, c) \/
               Cache.get key (clock w) (cache w) = (Some (Cache.value entry), c)).
    { unfold Cache.get. rewrite Hentry.
      destruct (Z.ltb (Cache.expiresAt entry) (clock w)); eexists; [left|right]; reflexivity. }
    destruct Hhit as (c & [->| ->]); [|rewrite Hfalsy].
    all: match goal with
         | |- context [queryDatabase _ _ _ _ _ (record ?ev (with_cache ?c1 ?w0))] =>
             destruct (queryDatabase_with_cache logError DEFAULT_RETRY_CONFIG env queryFn
                         options c1 (record ev (with_cache (delete key (cache w0)) w0)))
               as (Hres & Hw)
         end;
      split; [now symmetry | unfold sameButCache in *; intuition congruence].
  - intros r w' Hrun Hfalsy.
    apply executeQuery_cases in Hrun.
    destruct Hrun as [(_ & [(e & He)|(v & Hv & Htruthy)])
                     |(wA & res2 & w2 & Hlook & Hretry & Hrest)].
    + discriminate He.
    + injection Hv as ->. congruence.
    + apply withRetry_run in Hretry.
      destruct Hretry as (Hc & _ & _ & (tr & Ht & Hev)).
      destruct res2 as [r2|e]; [|destruct Hrest as (Hthrew & _); discriminate Hthrew].
      destruct Hrest as (Hr & ->). injection Hr as <-.
      rewrite (storeResult_falsy _ _ _ _ Hfalsy). simpl.
      rewrite Hlook. simpl. split; [exact Hc|].
      destruct (cachedResult_run (cacheKey options) w) as (hit & c & Hlook' & _).
      rewrite Hlook in Hlook'. injection Hlook' as _ ->. simpl in Ht.
      exists (lookupEvents (cacheKey options) ++ EvWithRetry :: tr).
      split; [rewrite Ht, <- app_assoc; reflexivity|].
      intros k v t Hin. apply in_app_or in Hin. destruct Hin as [Hin|[Hin|Hin]].
      * exact (lookupEvents_no_set _ _ _ _ Hin).
      * discriminate Hin.
      * apply (proj1 (List.Forall_forall _ _) Hev) in Hin. exact Hin.
Qed.

Lemma C10_truthiness_not_presence_witness :
  let run := executeQuery sampleLogError sampleRetryConfig production
                          (resolvesWith (JNum 0)) (keyed "alerts:1") zeroCached in
  fst run =
  fst (executeQuery sampleLogError sampleRetryConfig production
                    (resolvesWith (JNum 0)) (keyed "alerts:1")
                    (with_cache (delete "alerts:1" (cache zeroCached)) zeroCached)) /\
  opCalls (snd run) = 1%nat /\
  cache (snd run) = cache zeroCached.
Proof.
  intros run.
  destruct (C10_truthiness_not_presence sampleLogError sampleRetryConfig production
              (resolvesWith (JNum 0)) (keyed "alerts:1") zeroCached)
    as (Hmiss & Hwrite & _).
  destruct (Hmiss "alerts:1" (Cache.mkEntry (JNum 0) 1700000060000)
                  eq_refl eq_refl eq_refl) as (Hres & _).
  destruct (Hwrite (JNum 0) (snd run) (surjective_pairing run) eq_refl) as (Hcache & _).
  split; [exact Hres|]. split; [reflexivity|].
  rewrite Hcache. reflexivity.
Defined.

End FacadeClaims.

(** * Further properties of the code *)

(** ** Configuration and environment detection *)

Section ConfigProperties.

(** X1: outside a preview environment [getDatabaseUrl] returns the first
    of [DATABASE_URL], [POSTGRES_URL], [POSTGRES_PRISMA_URL] and
    [POSTGRES_URL_NON_POOLING] that is set and not empty, an empty value
    being skipped like a missing one, and [null] when there is none; in a
    preview environment it returns [null] whatever is set; what it
    returns is never the empty string. *)
Theorem getDatabaseUrl_first_set :
  forall env,
    (isPreviewEnvironment env = true -> getDatabaseUrl env = None) /\
    (isPreviewEnvironment env = false ->
     (truthy_str (DATABASE_URL env) = true -> getDatabaseUrl env = DATABASE_URL env) /\
     (truthy_str (DATABASE_URL env) = false ->
      truthy_str (POSTGRES_URL env) = true -> getDatabaseUrl env = POSTGRES_URL env) /\
     (truthy_str (DATABASE_URL env) = false ->
      truthy_str (POSTGRES_URL env) = false ->
      truthy_str (POSTGRES_PRISMA_URL env) = true ->
      getDatabaseUrl env = POSTGRES_PRISMA_URL env) /\
     (truthy_str (DATABASE_URL env) = false ->
      truthy_str (POSTGRES_URL env) = false ->
      truthy_str (POSTGRES_PRISMA_URL env) = false ->
      truthy_str (POSTGRES_URL_NON_POOLING env) = true ->
      getDatabaseUrl env = POSTGRES_URL_NON_POOLING env) /\
     (truthy_str (DATABASE_URL env) = false ->
      truthy_str (POSTGRES_URL env) = false ->
      truthy_str (POSTGRES_PRISMA_URL env) = false ->
      truthy_str (POSTGRES_URL_NON_POOLING env) = false ->
      getDatabaseUrl env = None)) /\
    (forall u, getDatabaseUrl env = Some u -> u <> EmptyString).
Proof.
  intros env. unfold getDatabaseUrl, or_str.
  split; [intros ->; reflexivity|]. split.
  - intros ->.
    repeat split; intros;
      repeat (match goal with
              | H : truthy_str ?x = _ |- context [truthy_str ?x] => rewrite H
              end; cbv iota);
      simpl; reflexivity.
  - intros u. destruct (isPreviewEnvironment env); [discriminate|].
    match goal with
    | |- (if negb (truthy_str ?d) then _ else _) = _ -> _ =>
        destruct (truthy_str d) eqn:Hd; simpl; [|discriminate]
    end.
    intros Hu ->. rewrite Hu in Hd. discriminate Hd.
Qed.

Lemma getDatabaseUrl_first_set_witness :
  getDatabaseUrl
    (mkProcessEnv None None None (Some EmptyString) (Some "postgres://pooled") None
                  (Some "postgres://direct") None None)
  = Some "postgres://pooled".
Proof.
  destruct (getDatabaseUrl_first_set
              (mkProcessEnv None None None (Some EmptyString) (Some "postgres://pooled") None
                            (Some "postgres://direct") None None))
    as (_ & Hfirst & _).
  destruct (Hfirst eq_refl) as (_ & Hsecond & _).
  exact (Hsecond eq_refl eq_refl).
Defined.



End ConfigProperties.

(** ** Further properties of the query execution facade *)

Section FacadeFurther.

(** The loop invokes the operation once per attempt left. *)
Lemma retryFrom_bound config operation op :
  (forall w0, operation w0 = callOperation op w0) ->
  forall n attempt w,
    (maxAttempts config - attempt)%nat = n ->
    (opCalls (snd (retryFrom config operation attempt w)) <= opCalls w + S n)%nat.
Proof.
  intros Hop n. induction n as [n IH] using lt_wf_ind.
  intros attempt w Hn.
  rewrite retryFrom_unfold, Hop, callOperation_eq.
  destruct (resultOf (op (opCalls w))) as [r|e]; [simpl; lia|].
  destruct (retryableCheck config e); [|simpl; lia].
  destruct (le_lt_dec (maxAttempts config) attempt) as [Hle|Hlt]; [simpl; lia|].
  rewrite sleep_eq. simpl.
  match goal with
  | |- context [retryFrom _ _ _ ?w1] =>
      pose proof (IH (maxAttempts config - S attempt)%nat ltac:(lia) (S attempt) w1 eq_refl)
        as Hb
  end.
  simpl in Hb. lia.
Qed.

(** The gate refuses exactly the critical queries that meet a disconnected
    snapshot taken less than 60 seconds ago. *)
Lemma healthGate_eq critical w :
  healthGate critical w =
  if critical && negb (isConnected (dbHealthStatus w)) &&
     Z.ltb (clock w - 60000) (lastChecked (dbHealthStatus w))
  then (Threw (ThrownApp
                 (mkAppError DATABASE_CONNECTION "Database is currently unavailable"
                    (if truthy_str (error (dbHealthStatus w)) then error (dbHealthStatus w)
                     else Some "Recent health check failed")
                    None)), w)
  else (Returned tt, w).
Proof.
  unfold healthGate, getDbHealthStatus. destruct critical; [|reflexivity].
  unfold_M. simpl.
  destruct (negb (isConnected (dbHealthStatus w)) &&
            Z.ltb (clock w - 60000) (lastChecked (dbHealthStatus w))); reflexivity.
Qed.

(** The cache check touches no entry but the one of its key, which it can
    only evict. *)
Lemma cachedResult_other_keys cacheKey w k :
  cacheKey <> Some k ->
  cache (snd (cachedResult cacheKey w)) !! k = cache w !! k.
Proof.
  intros Hne. unfold cachedResult.
  destruct cacheKey as [key|]; [|reflexivity].
  destruct (truthy_str (Some key)); [|reflexivity].
  unfold mbind, M_bind, bind, mret, M_ret, ret, queryCache_get, Cache.get.
  destruct (cache w !! key) as [e|] eqn:Hk; [|reflexivity].
  destruct (Z.ltb (Cache.expiresAt e) (clock w)); simpl; [|reflexivity].
  apply lookup_delete_ne. congruence.
Qed.

Lemma storeResult_run cacheKey r ttl w :
  exists c,
    storeResult cacheKey r ttl w =
    (Returned tt,
     mkWorld c (dbHealthStatus w) (clock w) (opCalls w)
             (trace w ++ (if truthy_str cacheKey && truthy r
                          then match cacheKey with
                               | Some key => [EvCacheSet key r ttl]
                               | None => []
                               end
                          else []))) /\
    (forall k, cacheKey <> Some k -> c !! k = cache w !! k).
Proof.
  unfold storeResult. destruct cacheKey as [key|].
  2:{ exists (cache w). simpl. rewrite app_nil_r. destruct w. split; reflexivity. }
  destruct (truthy_str (Some key) && truthy r).
  - eexists. split; [reflexivity|]. intros k Hne. simpl. unfold Cache.set.
    apply lookup_insert_ne. congruence.
  - exists (cache w). rewrite app_nil_r. destruct w. split; reflexivity.
Qed.

(** X3: without a database client, that is when [getDatabaseUrl] gave
    [null] at load time, as it does in every preview environment even
    with [DATABASE_URL] set, a call outside preview mode that finds no
    cached value throws the connection error "Database client not
    initialized" and does not invoke the operation. *)
Theorem executeQuery_without_client :
  forall (logError : Thrown -> string -> AppError) (DEFAULT_RETRY_CONFIG : RetryConfig)
         env queryFn options w,
    isPreviewMode env = false ->
    getDatabaseUrl env = None ->
    fst (cachedResult (cacheKey options) w) = Returned None ->
    executeQuery logError DEFAULT_RETRY_CONFIG env queryFn options w
    = (Threw (ThrownApp
                (mkAppError DATABASE_CONNECTION "Database client not initialized"
                   (Some "Database URL environment variable may be missing or invalid")
                   None)),
       snd (cachedResult (cacheKey options) w)) /\
    opCalls (snd (cachedResult (cacheKey options) w)) = opCalls w.
Proof.
  intros logError DEFAULT_RETRY_CONFIG env queryFn options w Hprev Hurl Hmiss.
  unfold executeQuery. rewrite Hprev.
  unfold mbind at 1. unfold M_bind, bind.
  destruct (cachedResult_run (cacheKey options) w) as (hit & c & Hlook & _).
  rewrite Hlook in Hmiss |- *. simpl in Hmiss. injection Hmiss as ->.
  unfold queryDatabase, dbClient. rewrite Hurl. split; reflexivity.
Qed.

(** X4: a call invokes the operation at most [maxAttempts] times, once
    when [maxAttempts] is below 1, whatever the operation does. *)
Theorem executeQuery_attempts_bounded :
  forall (logError : Thrown -> string -> AppError) (DEFAULT_RETRY_CONFIG : RetryConfig)
         env queryFn options w,
    let w' := snd (executeQuery logError DEFAULT_RETRY_CONFIG env queryFn options w) in
    (opCalls w <= opCalls w')%nat /\
    (opCalls w' <= opCalls w +
                   Nat.max 1 (maxAttempts (default DEFAULT_RETRY_CONFIG (retryConfig options))))%nat.
Proof.
  intros logError DEFAULT_RETRY_CONFIG env queryFn options w w'. subst w'.
  destruct (executeQuery logError DEFAULT_RETRY_CONFIG env queryFn options w)
    as [res w'] eqn:Hrun.
  simpl.
  apply executeQuery_cases in Hrun.
  destruct Hrun as [(Hsame & _)|(wA & res2 & w2 & Hlook & Hretry & Hrest)]; [lia|].
  destruct (cachedResult_run (cacheKey options) w) as (hit & c & Hlook' & _).
  rewrite Hlook in Hlook'. injection Hlook' as _ ->.
  assert (Hw2 : opCalls w' = opCalls w2).
  { destruct res2 as [r|e]; destruct Hrest as (_ & ->); [|reflexivity].
    destruct (storeResult_run (cacheKey options) r
                (default CACHE_TTL_MS (cacheTtl options)) w2) as (c2 & -> & _).
    reflexivity. }
  pose proof (withRetry_run _ _ _ _ _ Hretry) as (_ & _ & (last & Hl1 & Hl2 & _) & _).
  simpl in Hl2.
  unfold withRetry in Hretry. unfold_M. simpl in Hretry.
  match type of Hretry with
  | retryFrom ?cfg ?o 1%nat ?w1 = _ =>
      pose proof (retryFrom_bound cfg o (enhanceOp queryFn) (enhanced_callOperation queryFn)
                                  _ 1%nat w1 eq_refl) as Hb
  end.
  rewrite Hretry in Hb. simpl in Hb. lia.
Qed.

(** X5: a call leaves the health snapshot as it was, and with it every
    cache entry under a key other than its own cache key. *)
Theorem executeQuery_frame :
  forall (logError : Thrown -> string -> AppError) (DEFAULT_RETRY_CONFIG : RetryConfig)
         env queryFn options w k,
    cacheKey options <> Some k ->
    let w' := snd (executeQuery logError DEFAULT_RETRY_CONFIG env queryFn options w) in
    dbHealthStatus w' = dbHealthStatus w /\ cache w' !! k = cache w !! k.
Proof.
  intros logError DEFAULT_RETRY_CONFIG env queryFn options w k Hne w'. subst w'.
  pose proof (cachedResult_other_keys (cacheKey options) w k Hne) as Hlookup.
  destruct (cachedResult_run (cacheKey options) w) as (hit & c & Hlook & _).
  rewrite Hlook in Hlookup. simpl in Hlookup.
  destruct (executeQuery logError DEFAULT_RETRY_CONFIG env queryFn options w)
    as [res w'] eqn:Hrun.
  simpl. unfold executeQuery in Hrun.
  destruct (isPreviewMode env); [injection Hrun as <- <-; split; reflexivity|].
  unfold mbind at 1 in Hrun. unfold M_bind, bind in Hrun. rewrite Hlook in Hrun.
  destruct hit as [v|]; [injection Hrun as <- <-; split; [reflexivity | exact Hlookup]|].
  unfold queryDatabase in Hrun.
  destruct (dbClient env);
    [|injection Hrun as <- <-; split; [reflexivity | exact Hlookup]].
  unfold mbind at 1 in Hrun. unfold M_bind, bind in Hrun. rewrite healthGate_eq in Hrun.
  match type of Hrun with
  | context [if ?b then (Threw _, _) else _] => destruct b
  end; [injection Hrun as <- <-; split; [reflexivity | exact Hlookup]|].
  unfold tryCatch in Hrun. unfold mbind at 1 in Hrun. unfold M_bind, bind in Hrun.
  match type of Hrun with
  | context [withRetry ?o ?cfg ?wA] => destruct (withRetry o cfg wA) as [res2 w2] eqn:Hretry
  end.
  apply withRetry_run in Hretry. destruct Hretry as (Hc & Hh & _ & _).
  simpl in Hc, Hh.
  destruct res2 as [r|e].
  - unfold mbind, M_bind, bind in Hrun.
    destruct (storeResult_run (cacheKey options) r
                (default CACHE_TTL_MS (cacheTtl options)) w2) as (c2 & Hstore & Hc2).
    rewrite Hstore in Hrun. injection Hrun as <- <-.
    simpl. split; [exact Hh|]. rewrite (Hc2 k Hne), Hc. exact Hlookup.
  - unfold_M. injection Hrun as <- <-. simpl. split; [exact Hh|]. rewrite Hc. exact Hlookup.
Qed.

Lemma executeQuery_frame_witness :
  let w' := snd (executeQuery sampleLogError sampleRetryConfig production
                              (resolvesWith (JObj 7)) (keyed "alerts:1") populated) in
  dbHealthStatus w' = dbHealthStatus populated /\
  cache w' !! "platelets:1" = cache populated !! "platelets:1".
Proof.
  apply (executeQuery_frame sampleLogError sampleRetryConfig production
                            (resolvesWith (JObj 7)) (keyed "alerts:1")
                            populated "platelets:1").
  discriminate.
Defined.

Lemma executeQuery_without_client_witness :
  let env := mkProcessEnv None (Some "preview") None (Some "postgres://db")
                          None None None None None in
  fst (executeQuery sampleLogError sampleRetryConfig env (resolvesWith (JObj 7))
                    (keyed "alerts:1") populated)
  = Threw (ThrownApp
             (mkAppError DATABASE_CONNECTION "Database client not initialized"
                (Some "Database URL environment variable may be missing or invalid")
                None)).
Proof.
  intros env.
  destruct (executeQuery_without_client sampleLogError sampleRetryConfig env
              (resolvesWith (JObj 7)) (keyed "alerts:1")
              populated eq_refl eq_refl eq_refl) as (Hrun & _).
  rewrite Hrun. reflexivity.
Defined.

Lemma cachedResult_lookup_inv cacheKey w k entry :
  cache (snd (cachedResult cacheKey w)) !! k = Some entry -> cache w !! k = Some entry.
Proof.
  unfold cachedResult.
  destruct cacheKey as [key|]; [|exact (fun H => H)].
  destruct (truthy_str (Some key)); [|exact (fun H => H)].
  unfold mbind, M_bind, bind, mret, M_ret, ret, queryCache_get.
  pose proof (get_lookup_inv k key (clock w) (cache w) entry) as Hinv.
  destruct (Cache.get key (clock w) (cache w)) as [r c]. exact Hinv.
Qed.

(** X6: a call that throws has written nothing to the cache: every entry
    found there after the call was there before, and no event of the call
    is a cache write; and when the operation was invoked, what is thrown
    is what [logError] makes, under the context "Database Query", of the
    failure of the last invocation as the wrapper enhanced it. *)
Theorem executeQuery_failure_not_cached :
  forall (logError : Thrown -> string -> AppError) (DEFAULT_RETRY_CONFIG : RetryConfig)
         env queryFn options w e w',
    executeQuery logError DEFAULT_RETRY_CONFIG env queryFn options w = (Threw e, w') ->
    (forall k entry, cache w' !! k = Some entry -> cache w !! k = Some entry) /\
    (exists tr, trace w' = trace w ++ tr /\ forall k v t, ~ In (EvCacheSet k v t) tr) /\
    ((opCalls w < opCalls w')%nat ->
     exists e0 d,
       queryFn (opCalls w' - 1)%nat = OpRejects e0 d /\
       e = ThrownApp (logError (enhanceError e0) "Database Query")).
Proof.
  intros logError DEFAULT_RETRY_CONFIG env queryFn options w e w' Hrun.
  assert (Hstop : forall wA tr,
             w' = wA -> opCalls wA = opCalls w ->
             (forall k entry, cache wA !! k = Some entry -> cache w !! k = Some entry) ->
             trace wA = trace w ++ tr ->
             (forall k v t, ~ In (EvCacheSet k v t) tr) ->
             (forall k entry, cache w' !! k = Some entry -> cache w !! k = Some entry) /\
             (exists tr, trace w' = trace w ++ tr /\
                         forall k v t, ~ In (EvCacheSet k v t) tr) /\
             ((opCalls w < opCalls w')%nat ->
              exists e0 d,
                queryFn (opCalls w' - 1)%nat = OpRejects e0 d /\
                e = ThrownApp (logError (enhanceError e0) "Database Query"))).
  { intros wA tr -> Hcalls Hc Ht Hno. split; [exact Hc|]. split; [eauto|]. lia. }
  pose proof (cachedResult_lookup_inv (cacheKey options) w) as Hinv.
  destruct (cachedResult_run (cacheKey options) w) as (hit & c & Hlook & _).
  rewrite Hlook in Hinv. simpl in Hinv.
  unfold executeQuery in Hrun.
  destruct (isPreviewMode env).
  { injection Hrun as _ <-. apply (Hstop w []); auto using app_nil_r. }
  unfold mbind at 1 in Hrun. unfold M_bind, bind in Hrun. rewrite Hlook in Hrun.
  destruct hit as [v|]; [discriminate Hrun|].
  unfold queryDatabase in Hrun.
  destruct (dbClient env).
  2:{ injection Hrun as _ <-.
      eapply Hstop; [reflexivity | reflexivity | exact Hinv | reflexivity |].
      apply lookupEvents_no_set. }
  unfold mbind at 1 in Hrun. unfold M_bind, bind in Hrun. rewrite healthGate_eq in Hrun.
  match type of Hrun with
  | context [if ?b then (Threw _, _) else _] => destruct b
  end.
  { injection Hrun as _ <-.
    eapply Hstop; [reflexivity | reflexivity | exact Hinv | reflexivity |].
    apply lookupEvents_no_set. }
  clear Hstop.
  unfold tryCatch in Hrun. unfold mbind at 1 in Hrun. unfold M_bind, bind in Hrun.
  match type of Hrun with
  | context [withRetry ?o ?cfg ?wA] => destruct (withRetry o cfg wA) as [res2 w2] eqn:Hretry
  end.
  apply withRetry_run in Hretry.
  destruct Hretry as (Hc & _ & (last & Hl1 & Hl2 & Hl3) & (tr & Ht & Hev)).
  simpl in Hc, Hl2, Ht.
  destruct res2 as [r|e2].
  { unfold mbind, M_bind, bind, mret, M_ret, ret in Hrun.
    destruct (storeResult_run (cacheKey options) r
                (default CACHE_TTL_MS (cacheTtl options)) w2) as (c2 & Hstore & _).
    rewrite Hstore in Hrun. discriminate Hrun. }
  unfold_M. injection Hrun as <- <-. simpl.
  split; [intros k entry; rewrite Hc; apply Hinv|]. split.
  - exists (lookupEvents (cacheKey options) ++ EvWithRetry :: tr ++ [EvLogError "Database Query"]).
    split.
    { rewrite Ht. rewrite <- !app_assoc. reflexivity. }
    intros k v t Hin. apply in_app_or in Hin. destruct Hin as [Hin|[Hin|Hin]].
    + exact (lookupEvents_no_set _ _ _ _ Hin).
    + discriminate Hin.
    + apply in_app_or in Hin. destruct Hin as [Hin|[Hin|[]]]; [|discriminate Hin].
      apply (proj1 (List.Forall_forall _ _) Hev) in Hin. exact Hin.
  - intros _. rewrite Hl1. replace (S last - 1)%nat with last by lia.
    unfold enhanceOp in Hl3.
    destruct (queryFn last) as [v d|e0 d]; simpl in Hl3; [discriminate Hl3|].
    injection Hl3 as ->. eauto.
Qed.

Lemma executeQuery_failure_not_cached_witness :
  let op : Operation := fun _ => OpRejects (ThrownError "connection reset") 3 in
  fst (executeQuery sampleLogError sampleRetryConfig production op (keyed "alerts:1")
                    populated)
  = Threw (ThrownApp (mkAppError DATABASE_CONNECTION "Database connection error"
                                 (Some "connection reset") (Some true))).
Proof.
  intros op.
  destruct (executeQuery sampleLogError sampleRetryConfig production op (keyed "alerts:1")
                         populated) as [[r|e] w'] eqn:Hrun; [discriminate Hrun|].
  destruct (executeQuery_failure_not_cached sampleLogError sampleRetryConfig production op
              (keyed "alerts:1") populated e w' Hrun) as (_ & _ & Hlast).
  destruct Hlast as (e0 & d & Hop & ->).
  - injection Hrun as _ <-. vm_compute. lia.
  - unfold op in Hop. injection Hop as <- _. reflexivity.
Defined.

(** X7: a result the operation produced and the call cached is what every
    later call with the same cache key returns, without invoking its own
    operation, as long as no more than the TTL has passed since the
    write; once more than the TTL has passed, the cache check of the later
    call finds nothing. *)
Theorem executeQuery_cached_result_is_served :
  forall (logError : Thrown -> string -> AppError) (DEFAULT_RETRY_CONFIG : RetryConfig)
         env queryFn options w r w' key,
    executeQuery logError DEFAULT_RETRY_CONFIG env queryFn options w = (Returned r, w') ->
    (opCalls w < opCalls w')%nat ->
    cacheKey options = Some key -> key <> EmptyString ->
    truthy r = true ->
    let ttl := default CACHE_TTL_MS (cacheTtl options) in
    forall queryFn2 options2 passed,
      cacheKey options2 = Some key ->
      let later := with_clock (clock w' + passed) w' in
      ((passed <= ttl)%Z ->
       executeQuery logError DEFAULT_RETRY_CONFIG env queryFn2 options2 later
       = (Returned r, record (EvCacheGet key) later)) /\
      ((ttl < passed)%Z ->
       fst (cachedResult (cacheKey options2) later) = Returned None).
Proof.
  intros logError DEFAULT_RETRY_CONFIG env queryFn options w r w' key
         Hrun Hcalls Hkey Hne Htruthy ttl queryFn2 options2 passed Hkey2 later.
  assert (Hprev : isPreviewMode env = false).
  { unfold executeQuery in Hrun. destruct (isPreviewMode env); [discriminate Hrun | reflexivity]. }
  apply executeQuery_cases in Hrun.
  destruct Hrun as [(Hsame & _)|(wA & res2 & w2 & Hlook & Hretry & Hrest)]; [lia|].
  destruct res2 as [r2|e2]; [|destruct Hrest as (Hthrew & _); discriminate Hthrew].
  destruct Hrest as (Hr & Hw'). injection Hr as <-.
  assert (Hentry : cache later !! key = Some (Cache.mkEntry r (clock w' + ttl))).
  { subst later w'. rewrite Hkey. unfold storeResult.
    rewrite (truthy_str_nonempty key Hne), Htruthy. simpl.
    unfold Cache.set. apply lookup_insert_eq. }
  split.
  - intros Hle. unfold executeQuery. rewrite Hprev, Hkey2.
    unfold cachedResult. rewrite (truthy_str_nonempty key Hne).
    unfold mbind, M_bind, bind, mret, M_ret, ret, queryCache_get.
    rewrite (get_fresh key (clock later) (cache later) _ Hentry); [|simpl; lia].
    cbv beta iota. change (Cache.value (Cache.mkEntry r (clock w' + ttl))) with r.
    rewrite Htruthy, with_cache_same. reflexivity.
  - intros Hgt. rewrite Hkey2. unfold cachedResult.
    rewrite (truthy_str_nonempty key Hne).
    unfold mbind, M_bind, bind, mret, M_ret, ret, queryCache_get.
    rewrite (get_expired key (clock later) (cache later) _ Hentry); [|simpl; lia].
    reflexivity.
Qed.

Lemma executeQuery_cached_result_is_served_witness :
  let first := executeQuery sampleLogError sampleRetryConfig production
                            (resolvesWith (JObj 7)) (keyed "alerts:1") populated in
  let later := with_clock (clock (snd first) + 59000) (snd first) in
  executeQuery sampleLogError sampleRetryConfig production
               (resolvesWith (JObj 8)) (keyed "alerts:1") later
  = (Returned (JObj 7), record (EvCacheGet "alerts:1") later).
Proof.
  intros first later.
  destruct (executeQuery_cached_result_is_served sampleLogError sampleRetryConfig production
              (resolvesWith (JObj 7)) (keyed "alerts:1") populated (JObj 7) (snd first)
              "alerts:1") with (queryFn2 := resolvesWith (JObj 8))
                               (options2 := keyed "alerts:1") (passed := 59000%Z)
    as (Hserved & _).
  - exact (surjective_pairing first).
  - vm_compute. lia.
  - reflexivity.
  - discriminate.
  - reflexivity.
  - reflexivity.
  - apply Hserved. vm_compute. discriminate.
Defined.

(** X8: outside preview mode, with a database client and no cached value,
    the operation is left uninvoked in exactly one case: the query is
    critical and the health snapshot is disconnected and less than 60
    seconds old.  A query that is not critical, a connected snapshot or
    an older one all let the operation run. *)
Theorem executeQuery_gate_exact :
  forall (logError : Thrown -> string -> AppError) (DEFAULT_RETRY_CONFIG : RetryConfig)
         env queryFn options w dbUrl,
    isPreviewMode env = false ->
    getDatabaseUrl env = Some dbUrl ->
    fst (cachedResult (cacheKey options) w) = Returned None ->
    (opCalls (snd (executeQuery logError DEFAULT_RETRY_CONFIG env queryFn options w))
     = opCalls w
     <->
     critical options = Some true /\
     isConnected (dbHealthStatus w) = false /\
     (clock w - 60000 < lastChecked (dbHealthStatus w))%Z).
Proof.
  intros logError DEFAULT_RETRY_CONFIG env queryFn options w dbUrl Hprev Hurl Hmiss.
  unfold executeQuery. rewrite Hprev.
  unfold mbind at 1. unfold M_bind, bind.
  destruct (cachedResult_run (cacheKey options) w) as (hit & c & Hlook & _).
  rewrite Hlook in Hmiss |- *. simpl in Hmiss. injection Hmiss as ->.
  unfold queryDatabase, dbClient. rewrite Hurl.
  unfold mbind at 1. unfold M_bind, bind. rewrite healthGate_eq. simpl.
  destruct (critical options) as [[|]|]; simpl.
  1: destruct (isConnected (dbHealthStatus w)); simpl.
  2: destruct (Z.ltb_spec (clock w - 60000) (lastChecked (dbHealthStatus w))).
  2:{ simpl. split; [intros _; repeat split; assumption | reflexivity]. }
  all: unfold tryCatch; unfold mbind at 1; unfold M_bind, bind;
    match goal with
    | |- context [withRetry ?o ?cfg ?wA] =>
        destruct (withRetry o cfg wA) as [res2 w2] eqn:Hretry
    end;
    apply withRetry_run in Hretry;
    destruct Hretry as (_ & _ & (last & Hl1 & Hl2 & _) & _); simpl in Hl2;
    assert (Hmore : forall w3 : World, opCalls w3 = opCalls w2 -> opCalls w3 <> opCalls w)
      by (intros w3 ->; lia);
    (split; [|intros (Hc & Hd & Hr); first [discriminate Hc | discriminate Hd | lia]]);
    intros Hsame; exfalso; revert Hsame; apply Hmore;
    destruct res2 as [r|e2];
    [ unfold mbind, M_bind, bind, mret, M_ret, ret;
      destruct (storeResult_run (cacheKey options) r
                  (default CACHE_TTL_MS (cacheTtl options)) w2) as (c2 & -> & _);
      reflexivity
    | reflexivity ].
Qed.

Lemma executeQuery_gate_exact_witness :
  opCalls (snd (executeQuery sampleLogError sampleRetryConfig production
                             (resolvesWith (JObj 7))
                             (mkOptions (Some "hospital:1") None None (Some true))
                             afterTimeout))
  = opCalls afterTimeout.
Proof.
  apply (executeQuery_gate_exact sampleLogError sampleRetryConfig production
           (resolvesWith (JObj 7)) (mkOptions (Some "hospital:1") None None (Some true))
           afterTimeout "postgres://db" eq_refl eq_refl eq_refl).
  repeat split.
Defined.

End FacadeFurther.

(** ** Further properties of the health monitor *)

Section HealthFurther.

(** X9: with a database URL, a probe whose query answers in less than
    [CONNECTION_TIMEOUT_MS] records a connected snapshot with that time
    as [responseTimeMs]; a probe whose query hangs, or settles only after
    more than the timeout, even successfully, records a disconnected
    snapshot with the classified timeout error, and has taken exactly the
    timeout. *)
Theorem checkDbHealth_timing :
  forall (logError : Thrown -> string -> AppError) env w dbUrl,
    getDatabaseUrl env = Some dbUrl ->
    (forall d,
       (d < CONNECTION_TIMEOUT_MS)%Z ->
       let st := mkHealth true (clock w + d) (Some d) None in
       checkDbHealth logError env (ClientQueries (QueryResolves d)) w
       = (Returned st,
          mkWorld (cache w) st (clock w + d) (opCalls w) (trace w ++ [EvProbe]))) /\
    (forall q,
       (q = QueryHangs \/
        exists d, (CONNECTION_TIMEOUT_MS < d)%Z /\
                  (q = QueryResolves d \/ exists e, q = QueryRejects e d)) ->
       let st :=
         mkHealth false (clock w + CONNECTION_TIMEOUT_MS) None
                  (Some (message (logError (ThrownError "Database health check timed out")
                                           "Database Health Check"))) in
       checkDbHealth logError env (ClientQueries q) w
       = (Returned st,
          mkWorld (cache w) st (clock w + CONNECTION_TIMEOUT_MS) (opCalls w)
                  (trace w ++ [EvProbe; EvLogError "Database Health Check"]))).
Proof.
  intros logError env w dbUrl Hurl.
  assert (Henv : isPreviewEnvironment env = false).
  { unfold getDatabaseUrl in Hurl. destruct (isPreviewEnvironment env); [discriminate | reflexivity]. }
  assert (Hout : checkDbHealth logError env (ClientQueries QueryHangs) w
                 = (Returned
                      (mkHealth false (clock w + CONNECTION_TIMEOUT_MS) None
                         (Some (message (logError (ThrownError "Database health check timed out")
                                                  "Database Health Check")))),
                    mkWorld (cache w)
                      (mkHealth false (clock w + CONNECTION_TIMEOUT_MS) None
                         (Some (message (logError (ThrownError "Database health check timed out")
                                                  "Database Health Check"))))
                      (clock w + CONNECTION_TIMEOUT_MS) (opCalls w)
                      (trace w ++ [EvProbe; EvLogError "Database Health Check"]))).
  { unfold checkDbHealth, probeDatabase, raceWithTimeout, publish.
    rewrite Henv, Hurl. unfold_M. simpl.
    unfold with_health, record, with_clock. simpl.
    rewrite <- app_assoc. reflexivity. }
  split.
  - intros d Hd st. subst st.
    unfold checkDbHealth, probeDatabase, raceWithTimeout, publish.
    rewrite Henv, Hurl.
    destruct (Z.ltb_spec d CONNECTION_TIMEOUT_MS) as [_|Hge]; [|lia].
    unfold_M. simpl. replace (clock w + d - clock w)%Z with d by lia. reflexivity.
  - intros q Hq st. subst st.
    destruct Hq as [->|(d & Hd & [->|(e & ->)])]; [exact Hout| |].
    all: rewrite <- Hout;
      unfold checkDbHealth, probeDatabase, raceWithTimeout;
      rewrite Henv, Hurl;
      destruct (Z.ltb_spec d CONNECTION_TIMEOUT_MS) as [Hlt|_]; [lia | reflexivity].
Qed.

Lemma checkDbHealth_timing_witness :
  fst (checkDbHealth sampleLogError production (ClientQueries (QueryResolves 25000)) populated)
  = Returned (mkHealth false (clock populated + 10000) None
                       (Some "Database health check timed out")).
Proof.
  destruct (checkDbHealth_timing sampleLogError production populated "postgres://db" eq_refl)
    as (_ & Hslow).
  rewrite (Hslow (QueryResolves 25000)); [reflexivity|].
  right. exists 25000%Z. split; [reflexivity | left; reflexivity].
Defined.

(** The snapshot a probe returns is the recorded one, and is stamped with
    the time at which the probe ended. *)
Lemma checkDbHealth_stamp logError env probe w st w1 :
  checkDbHealth logError env probe w = (Returned st, w1) ->
  dbHealthStatus w1 = st /\ lastChecked st = clock w1 /\ opCalls w1 = opCalls w.
Proof.
  unfold checkDbHealth. unfold mbind at 1. unfold M_bind, bind, emit, modify. simpl.
  destruct (isPreviewEnvironment env).
  { unfold publish. unfold_M. simpl. intros [= <- <-]. repeat split. }
  unfold tryCatch.
  destruct (probeDatabase_run env probe (record EvProbe w))
    as [(rt & t & ->)|(err & t & ->)].
  - intros [= <- <-]. repeat split.
  - unfold publish. unfold_M. simpl. intros [= <- <-]. repeat split.
Qed.

(** X10: the message a failed probe records is what the caller of a
    refused critical query receives: after a probe that recorded a
    disconnected snapshot, a critical query made less than 60 seconds
    later, outside preview mode, with a database client and no cached
    value, throws "Database is currently unavailable" with the recorded
    error as details ("Recent health check failed" when that is empty),
    and the operation is not invoked. *)
Theorem failed_probe_refuses_critical_queries :
  forall (logError : Thrown -> string -> AppError) (DEFAULT_RETRY_CONFIG : RetryConfig)
         env probe w st w1 queryFn options passed dbUrl,
    checkDbHealth logError env probe w = (Returned st, w1) ->
    isConnected st = false ->
    isPreviewMode env = false ->
    getDatabaseUrl env = Some dbUrl ->
    critical options = Some true ->
    (passed < 60000)%Z ->
    let later := with_clock (clock w1 + passed) w1 in
    fst (cachedResult (cacheKey options) later) = Returned None ->
    let run := executeQuery logError DEFAULT_RETRY_CONFIG env queryFn options later in
    fst run = Threw (ThrownApp
                       (mkAppError DATABASE_CONNECTION "Database is currently unavailable"
                          (if truthy_str (error st) then error st
                           else Some "Recent health check failed")
                          None)) /\
    opCalls (snd run) = opCalls w1.
Proof.
  intros logError DEFAULT_RETRY_CONFIG env probe w st w1 queryFn options passed dbUrl
         Hprobe Hdown Hprev Hurl Hcrit Hpassed later Hmiss run.
  destruct (checkDbHealth_stamp logError env probe w st w1 Hprobe) as (Hst & Hstamp & Hcalls).
  subst run.
  destruct (executeQuery logError DEFAULT_RETRY_CONFIG env queryFn options later)
    as [res w'] eqn:Hquery.
  unfold executeQuery in Hquery. rewrite Hprev in Hquery.
  unfold mbind at 1 in Hquery. unfold M_bind, bind in Hquery.
  destruct (cachedResult_run (cacheKey options) later) as (hit & c & Hlook & _).
  rewrite Hlook in Hmiss, Hquery. simpl in Hmiss. injection Hmiss as ->.
  unfold queryDatabase, dbClient in Hquery. rewrite Hurl, Hcrit in Hquery.
  unfold mbind at 1 in Hquery. unfold M_bind, bind in Hquery.
  rewrite healthGate_eq in Hquery. simpl in Hquery.
  rewrite Hst, Hdown in Hquery. simpl in Hquery.
  destruct (Z.ltb_spec (clock w1 + passed - 60000) (lastChecked st)); [|lia].
  injection Hquery as <- <-. split; [reflexivity | exact eq_refl].
Qed.

Lemma failed_probe_refuses_critical_queries_witness :
  let probed := checkDbHealth sampleLogError production (ClientQueries QueryHangs) populated in
  let later := with_clock (clock (snd probed) + 30000) (snd probed) in
  fst (executeQuery sampleLogError sampleRetryConfig production (resolvesWith (JObj 7))
                    (mkOptions (Some "hospital:1") None None (Some true)) later)
  = Threw (ThrownApp
             (mkAppError DATABASE_CONNECTION "Database is currently unavailable"
                         (Some "Database health check timed out") None)).
Proof.
  intros probed later.
  destruct (failed_probe_refuses_critical_queries sampleLogError sampleRetryConfig production
              (ClientQueries QueryHangs) populated
              (mkHealth false (clock populated + 10000) None
                        (Some "Database health check timed out"))
              (snd probed) (resolvesWith (JObj 7))
              (mkOptions (Some "hospital:1") None None (Some true)) 30000%Z "postgres://db")
    as (Hrun & _).
  - reflexivity.
  - reflexivity.
  - reflexivity.
  - reflexivity.
  - reflexivity.
  - reflexivity.
  - reflexivity.
  - exact Hrun.
Defined.

End HealthFurther.

(** ** The middleware *)

Section MiddlewareProperties.

Import Middleware.

(** X11: the middleware lets a request through in exactly three cases:
    preview mode is detected; the request carries non-empty [adminId] and
    [hospitalId] cookies and asks for a path other than [/], [/login] and
    [/register]; or it lacks one of them and asks for [/login] or
    [/register].  Every other request is redirected. *)
Theorem middleware_passes_exactly :
  forall env request,
    middleware env request = Next <->
    (isPreviewModeMiddleware env request = true \/
     (isAuthenticated request = true /\
      pathname request <> "/" /\ pathname request <> "/login" /\
      pathname request <> "/register") \/
     (isAuthenticated request = false /\
      (pathname request = "/login" \/ pathname request = "/register"))).
Proof.
  intros env request. unfold middleware.
  destruct (isPreviewModeMiddleware env request).
  { rewrite andb_true_r. destruct (String.eqb (pathname request) "/"); tauto. }
  rewrite andb_false_r.
  destruct (String.eqb_spec (pathname request) "/login") as [Hl|Hl];
    destruct (String.eqb_spec (pathname request) "/register") as [Hr|Hr];
    destruct (String.eqb_spec (pathname request) "/") as [Hroot|Hroot];
    destruct (isAuthenticated request); simpl;
    try (rewrite Hl in Hr; discriminate Hr);
    try (rewrite Hl in Hroot; discriminate Hroot);
    try (rewrite Hr in Hroot; discriminate Hroot);
    split; try discriminate; try tauto;
    intros [H|[(H & H1 & H2 & H3)|(H & [H1|H1])]];
    try discriminate; try contradiction; reflexivity.
Qed.

(** X12: a redirect of the middleware is never followed by another one:
    it goes to [/login] with the reason [login-required], for a request
    without the two cookies, or to [/dashboard], for a request with them,
    and the request for the target, with the same cookies, is let
    through.  In particular the middleware never redirects to [/login]
    without a reason. *)
Theorem middleware_redirects_settle :
  forall env request path search,
    middleware env request = Redirect path search ->
    middleware env (follow request path) = Next /\
    ((path = "/login" /\ search = "?reason=login-required" /\
      isAuthenticated request = false) \/
     (path = "/dashboard" /\ search = EmptyString /\ isAuthenticated request = true)).
Proof.
  intros env request path search. unfold middleware, follow.
  unfold isPreviewModeMiddleware, isAuthenticated. simpl.
  destruct (if str_is (or_str (VERCEL_ENV env) (NEXT_PUBLIC_VERCEL_ENV env)) "preview"
            then true
            else if str_is (IS_PREVIEW env) "true" then true
            else if previewHostname (requestHostname request) then true
            else match cookies request !! "__previewMode" with
                 | Some _ => true
                 | None => false
                 end).
  { rewrite andb_true_r. destruct (String.eqb (pathname request) "/"); discriminate. }
  rewrite !andb_false_r.
  destruct (truthy_str (cookies request !! "adminId") &&
            truthy_str (cookies request !! "hospitalId")) eqn:Hauth;
    destruct (String.eqb_spec (pathname request) "/login") as [Hl|Hl];
    destruct (String.eqb_spec (pathname request) "/register") as [Hr|Hr];
    destruct (String.eqb_spec (pathname request) "/") as [Hroot|Hroot];
    simpl;
    try (rewrite Hl in Hr; discriminate Hr);
    try (rewrite Hl in Hroot; discriminate Hroot);
    try (rewrite Hr in Hroot; discriminate Hroot);
    try discriminate;
    intros [= <- <-]; simpl;
    (split; [reflexivity
            | solve [left; repeat split; reflexivity | right; repeat split; reflexivity]]).
Qed.

Lemma middleware_redirects_settle_witness :
  middleware production
             (follow (mkRequest "/dashboard" "bloodbank.example.org" ∅) "/login")
  = Next.
Proof.
  destruct (middleware_redirects_settle production
              (mkRequest "/dashboard" "bloodbank.example.org" ∅)
              "/login" "?reason=login-required") as (Hnext & _);
    [reflexivity | exact Hnext].
Defined.

End MiddlewareProperties.

(** ** The session check *)

Section SessionProperties.

Import Session.

(** X13: the session route answers 200, 401 or 500 and never throws; it
    answers 401 exactly when, outside preview mode, [isAuthenticated]
    threw an [AppError] of type [AUTHENTICATION], and 200 exactly in
    preview mode or when [isAuthenticated] returned. *)
Theorem check_session_status :
  forall (logError : Thrown -> string -> AppError) env auth,
    let response := GET logError env auth in
    (status response = 200 \/ status response = 401 \/ status response = 500)%Z /\
    (status response = 401%Z <->
     isPreviewMode env = false /\
     exists e, auth = AuthThrows (ThrownApp e) /\ Js.type e = AUTHENTICATION) /\
    (status response = 200%Z <->
     isPreviewMode env = true \/ exists authenticated, auth = AuthReturns authenticated).
Proof.
  intros logError env auth response. subst response. unfold GET.
  destruct (isPreviewMode env); simpl.
  { split; [left; reflexivity|]. split; split;
      [discriminate | intros (H & _); discriminate H | left; reflexivity | reflexivity]. }
  destruct auth as [b|[e|msg|v]]; simpl.
  - split; [left; reflexivity|]. split; split.
    + discriminate.
    + intros (_ & e & H & _). discriminate H.
    + intros _. right. eauto.
    + reflexivity.
  - destruct (Js.type e) eqn:Ht; simpl;
      (split; [auto|]); split; split;
      try discriminate;
      try (intros (_ & e' & [= <-] & H); congruence);
      try (intros [H|(b & H)]; discriminate H);
      intros _; split; [reflexivity | exists e; split; [reflexivity | exact Ht]].
  - split; [auto|]. split; split.
    + discriminate.
    + intros (_ & e & H & _). discriminate H.
    + discriminate.
    + intros [H|(b & H)]; discriminate H.
  - split; [auto|]. split; split.
    + discriminate.
    + intros (_ & e & H & _). discriminate H.
    + discriminate.
    + intros [H|(b & H)]; discriminate H.
Qed.

(** X14: the session monitor logs the user out on a response of the
    session route exactly when neither the browser nor the server is in
    preview mode and [isAuthenticated] did anything but return [true]: a
    failure of the check on the server, of whatever kind, ends the
    session like a negative answer does.  When the request itself fails,
    or a successful response does not parse, the user stays logged in. *)
Theorem session_monitor_logs_out_exactly :
  forall (logError : Thrown -> string -> AppError) clientEnv serverEnv auth,
    (checkSession clientEnv (FetchResponds (GET logError serverEnv auth)) = true <->
     isPreviewMode clientEnv = false /\ isPreviewMode serverEnv = false /\
     auth <> AuthReturns true) /\
    checkSession clientEnv FetchFails = false /\
    (forall status, ok status = true ->
                    checkSession clientEnv (FetchUnparsable status) = false).
Proof.
  intros logError clientEnv serverEnv auth. unfold checkSession, checkSessionTimeout, GET.
  split; [|split].
  - destruct (isPreviewMode clientEnv); [split; [discriminate | intros (H & _); discriminate H]|].
    destruct (isPreviewMode serverEnv); simpl.
    { split; [discriminate | intros (_ & H & _); discriminate H]. }
    destruct auth as [[|]|[e|msg|v]]; simpl.
    + split; [discriminate | intros (_ & _ & H); now contradiction H].
    + split; [intros _; repeat split; discriminate | reflexivity].
    + destruct (Js.type e); simpl; (split; [intros _; repeat split; discriminate | reflexivity]).
    + split; [intros _; repeat split; discriminate | reflexivity].
    + split; [intros _; repeat split; discriminate | reflexivity].
  - destruct (isPreviewMode clientEnv); reflexivity.
  - intros status Hok. rewrite Hok. destruct (isPreviewMode clientEnv); reflexivity.
Qed.

(** X15: a firing of the session timer ends the session exactly when at
    least [timeoutMinutes] minutes have passed since the last activity,
    to the millisecond, and turns the warning on exactly during the
    [warningMinutes] minutes before that; it never turns the warning
    off. *)
Theorem session_tick_exact :
  forall timeoutMinutes warningMinutes lastActivity now showWarning,
    let '(remaining, warning, timedOut) :=
      sessionTick timeoutMinutes warningMinutes lastActivity now showWarning in
    (timedOut = true <-> (timeoutMinutes * 60000 <= now - lastActivity)%Z) /\
    (warning = true <->
     showWarning = true \/
     ((timeoutMinutes - warningMinutes) * 60000 <= now - lastActivity
      < timeoutMinutes * 60000)%Z).
Proof.
  intros T W last now sw. unfold sessionTick.
  set (x := (now - last)%Z).
  assert (Hfloor : forall n, (n <= x / 1000 <-> n * 1000 <= x)%Z).
  { intros n. split; intros H.
    - pose proof (Z.mul_div_le x 1000 ltac:(lia)). nia.
    - apply Z.div_le_lower_bound; lia. }
  split.
  - rewrite Z.leb_le. rewrite <- (Z.mul_assoc T 60 1000) || idtac.
    specialize (Hfloor (T * 60)%Z). lia.
  - pose proof (Hfloor (T * 60)%Z) as H1.
    pose proof (Hfloor (T * 60 - W * 60)%Z) as H2.
    destruct (Z.leb_spec (T * 60 - x / 1000) (W * 60));
      destruct (Z.ltb_spec 0 (T * 60 - x / 1000)); simpl;
      destruct sw; split; intros; try reflexivity; try tauto; try discriminate;
      try (right; lia);
      match goal with
      | H : _ \/ _ |- _ => destruct H; [discriminate | lia]
      end.
Qed.

End SessionProperties.

(** ** The data-access helpers *)

Ltac unfold_S :=
  unfold mbind, DataAccess.S_bind, mret, DataAccess.S_ret,
    DataAccess.sbind, DataAccess.sret, DataAccess.sthrow, DataAccess.stryCatch,
    DataAccess.liftM, DataAccess.logged, DataAccess.dbQuery in *.

Section DataAccessProperties.

Import DataAccess.

(** What [verifyEntryOwnership] does, case by case. *)
Lemma verifyEntryOwnership_run logError env db bagId entryType hospitalId s :
  exists result w',
    verifyEntryOwnership logError env db bagId entryType hospitalId s
    = (Returned result,
       mkServer w'
                (issued s ++
                 match tableOf entryType, dbClient env with
                 | Some table, Some _ => [SelectOwner table bagId]
                 | _, _ => []
                 end)) /\
    cache w' = cache (world s) /\
    (success result = true <->
     exists table row rest,
       tableOf entryType = Some table /\ dbClient env <> None /\
       db (SelectOwner table bagId) = DbRows (row :: rest) /\
       strictEq (row "hospital_id") (JNum hospitalId) = true).
Proof.
  unfold verifyEntryOwnership.
  destruct (tableOf entryType) as [table|] eqn:Ht.
  2:{ unfold_S. exists (failed "Invalid entry type"), (world s).
      rewrite app_nil_r. destruct s. simpl.
      repeat split; [discriminate | intros (t & _ & _ & H & _); discriminate H]. }
  unfold_S. destruct (dbClient env) as [client|] eqn:Hc.
  2:{ simpl. eexists _, _. rewrite app_nil_r.
      repeat split; [discriminate | intros (t & _ & _ & _ & H & _); now contradiction H]. }
  destruct (db (SelectOwner table bagId)) as [[|row rest]|e] eqn:Hdb; simpl.
  - exists (failed "Entry not found"), (world s).
    repeat split; [discriminate|].
    intros (t & r & rs & [= <-] & _ & H & _). rewrite Hdb in H. discriminate H.
  - destruct (strictEq (row "hospital_id") (JNum hospitalId)) eqn:Heq; simpl.
    + exists succeeded, (world s). repeat split.
      intros _. exists table, row, rest. repeat split; [discriminate | exact Hdb | exact Heq].
    + eexists _, (world s). repeat split; [discriminate|].
      intros (t & r & rs & [= <-] & _ & H & Hs). rewrite Hdb in H.
      injection H as <- <-. rewrite Heq in Hs. discriminate Hs.
  - eexists _, _. repeat split; [discriminate|].
    intros (t & r & rs & [= <-] & _ & H & _). rewrite Hdb in H. discriminate H.
Qed.

(** X16: [softDeleteBloodEntry] never throws, and it sends the [UPDATE]
    only after the [SELECT] of the owner answered, first, a row whose
    [hospital_id] is strictly equal to the caller's hospital: for an
    unknown entry type it sends nothing, and for an entry that is missing,
    inactive or of another hospital only the [SELECT].  It reports success
    exactly when that check passed and the [UPDATE] returned a row. *)
Theorem softDelete_updates_only_owned_entries :
  forall (logError : Thrown -> string -> AppError) env db bagId entryType hospitalId s,
  exists result s' sent,
    softDeleteBloodEntry logError env db bagId entryType hospitalId s
    = (Returned result, s') /\
    issued s' = issued s ++ sent /\
    (forall stmt,
       In stmt sent ->
       exists table,
         tableOf entryType = Some table /\
         (stmt = SelectOwner table bagId \/
          (stmt = DeactivateBag table bagId hospitalId /\
           exists row rest,
             db (SelectOwner table bagId) = DbRows (row :: rest) /\
             strictEq (row "hospital_id") (JNum hospitalId) = true))) /\
    (success result = true <->
     exists table row rest row' rest',
       tableOf entryType = Some table /\ dbClient env <> None /\
       db (SelectOwner table bagId) = DbRows (row :: rest) /\
       strictEq (row "hospital_id") (JNum hospitalId) = true /\
       db (DeactivateBag table bagId hospitalId) = DbRows (row' :: rest')).
Proof.
  intros logError env db bagId entryType hospitalId s.
  unfold softDeleteBloodEntry. unfold stryCatch. unfold mbind at 1. unfold S_bind, sbind.
  destruct (verifyEntryOwnership_run logError env db bagId entryType hospitalId s)
    as (check & w1 & -> & _ & Hcheck).
  destruct (success check) eqn:Hok; simpl.
  - destruct (proj1 Hcheck eq_refl) as (table & row & rest & Ht & Hc & Hdb & Heq).
    rewrite Ht. destruct (dbClient env) as [client|] eqn:Hclient; [|now contradiction Hc].
    unfold_S. rewrite Hclient. simpl.
    assert (Hsent : forall stmt,
               In stmt [SelectOwner table bagId; DeactivateBag table bagId hospitalId] ->
               exists table0,
                 Some table = Some table0 /\
                 (stmt = SelectOwner table0 bagId \/
                  (stmt = DeactivateBag table0 bagId hospitalId /\
                   exists row rest,
                     db (SelectOwner table0 bagId) = DbRows (row :: rest) /\
                     strictEq (row "hospital_id") (JNum hospitalId) = true))).
    { intros stmt [<-|[<-|[]]]; exists table; split; try reflexivity; [left; reflexivity|].
      right. split; [reflexivity|]. eauto. }
    destruct (db (DeactivateBag table bagId hospitalId)) as [[|row' rest']|e] eqn:Hup; simpl.
    + eexists _, _, _. split; [reflexivity|]. simpl. rewrite <- app_assoc.
      split; [reflexivity|]. split; [exact Hsent|].
      split; [discriminate|].
      intros (t & r & rs & r' & rs' & [= <-] & _ & _ & _ & H). rewrite Hup in H.
      discriminate H.
    + eexists _, _, _. split; [reflexivity|]. simpl. rewrite <- app_assoc.
      split; [reflexivity|]. split; [exact Hsent|].
      split; [|reflexivity].
      intros _. exists table, row, rest, row', rest'.
      repeat split; [discriminate | exact Hdb | exact Heq | exact Hup].
    + eexists _, _, _. split; [reflexivity|]. simpl. rewrite <- app_assoc.
      split; [reflexivity|]. split; [exact Hsent|].
      split; [discriminate|].
      intros (t & r & rs & r' & rs' & [= <-] & _ & _ & _ & H). rewrite Hup in H.
      discriminate H.
  - eexists _, _, _. split; [reflexivity|]. split; [reflexivity|]. split.
    + intros stmt Hin.
      destruct (tableOf entryType) as [table|]; [|destruct Hin].
      destruct (dbClient env); [|destruct Hin].
      destruct Hin as [<-|[]]. exists table. split; [reflexivity | left; reflexivity].
    + rewrite Hok. split; [discriminate|].
      intros (t & r & rs & _ & _ & Ht & Hc & Hdb & Heq & _).
      assert (Habsurd : false = true) by (apply Hcheck; eauto 10).
      discriminate Habsurd.
Qed.

(** The cache that [softDeleteBloodEntry] leaves. *)
Lemma softDelete_cache logError env db bagId entryType hospitalId s :
  cache (world (snd (softDeleteBloodEntry logError env db bagId entryType hospitalId s)))
  = match tableOf entryType, dbClient env with
    | Some table, Some _ =>
        match db (SelectOwner table bagId) with
        | DbRows (row :: _) =>
            if strictEq (row "hospital_id") (JNum hospitalId)
            then match db (DeactivateBag table bagId hospitalId) with
                 | DbRows _ =>
                     delete (cacheNamespace table ++ ":" ++ numberToString hospitalId)%string
                            (cache (world s))
                 | DbFails _ => cache (world s)
                 end
            else cache (world s)
        | _ => cache (world s)
        end
    | _, _ => cache (world s)
    end.
Proof.
  unfold softDeleteBloodEntry, verifyEntryOwnership.
  destruct (tableOf entryType) as [table|]; [|reflexivity].
  unfold_S.
  destruct (dbClient env) as [client|]; [|reflexivity].
  destruct (db (SelectOwner table bagId)) as [[|row rest]|e]; try reflexivity.
  destruct (strictEq (row "hospital_id") (JNum hospitalId)); [|reflexivity].
  simpl.
  destruct (db (DeactivateBag table bagId hospitalId)) as [[|row' rest']|e]; reflexivity.
Qed.

(** X17: [softDeleteBloodEntry] drops the cache entry of the inventory of
    the entry's type for the caller's hospital, under the key made of
    the namespace, a colon and the hospital number, as soon as the
    [UPDATE] was answered, even by no row; it leaves every other entry of
    the cache as it was, and the whole cache when the [UPDATE] threw. *)
Theorem softDelete_cache_effect :
  forall (logError : Thrown -> string -> AppError) env db bagId entryType hospitalId s,
    let s' := snd (softDeleteBloodEntry logError env db bagId entryType hospitalId s) in
    (forall table row rest rows,
       tableOf entryType = Some table -> dbClient env <> None ->
       db (SelectOwner table bagId) = DbRows (row :: rest) ->
       strictEq (row "hospital_id") (JNum hospitalId) = true ->
       db (DeactivateBag table bagId hospitalId) = DbRows rows ->
       cache (world s')
       = delete (cacheNamespace table ++ ":" ++ numberToString hospitalId)%string
                (cache (world s))) /\
    (forall k,
       (forall table, tableOf entryType = Some table ->
                      k <> (cacheNamespace table ++ ":" ++ numberToString hospitalId)%string) ->
       cache (world s') !! k = cache (world s) !! k) /\
    (forall table e,
       tableOf entryType = Some table ->
       db (DeactivateBag table bagId hospitalId) = DbFails e ->
       cache (world s') = cache (world s)).
Proof.
  intros logError env db bagId entryType hospitalId s s'. subst s'.
  rewrite softDelete_cache. split; [|split].
  - intros table row rest rows -> Hc -> -> ->.
    destruct (dbClient env); [reflexivity | now contradiction Hc].
  - intros k Hk.
    destruct (tableOf entryType) as [table|]; [|reflexivity].
    destruct (dbClient env); [|reflexivity].
    destruct (db (SelectOwner table bagId)) as [[|row rest]|e]; try reflexivity.
    destruct (strictEq (row "hospital_id") (JNum hospitalId)); [|reflexivity].
    destruct (db (DeactivateBag table bagId hospitalId)); [|reflexivity].
    apply lookup_delete_ne. intros Heqk. apply (Hk table eq_refl). now symmetry.
  - intros table e -> ->.
    destruct (dbClient env); [|reflexivity].
    destruct (db (SelectOwner table bagId)) as [[|row rest]|e']; try reflexivity.
    destruct (strictEq (row "hospital_id") (JNum hospitalId)); reflexivity.
Qed.

(** A [try] whose body starts with a step that returns goes on with the
    rest of the body. *)
Lemma stryCatch_bind_returned {A B} (m : S A) (k : A -> S B) handler s a s1 :
  m s = (Returned a, s1) ->
  stryCatch (m ≫= k) handler s = stryCatch (k a) handler s1.
Proof.
  intros Hm. unfold stryCatch, mbind, S_bind, sbind. now rewrite Hm.
Qed.

(** What [verifyAdminCredentials] does, case by case. *)
Lemma verifyAdminCredentials_run logError env db username password s :
  exists w',
    verifyAdminCredentials logError env db username password s
    = (Returned
         (if isPreviewMode env
          then Some (if String.eqb username "admin" && String.eqb password "password"
                     then mockAdmin else previewAdmin)
          else match dbClient env with
               | None => None
               | Some _ => match db (SelectAdmin username password) with
                           | DbRows rows => head rows
                           | DbFails _ => None
                           end
               end),
       mkServer w'
                (issued s ++
                 if isPreviewMode env then []
                 else match dbClient env with
                      | None => []
                      | Some _ => [SelectAdmin username password]
                      end)) /\
    cache w' = cache (world s) /\
    dbHealthStatus w' = dbHealthStatus (world s).
Proof.
  unfold verifyAdminCredentials.
  destruct (isPreviewMode env).
  - exists (world s). rewrite app_nil_r. destruct s.
    destruct (String.eqb username "admin" && String.eqb password "password");
      repeat split.
  - unfold_S. destruct (dbClient env) as [client|] eqn:Hc.
    + destruct (db (SelectAdmin username password)) as [rows|e]; simpl;
        eexists; repeat split.
    + simpl. eexists. rewrite app_nil_r. repeat split.
Qed.

(** X18: [verifyAdminCredentials] never throws.  In preview mode it
    accepts any credentials without asking the database.  Otherwise it
    returns an admin exactly when there is a database client and the
    [SELECT] answered a first row, which is the admin it returns; a
    missing client and a failing query both give [null]. *)
Theorem verifyAdminCredentials_exact :
  forall (logError : Thrown -> string -> AppError) env db username password s,
  exists admin s',
    verifyAdminCredentials logError env db username password s = (Returned admin, s') /\
    (isPreviewMode env = true -> admin <> None /\ issued s' = issued s) /\
    (isPreviewMode env = false ->
     forall row,
       admin = Some row <->
       (dbClient env <> None /\
        exists rest, db (SelectAdmin username password) = DbRows (row :: rest))).
Proof.
  intros logError env db username password s.
  destruct (verifyAdminCredentials_run logError env db username password s)
    as (w' & -> & _ & _).
  eexists _, _. split; [reflexivity|]. split.
  - intros ->. simpl. rewrite app_nil_r. split; [discriminate | reflexivity].
  - intros -> row.
    destruct (dbClient env) as [client|].
    + destruct (db (SelectAdmin username password)) as [[|row' rest']|e]; simpl.
      * split; [discriminate | intros (_ & rest & H); discriminate H].
      * split.
        -- intros [= ->]. split; [discriminate | now exists rest'].
        -- intros (_ & rest & [= -> _]). reflexivity.
      * split; [discriminate | intros (_ & rest & H); discriminate H].
    + split; [discriminate | intros (H & _); now contradiction H].
Qed.

(** Whether the admin check of [addNewRedBloodBag] is made: both
    credentials are given and not empty. *)
Lemma credentials_checked (adminUsername adminPassword : option string) :
  truthy_str adminUsername && truthy_str adminPassword = true ->
  exists username password, adminUsername = Some username /\ adminPassword = Some password.
Proof.
  destruct adminUsername as [u|], adminPassword as [p|]; simpl;
    try discriminate; try (rewrite andb_false_r; discriminate); eauto.
Qed.

(** X19: with a database client and both credentials given and not
    empty, outside preview mode, [addNewRedBloodBag] sends the [INSERT]
    exactly when the [SELECT] of the admin answered a row; otherwise it
    sends the [SELECT] alone and answers an authentication failure
    flagged as not retryable. *)
Theorem addNewRedBloodBag_checks_credentials :
  forall (logError : Thrown -> string -> AppError) env db client
         donorName amount hospitalId expirationDate bloodType rh username password s,
    dbClient env = Some client ->
    isPreviewMode env = false ->
    username <> EmptyString -> password <> EmptyString ->
    let insert := InsertRedBlood donorName amount hospitalId expirationDate bloodType rh in
    let accepted := exists row rest, db (SelectAdmin username password) = DbRows (row :: rest) in
    exists result s',
      addNewRedBloodBag logError env db donorName amount hospitalId expirationDate
                        bloodType rh (Some username) (Some password) s
      = (Returned result, s') /\
      (accepted -> issued s' = issued s ++ [SelectAdmin username password; insert]) /\
      (~ accepted ->
       issued s' = issued s ++ [SelectAdmin username password] /\
       result = mkActionResult false (Some "Invalid admin credentials") None
                               (Some AUTHENTICATION) (Some false)).
Proof.
  intros logError env db client donorName amount hospitalId expirationDate bloodType rh
         username password s Hclient Hpreview Hu Hp insert accepted.
  subst insert accepted.
  unfold addNewRedBloodBag. rewrite Hclient.
  assert (Htruthy : truthy_str (Some username) && truthy_str (Some password) = true).
  { rewrite !truthy_str_nonempty by assumption. reflexivity. }
  rewrite Htruthy.
  unfold stryCatch. unfold mbind at 1. unfold S_bind, sbind.
  unfold mbind at 1. unfold S_bind, sbind.
  destruct (verifyAdminCredentials_run logError env db username password s)
    as (w' & -> & _ & _).
  rewrite Hpreview, Hclient.
  destruct (db (SelectAdmin username password)) as [[|row rest]|e] eqn:Hdb; simpl.
  - eexists _, _. split; [reflexivity|]. split.
    + intros (r & rs & H). discriminate H.
    + intros _. split; reflexivity.
  - unfold_S. rewrite Hclient. simpl.
    destruct (db (InsertRedBlood donorName amount hospitalId expirationDate bloodType rh))
      as [[|row' rest']|e]; simpl;
      (eexists _, _; split; [reflexivity|]; split;
       [intros _; simpl; now rewrite <- app_assoc
       |intros Hno; contradiction Hno; eauto]).
  - eexists _, _. split; [reflexivity|]. split.
    + intros (r & rs & H). discriminate H.
    + intros _. split; reflexivity.
Qed.

Lemma addNewRedBloodBag_checks_credentials_witness :
  exists result s',
    addNewRedBloodBag sampleLogError production
      (fun stmt => match stmt with
                   | SelectAdmin _ _ => DbRows []
                   | _ => DbRows [mockAdmin]
                   end)
      "donor" 450 1 "2030-01-01" "A" "+" (Some "admin") (Some "wrong")
      (mkServer populated [])
    = (Returned result, s') /\
    issued s' = [SelectAdmin "admin" "wrong"] /\
    success result = false.
Proof.
  destruct (addNewRedBloodBag_checks_credentials sampleLogError production
              (fun stmt => match stmt with
                           | SelectAdmin _ _ => DbRows []
                           | _ => DbRows [mockAdmin]
                           end)
              "postgres://db" "donor" 450 1 "2030-01-01" "A" "+" "admin" "wrong"
              (mkServer populated []))
    as (result & s' & Hrun & _ & Hrejected);
    [reflexivity | reflexivity | discriminate | discriminate |].
  exists result, s'. split; [exact Hrun|].
  destruct Hrejected as [Hissued ->].
  - intros (row & rest & H). discriminate H.
  - split; [exact Hissued | reflexivity].
Defined.

(** X20: when a credential is missing or empty, [addNewRedBloodBag] makes
    no admin check at all: with a database client it sends the [INSERT]
    and nothing else, and reports success exactly when the [INSERT]
    returned a row. *)
Theorem addNewRedBloodBag_unchecked_without_credentials :
  forall (logError : Thrown -> string -> AppError) env db client
         donorName amount hospitalId expirationDate bloodType rh
         adminUsername adminPassword s,
    dbClient env = Some client ->
    truthy_str adminUsername && truthy_str adminPassword = false ->
    let insert := InsertRedBlood donorName amount hospitalId expirationDate bloodType rh in
    exists result s',
      addNewRedBloodBag logError env db donorName amount hospitalId expirationDate
                        bloodType rh adminUsername adminPassword s
      = (Returned result, s') /\
      issued s' = issued s ++ [insert] /\
      (success result = true <-> exists row rest, db insert = DbRows (row :: rest)).
Proof.
  intros logError env db client donorName amount hospitalId expirationDate bloodType rh
         adminUsername adminPassword s Hclient Hfalsy insert. subst insert.
  unfold addNewRedBloodBag. rewrite Hclient.
  assert (Hskip :
            match adminUsername, adminPassword with
            | Some username, Some password =>
                if truthy_str adminUsername && truthy_str adminPassword
                then admin ← verifyAdminCredentials logError env db username password;
                     mret (match admin with Some _ => false | None => true end)
                else mret false
            | _, _ => mret false
            end = (mret false : S bool)).
  { rewrite Hfalsy. destruct adminUsername, adminPassword; reflexivity. }
  rewrite Hskip. unfold_S. rewrite Hclient. simpl.
  destruct (db (InsertRedBlood donorName amount hospitalId expirationDate bloodType rh))
    as [[|row rest]|e]; simpl; eexists _, _; (split; [reflexivity|]);
    (split; [reflexivity|]); simpl.
  - split; [discriminate | intros (r & rs & H); discriminate H].
  - split; [eauto | reflexivity].
  - split; [discriminate | intros (r & rs & H); discriminate H].
Qed.

Lemma addNewRedBloodBag_unchecked_without_credentials_witness :
  exists result s',
    addNewRedBloodBag sampleLogError production (fun _ => DbRows [mockAdmin])
      "donor" 450 1 "2030-01-01" "A" "+" (Some "admin") (Some EmptyString)
      (mkServer populated [])
    = (Returned result, s') /\
    issued s' = [InsertRedBlood "donor" 450 1 "2030-01-01" "A" "+"] /\
    success result = true.
Proof.
  destruct (addNewRedBloodBag_unchecked_without_credentials sampleLogError production
              (fun _ => DbRows [mockAdmin]) "postgres://db"
              "donor" 450 1 "2030-01-01" "A" "+" (Some "admin") (Some EmptyString)
              (mkServer populated []))
    as (result & s' & Hrun & Hissued & Hsuccess); [reflexivity | reflexivity |].
  exists result, s'. split; [exact Hrun|]. split; [exact Hissued|].
  apply Hsuccess. now exists mockAdmin, [].
Defined.

(** What [addNewRedBloodBag] leaves, in every case. *)
Lemma addNewRedBloodBag_run :
  forall (logError : Thrown -> string -> AppError) env db
         donorName amount hospitalId expirationDate bloodType rh
         adminUsername adminPassword s,
  exists result s',
    addNewRedBloodBag logError env db donorName amount hospitalId expirationDate
                      bloodType rh adminUsername adminPassword s
    = (Returned result, s') /\
    cache (world s') = cache (world s) /\
    dbHealthStatus (world s') = dbHealthStatus (world s) /\
    (dbClient env = None ->
     issued s' = issued s /\ success result = false /\ retryable result = Some true).
Proof.
  intros logError env db donorName amount hospitalId expirationDate bloodType rh
         adminUsername adminPassword s.
  unfold addNewRedBloodBag.
  destruct (dbClient env) as [client|] eqn:Hclient.
  2:{ unfold_S. simpl. eexists _, _. repeat split. }
  assert (Hinsert : forall s1 : Server,
            exists result s',
              stryCatch
                (result ← dbQuery env db
                            (InsertRedBlood donorName amount hospitalId expirationDate
                                            bloodType rh);
                 match result with
                 | _ :: _ => mret succeeded
                 | [] => mret (mkActionResult false
                                 (Some "Failed to add red blood cell bag") None
                                 (Some SERVER) (Some true))
                 end)
                (fun error =>
                   liftM (emit (EvConsole "Add red blood cell error:"));;
                   appError ← logged logError error "Add Red Blood Cell";
                   mret (mkActionResult false (Some (message appError))
                                        (Js.details appError)
                                        (Some (Js.type appError)) (Some true))) s1
              = (Returned result, s') /\
              cache (world s') = cache (world s1) /\
              dbHealthStatus (world s') = dbHealthStatus (world s1)).
  { intros s1. unfold_S. rewrite Hclient.
    destruct (db (InsertRedBlood donorName amount hospitalId expirationDate bloodType rh))
      as [[|row rest]|e]; simpl; eexists _, _; repeat split. }
  destruct (Bool.bool_dec (truthy_str adminUsername && truthy_str adminPassword) true)
    as [Htruthy|Htruthy]; [|apply not_true_is_false in Htruthy].
  - destruct (credentials_checked _ _ Htruthy) as (username & password & -> & ->).
    rewrite Htruthy.
    destruct (verifyAdminCredentials_run logError env db username password s)
      as (w' & Hrun & Hcache & Hhealth).
    erewrite stryCatch_bind_returned;
      [|unfold mbind, S_bind, sbind; rewrite Hrun; reflexivity].
    match goal with
    | |- context [mkServer w' ?l] => set (s1 := mkServer w' l)
    end.
    destruct (if isPreviewMode env then _ else _) as [row|].
    + destruct (Hinsert s1) as (result & s' & Hins & Hc & Hh).
      exists result, s'. split; [exact Hins|].
      split; [now rewrite Hc | split; [now rewrite Hh | discriminate]].
    + eexists _, _. split; [reflexivity|].
      split; [exact Hcache | split; [exact Hhealth | discriminate]].
  - assert (Hskip :
              match adminUsername, adminPassword with
              | Some username, Some password =>
                  if truthy_str adminUsername && truthy_str adminPassword
                  then admin ← verifyAdminCredentials logError env db username password;
                       mret (match admin with Some _ => false | None => true end)
                  else mret false
              | _, _ => mret false
              end = (mret false : S bool)).
    { rewrite Htruthy. destruct adminUsername, adminPassword; reflexivity. }
    rewrite Hskip.
    destruct (Hinsert s) as (result & s' & Hrun & Hc & Hh).
    unfold stryCatch in *. unfold mbind at 1. unfold S_bind, sbind.
    unfold mret at 1. unfold S_ret, sret.
    exists result, s'. split; [exact Hrun|].
    split; [exact Hc | split; [exact Hh | discriminate]].
Qed.

(** X21: [addNewRedBloodBag] never throws and never touches the query
    cache or the health snapshot, whatever the database does.  A missing
    database client is reported as a failure flagged retryable, with
    nothing sent. *)
Theorem addNewRedBloodBag_keeps_cache :
  forall (logError : Thrown -> string -> AppError) env db
         donorName amount hospitalId expirationDate bloodType rh
         adminUsername adminPassword s,
    let run := addNewRedBloodBag logError env db donorName amount hospitalId
                                 expirationDate bloodType rh adminUsername adminPassword s in
    (exists result,
       fst run = Returned result /\
       (dbClient env = None -> success result = false /\ retryable result = Some true)) /\
    cache (world (snd run)) = cache (world s) /\
    dbHealthStatus (world (snd run)) = dbHealthStatus (world s) /\
    (dbClient env = None -> issued (snd run) = issued s).
Proof.
  intros logError env db donorName amount hospitalId expirationDate bloodType rh
         adminUsername adminPassword s run. subst run.
  destruct (addNewRedBloodBag_run logError env db donorName amount hospitalId
              expirationDate bloodType rh adminUsername adminPassword s)
    as (result & s' & -> & Hcache & Hhealth & Hnone).
  simpl. split; [|split; [exact Hcache | split; [exact Hhealth | apply Hnone]]].
  exists result. split; [reflexivity | apply Hnone].
Qed.

End DataAccessProperties.

(** ** The connection test *)

Section ConnectionTestProperties.

Import ConnectionTest.
Local Open Scope string_scope.

Lemma getDatabaseUrl_nonempty env dbUrl :
  getDatabaseUrl env = Some dbUrl ->
  isPreviewEnvironment env = false /\ dbUrl <> EmptyString.
Proof.
  unfold getDatabaseUrl.
  destruct (isPreviewEnvironment env); [discriminate|].
  set (u := or_str _ _). destruct (truthy_str u) eqn:Hu; simpl; [|discriminate].
  intros ->. split; [reflexivity|]. intros ->. discriminate Hu.
Qed.

Lemma spanNoColon_app s : fst (spanNoColon s) ++ snd (spanNoColon s) = s.
Proof.
  induction s as [|c rest IH]; [reflexivity|]. simpl.
  destruct (Ascii.eqb c ":"); [reflexivity|].
  destruct (spanNoColon rest) as [run tail]. simpl in *.
  change (String c (run ++ tail) = String c rest). now rewrite IH.
Qed.

Lemma spanNoColon_hasChar c s :
  hasChar c s = false -> hasChar c (fst (spanNoColon s)) = false.
Proof.
  induction s as [|x rest IH]; [reflexivity|]. simpl.
  destruct (Ascii.eqb x ":"); [reflexivity|].
  intros [Hx Hrest]%orb_false_iff.
  destruct (spanNoColon rest) as [run tail]. simpl in *. rewrite Hx. now apply IH.
Qed.

Lemma spanNoColon_prefix c a b :
  hasChar c a = false ->
  hasChar c (fst (spanNoColon (a ++ String ":" b))) = false.
Proof.
  induction a as [|x rest IH]; [reflexivity|].
  change (String x rest ++ String ":" b)%string with (String x (rest ++ String ":" b)).
  simpl. destruct (Ascii.eqb x ":"); [reflexivity|].
  intros [Hx Hrest]%orb_false_iff.
  destruct (spanNoColon (rest ++ String ":" b)) as [run tail]. simpl in *.
  rewrite Hx. now apply IH.
Qed.

Lemma spanNoColon_run a b :
  hasChar ":" a = false ->
  spanNoColon (a ++ b) = (a ++ fst (spanNoColon b), snd (spanNoColon b))%string.
Proof.
  induction a as [|x rest IH]; intros Ha.
  - change (EmptyString ++ b)%string with b.
    change (EmptyString ++ fst (spanNoColon b))%string with (fst (spanNoColon b)).
    now destruct (spanNoColon b).
  - change (String x rest ++ b)%string with (String x (rest ++ b)).
    simpl in *. apply orb_false_iff in Ha as [Hx Hrest].
    rewrite Hx, (IH Hrest). reflexivity.
Qed.

Lemma afterLastAt_none run : hasChar "@" run = false -> afterLastAt run = None.
Proof.
  induction run as [|c rest IH]; [reflexivity|]. simpl.
  intros [Hc Hrest]%orb_false_iff. now rewrite (IH Hrest), Hc.
Qed.

Lemma afterLastAt_last a b :
  hasChar "@" b = false -> afterLastAt (a ++ String "@" b) = Some b.
Proof.
  intros Hb. induction a as [|c rest IH].
  - change (EmptyString ++ String "@" b)%string with (String "@" b).
    simpl. now rewrite (afterLastAt_none _ Hb).
  - change (String c rest ++ String "@" b)%string with (String c (rest ++ String "@" b)).
    simpl. now rewrite IH.
Qed.

(** What the mask does to a URL with a password. *)
Lemma maskPassword_password pre password post :
  hasChar "@" pre = false ->
  hasChar ":" password = false ->
  hasChar "@" post = false ->
  maskPassword (pre ++ String ":" (password ++ String "@" post))
  = (pre ++ ":****@" ++ post)%string.
Proof.
  intros Hpre Hpw Hpost. induction pre as [|c rest IH].
  - change (EmptyString ++ String ":" (password ++ String "@" post))%string
      with (String ":" (password ++ String "@" post)).
    change (EmptyString ++ ":****@" ++ post)%string with (":****@" ++ post)%string.
    simpl. rewrite (spanNoColon_run _ _ Hpw). simpl.
    destruct (spanNoColon post) as [run tail] eqn:Hspan. simpl.
    assert (Hrun : hasChar "@" run = false).
    { generalize (spanNoColon_hasChar "@" post Hpost). now rewrite Hspan. }
    rewrite (afterLastAt_last password run Hrun).
    generalize (spanNoColon_app post). rewrite Hspan. simpl. now intros ->.
  - change (String c rest ++ String ":" (password ++ String "@" post))%string
      with (String c (rest ++ String ":" (password ++ String "@" post))).
    change (String c rest ++ ":****@" ++ post)%string
      with (String c (rest ++ ":****@" ++ post)).
    simpl in Hpre. apply orb_false_iff in Hpre as [Hc Hrest].
    simpl. destruct (Ascii.eqb c ":") eqn:Hcolon.
    + generalize (spanNoColon_prefix "@" rest (password ++ String "@" post) Hrest).
      destruct (spanNoColon (rest ++ String ":" (password ++ String "@" post)))
        as [run tail]. simpl. intros Hrun.
      rewrite (afterLastAt_none _ Hrun). now rewrite (IH Hrest).
    + now rewrite (IH Hrest).
Qed.

(** X22: [testDatabaseConnection] never throws and reports a connection
    exactly in a preview environment, where nothing is tested, or when
    there is a database URL and the test query resolved within the
    connection timeout.  A result carries an error exactly when it is not
    connected, and outside a preview environment the module's connection
    error message is left equal to that error, empty after a success. *)
Theorem testDatabaseConnection_exact :
  forall env outcome message,
    let result := fst (testDatabaseConnection env outcome message) in
    let message' := snd (testDatabaseConnection env outcome message) in
    (connected result = true <->
     isPreviewEnvironment env = true \/
     exists version d,
       getDatabaseUrl env <> None /\
       outcome = TestClientQueries (TestResolves version d) /\
       (d < CONNECTION_TIMEOUT_MS)%Z) /\
    (connected result = true <-> error result = None) /\
    (isPreviewEnvironment env = true -> message' = message) /\
    (isPreviewEnvironment env = false -> message' = default EmptyString (error result)).
Proof.
  intros env outcome message result message'. subst result message'.
  unfold testDatabaseConnection.
  destruct (isPreviewEnvironment env) eqn:Hpreview; simpl.
  { repeat split; auto; discriminate. }
  destruct (getDatabaseUrl env) as [dbUrl|] eqn:Hurl; simpl.
  2:{ repeat split; try discriminate.
      intros [H|(v & d & H & _)]; [discriminate H | now contradiction H]. }
  destruct (getDatabaseUrl_nonempty _ _ Hurl) as [_ Hne].
  destruct (String.eqb_spec dbUrl EmptyString) as [->|_]; [now contradiction Hne|].
  destruct outcome as [e|[version d|e d|]]; simpl.
  - repeat split; try discriminate.
    intros [H|(v & d & _ & H & _)]; discriminate H.
  - destruct (Z.ltb_spec d CONNECTION_TIMEOUT_MS) as [Hd|Hd]; simpl.
    + repeat split; try discriminate. intros _. right. exists version, d.
      repeat split; [discriminate | exact Hd].
    + repeat split; try discriminate.
      intros [H|(v & d' & _ & [= _ <-] & H)]; [discriminate H | lia].
  - destruct (Z.ltb d CONNECTION_TIMEOUT_MS); simpl; repeat split; try discriminate;
      intros [H|(v & d' & _ & H & _)]; discriminate H.
  - repeat split; try discriminate.
    intros [H|(v & d' & _ & H & _)]; discriminate H.
Qed.

(** X23: the database URL a successful test reports has its password
    masked: for a URL made of a part without [@], a colon, a password
    without a colon, an [@] and a rest without [@], the diagnostics show
    the first part, [:****@] and the rest.  Only what follows the last
    colon before the [@] is replaced, so of a password with a colon in
    it the part before that colon is still shown. *)
Theorem testDatabaseConnection_masks_password :
  forall env version d message pre password post,
    getDatabaseUrl env = Some (pre ++ String ":" (password ++ String "@" post))%string ->
    hasChar "@" pre = false ->
    hasChar ":" password = false ->
    hasChar "@" post = false ->
    (d < CONNECTION_TIMEOUT_MS)%Z ->
    diagnostics (fst (testDatabaseConnection env
                        (TestClientQueries (TestResolves version d)) message))
    = Some (mkDiagnostics d (pre ++ ":****@" ++ post)%string (versionOf version)).
Proof.
  intros env version d message pre password post Hurl Hpre Hpw Hpost Hd.
  unfold testDatabaseConnection.
  destruct (getDatabaseUrl_nonempty _ _ Hurl) as [-> Hne]. rewrite Hurl.
  destruct (String.eqb_spec (pre ++ String ":" (password ++ String "@" post)) EmptyString)
    as [Heq|_]; [now contradiction Hne|].
  simpl. destruct (Z.ltb_spec d CONNECTION_TIMEOUT_MS) as [_|Hge]; [|lia].
  simpl. now rewrite maskPassword_password.
Qed.

Lemma testDatabaseConnection_masks_password_witness :
  diagnostics (fst (testDatabaseConnection
                      (mkProcessEnv None None None (Some "postgres://app:pa:ss@db.example:5432/blood")
                                    None None None None None)
                      (TestClientQueries (TestResolves (Some "16.2") 35)) EmptyString))
  = Some (mkDiagnostics 35 "postgres://app:pa:****@db.example:5432/blood" "16.2").
Proof.
  apply (testDatabaseConnection_masks_password
           (mkProcessEnv None None None (Some "postgres://app:pa:ss@db.example:5432/blood")
                         None None None None None)
           (Some "16.2") 35%Z EmptyString "postgres://app:pa" "ss" "db.example:5432/blood");
    reflexivity.
Defined.

End ConnectionTestProperties.

(** ** The lookups *)

Section LookupProperties.

Import Lookups.

(** What [queryDatabase] does: it throws at once, or it settles as the
    last invocation of the operation did. *)
Lemma queryDatabase_run (logError : Thrown -> string -> AppError) cfg env queryFn options w :
  exists res w',
    queryDatabase logError cfg env queryFn options w = (res, w') /\
    if stopsEarly env options w
    then w' = w /\ exists e, res = Threw e
    else exists last,
        opCalls w' = S last /\ (opCalls w <= last)%nat /\
        res = match enhanceOp queryFn last with
              | OpResolves v _ => Returned v
              | OpRejects e _ => Threw (ThrownApp (logError e "Database Query"))
              end.
Proof.
  unfold queryDatabase, stopsEarly.
  destruct (dbClient env) as [client|].
  2:{ eexists _, _. split; [reflexivity|]. split; [reflexivity | eauto]. }
  unfold mbind at 1. unfold M_bind, bind. rewrite healthGate_eq.
  destruct (default false (critical options) && negb (isConnected (dbHealthStatus w)) &&
            Z.ltb (clock w - 60000) (lastChecked (dbHealthStatus w))).
  { eexists _, _. split; [reflexivity|]. split; [reflexivity | eauto]. }
  unfold tryCatch. unfold mbind at 1. unfold M_bind, bind.
  match goal with
  | |- context [withRetry ?o ?c ?wA] => destruct (withRetry o c wA) as [res2 w2] eqn:Hretry
  end.
  apply withRetry_run in Hretry.
  destruct Hretry as (_ & _ & (last & Hl1 & Hl2 & ->) & _).
  destruct (enhanceOp queryFn last) as [v d|e d] eqn:Hop; simpl.
  - unfold mbind, M_bind, bind, mret, M_ret, ret.
    destruct (storeResult_run (cacheKey options) v
                (default CACHE_TTL_MS (cacheTtl options)) w2) as (c2 & -> & _).
    eexists _, _. split; [reflexivity|]. exists last. rewrite Hop. simpl.
    repeat split; assumption.
  - unfold_M. eexists _, _. split; [reflexivity|]. exists last. rewrite Hop. simpl.
    repeat split; assumption.
Qed.

(** [executeQuery] when the cache has nothing to serve. *)
Lemma executeQuery_miss (logError : Thrown -> string -> AppError) cfg env queryFn options w :
  isPreviewMode env = false ->
  fst (cachedResult (cacheKey options) w) = Returned None ->
  exists wA,
    executeQuery logError cfg env queryFn options w
    = queryDatabase logError cfg env queryFn options wA /\
    dbHealthStatus wA = dbHealthStatus w /\ clock wA = clock w /\ opCalls wA = opCalls w.
Proof.
  intros Hpreview Hmiss. unfold executeQuery. rewrite Hpreview.
  unfold mbind at 1. unfold M_bind, bind.
  destruct (cachedResult_run (cacheKey options) w) as (hit & c & Hlook & _).
  rewrite Hlook in Hmiss |- *. simpl in Hmiss. injection Hmiss as ->.
  eexists. split; [reflexivity|]. repeat split.
Qed.

(** [executeQuery] when the cache holds a live truthy value. *)
Lemma executeQuery_hit (logError : Thrown -> string -> AppError) cfg env queryFn
      key ttl retry critical w entry :
  isPreviewMode env = false ->
  key <> EmptyString ->
  cache w !! key = Some entry ->
  (clock w <= Cache.expiresAt entry)%Z ->
  truthy (Cache.value entry) = true ->
  executeQuery logError cfg env queryFn (mkOptions (Some key) ttl retry critical) w
  = (Returned (Cache.value entry), record (EvCacheGet key) w).
Proof.
  intros Hpreview Hkey Hentry Hlive Htruthy.
  unfold executeQuery. rewrite Hpreview.
  unfold mbind at 1. unfold M_bind, bind. unfold cachedResult. cbn [cacheKey].
  rewrite (truthy_str_nonempty _ Hkey).
  unfold mbind at 1. unfold M_bind, bind. unfold queryCache_get.
  rewrite (get_fresh _ _ _ _ Hentry Hlive), Htruthy, with_cache_same. reflexivity.
Qed.

(** X24: in preview mode [getHospitalById] answers from the mock
    hospitals and leaves the process as it was: the mock hospital of the
    given id, or the first one when no mock hospital has that id.  In
    production it never throws. *)
Theorem getHospitalById_mock_answers :
  forall (logError : Thrown -> string -> AppError) cfg NODE_ENV env hospitalId select w,
    (isPreviewMode env = true ->
     exists hospital,
       getHospitalById logError cfg NODE_ENV env hospitalId select w
       = (Returned (MockHospital hospital), w) /\
       In hospital MOCK_hospitals /\
       (fst hospital = hospitalId \/
        (hospital = MOCK_hospitals_0 /\
         forall other, In other MOCK_hospitals -> fst other <> hospitalId))) /\
    (NODE_ENV = Some "production" ->
     exists hospital,
       fst (getHospitalById logError cfg NODE_ENV env hospitalId select w)
       = Returned hospital).
Proof.
  intros logError cfg NODE_ENV env hospitalId select w. split.
  - intros Hpreview. unfold getHospitalById. rewrite Hpreview.
    unfold MOCK_hospitals, MOCK_hospitals_0. cbn [List.find fst].
    destruct (Z.eqb_spec 1 hospitalId) as [<-|H1].
    { eexists. split; [reflexivity|]. split; [now left | now left]. }
    destruct (Z.eqb_spec 2 hospitalId) as [<-|H2].
    { eexists. split; [reflexivity|]. split; [right; now left | now left]. }
    destruct (Z.eqb_spec 3 hospitalId) as [<-|H3].
    { eexists. split; [reflexivity|]. split; [right; right; now left | now left]. }
    eexists. split; [reflexivity|]. split; [now left|]. right. split; [reflexivity|].
    intros other [<-|[<-|[<-|[]]]]; assumption.
  - intros ->. unfold getHospitalById.
    destruct (isPreviewMode env); [eexists; reflexivity|].
    unfold tryCatch. unfold mbind at 1. unfold M_bind, bind.
    match goal with
    | |- context [executeQuery ?l ?c ?e ?q ?o ?w0] =>
        destruct (executeQuery l c e q o w0) as [[v|e0] w1]
    end; eexists; reflexivity.
Qed.

(** X25: outside preview mode, for a hospital id of less than 22 digits,
    when the cache has nothing to serve and no invocation of the [SELECT]
    finds a row, whether because the hospital does not exist or because
    the database fails, the call of [executeQuery] throws, and
    [getHospitalById] answers in production with the first mock
    hospital, whatever the id it was asked, and elsewhere throws what
    [logError] makes, under the context "Get Hospital", of the very
    failure that [executeQuery] threw. *)
Theorem getHospitalById_unfound :
  forall (logError : Thrown -> string -> AppError) cfg NODE_ENV env hospitalId select w,
    isPreviewMode env = false ->
    (Z.abs hospitalId < 10 ^ 21)%Z ->
    fst (cachedResult (Some ("hospital:" ++ DataAccess.numberToString hospitalId)%string) w)
    = Returned None ->
    (forall k rows d, select k = SelectRows rows d -> rows = []) ->
    exists e w1,
      executeQuery logError cfg env (hospitalQuery select)
                   (mkOptions (Some ("hospital:" ++ DataAccess.numberToString hospitalId)%string)
                              None None (Some true)) w
      = (Threw e, w1) /\
      getHospitalById logError cfg NODE_ENV env hospitalId select w
      = if str_is NODE_ENV "production"
        then (Returned (MockHospital MOCK_hospitals_0),
              record (EvConsole "Error getting hospital data, using mock data:") w1)
        else (Threw (ThrownApp (logError e "Get Hospital")),
              record (EvLogError "Get Hospital") w1).
Proof.
  intros logError cfg NODE_ENV env hospitalId select w Hpreview _ Hmiss Hnone.
  unfold getHospitalById. rewrite Hpreview.
  unfold tryCatch. unfold mbind at 1. unfold M_bind, bind.
  set (options := mkOptions _ _ _ _).
  destruct (executeQuery_miss logError cfg env (hospitalQuery select) options w
              Hpreview Hmiss) as (wA & -> & _).
  destruct (queryDatabase_run logError cfg env (hospitalQuery select) options wA)
    as (res & w' & -> & Hres).
  assert (Hthrew : exists e, res = Threw e).
  { destruct (stopsEarly env options wA); [now destruct Hres|].
    destruct Hres as (last & _ & _ & ->).
    unfold enhanceOp, hospitalQuery.
    destruct (select last) as [[|row rest] d|e d] eqn:Hsel; eauto.
    discriminate (Hnone _ _ _ Hsel). }
  destruct Hthrew as [e ->]. exists e, w'. split; [reflexivity|].
  destruct (str_is NODE_ENV "production"); reflexivity.
Qed.

Lemma getHospitalById_unfound_witness :
  fst (getHospitalById sampleLogError sampleRetryConfig (Some "production") production 7
                       (fun _ => SelectRows [] 3) populated)
  = Returned (MockHospital (1%Z, "Central Hospital")) /\
  fst (getHospitalById sampleLogError sampleRetryConfig None production 7
                       (fun _ => SelectRows [] 3) populated)
  = Threw (ThrownApp (mkAppError NOT_FOUND "Hospital not found" None None)).
Proof.
  split.
  - destruct (getHospitalById_unfound sampleLogError sampleRetryConfig (Some "production")
                production 7 (fun _ => SelectRows [] 3) populated eq_refl eq_refl eq_refl)
      as (e & w1 & _ & ->).
    + intros k rows d [= <- _]. reflexivity.
    + reflexivity.
  - destruct (getHospitalById_unfound sampleLogError sampleRetryConfig None
                production 7 (fun _ => SelectRows [] 3) populated eq_refl eq_refl eq_refl)
      as (e & w1 & Hexec & ->).
    + intros k rows d [= <- _]. reflexivity.
    + vm_compute in Hexec. injection Hexec as <- _. reflexivity.
Defined.

(** X26: outside preview mode, while the health snapshot is disconnected
    and less than 60 seconds old, production answers a hospital that is
    not cached with the first mock hospital, whatever the id, and the
    database is not asked. *)
Theorem getHospitalById_gate_closed :
  forall (logError : Thrown -> string -> AppError) cfg env hospitalId select w,
    isPreviewMode env = false ->
    fst (cachedResult (Some ("hospital:" ++ DataAccess.numberToString hospitalId)%string) w)
    = Returned None ->
    isConnected (dbHealthStatus w) = false ->
    (clock w - 60000 < lastChecked (dbHealthStatus w))%Z ->
    exists w',
      getHospitalById logError cfg (Some "production") env hospitalId select w
      = (Returned (MockHospital MOCK_hospitals_0), w') /\
      opCalls w' = opCalls w.
Proof.
  intros logError cfg env hospitalId select w Hpreview Hmiss Hdown Hrecent.
  unfold getHospitalById. rewrite Hpreview.
  unfold tryCatch. unfold mbind at 1. unfold M_bind, bind.
  set (options := mkOptions _ _ _ _).
  destruct (executeQuery_miss logError cfg env (hospitalQuery select) options w
              Hpreview Hmiss) as (wA & -> & Hh & Hc & Ho).
  destruct (queryDatabase_run logError cfg env (hospitalQuery select) options wA)
    as (res & w' & -> & Hres).
  assert (Hstops : stopsEarly env options wA = true).
  { unfold stopsEarly. destruct (dbClient env); [|reflexivity].
    rewrite Hh, Hc, Hdown. simpl.
    destruct (Z.ltb_spec (clock w - 60000) (lastChecked (dbHealthStatus w))); [reflexivity|lia]. }
  rewrite Hstops in Hres. destruct Hres as (-> & e & ->).
  simpl. eexists. split; [reflexivity|]. simpl. exact Ho.
Qed.

Lemma getHospitalById_gate_closed_witness :
  exists w',
    getHospitalById sampleLogError sampleRetryConfig (Some "production") production 2
                    (fun _ => SelectRows [5%positive] 3) afterTimeout
    = (Returned (MockHospital (1%Z, "Central Hospital")), w') /\
    opCalls w' = opCalls afterTimeout.
Proof.
  apply (getHospitalById_gate_closed sampleLogError sampleRetryConfig production 2
           (fun _ => SelectRows [5%positive] 3) afterTimeout);
    reflexivity.
Defined.

End LookupProperties.

(** ** The inventory cache across writes *)

Section InventoryCacheProperties.

Import Lookups.


(** X27: [addNewRedBloodBag] does not invalidate the inventory cached for
    the hospital.  Outside preview mode, a truthy inventory cached under
    the hospital's key before the call is what [getBloodInventory]
    returns after it, until the entry expires and without asking the
    database, whether or not a bag was added. *)
Theorem inventory_stale_after_add :
  forall (logError : Thrown -> string -> AppError) cfg NODE_ENV env db
         donorName amount hospitalId expirationDate bloodType rh
         adminUsername adminPassword s entry select w,
    isPreviewMode env = false ->
    cache (DataAccess.world s)
      !! ("redblood:" ++ DataAccess.numberToString hospitalId)%string = Some entry ->
    truthy (Cache.value entry) = true ->
    cache w
    = cache (DataAccess.world
               (snd (DataAccess.addNewRedBloodBag logError env db donorName amount
                       hospitalId expirationDate bloodType rh
                       adminUsername adminPassword s))) ->
    (clock w <= Cache.expiresAt entry)%Z ->
    exists w',
      getBloodInventory logError cfg NODE_ENV env hospitalId select w
      = (Returned (QueriedInventory (Cache.value entry)), w') /\
      opCalls w' = opCalls w.
Proof.
  intros logError cfg NODE_ENV env db donorName amount hospitalId expirationDate
         bloodType rh adminUsername adminPassword s entry select w
         Hpreview Hentry Htruthy Hcache Hlive.
  destruct (addNewRedBloodBag_run logError env db donorName amount hospitalId
              expirationDate bloodType rh adminUsername adminPassword s)
    as (result & s' & Hrun & Hkept & _).
  rewrite Hrun in Hcache. simpl in Hcache. rewrite Hkept in Hcache.
  unfold getBloodInventory. rewrite Hpreview.
  unfold tryCatch. unfold mbind at 1. unfold M_bind, bind.
  rewrite (executeQuery_hit logError cfg env _ _ None None None w entry Hpreview);
    [| discriminate | now rewrite Hcache | exact Hlive | exact Htruthy].
  eexists. split; reflexivity.
Qed.

Lemma inventory_stale_after_add_witness :
  exists w',
    getBloodInventory sampleLogError sampleRetryConfig None production 1
                      (fun _ => InventoryAnswers 9 4)
                      (mkWorld {[ "redblood:1" := Cache.mkEntry (JObj 1) 1700000060000 ]}
                               initialHealth 1700000030000 0 [])
    = (Returned (QueriedInventory (JObj 1)), w') /\
    opCalls w' = 0%nat.
Proof.
  apply (inventory_stale_after_add sampleLogError sampleRetryConfig None production
           (fun _ => DataAccess.DbRows [DataAccess.mockAdmin])
           "donor" 450 1 "2030-01-01" "A" "+" None None
           (DataAccess.mkServer
              (mkWorld {[ "redblood:1" := Cache.mkEntry (JObj 1) 1700000060000 ]}
                       initialHealth 1700000000000 0 [])
              [])
           (Cache.mkEntry (JObj 1) 1700000060000)
           (fun _ => InventoryAnswers 9 4)
           (mkWorld {[ "redblood:1" := Cache.mkEntry (JObj 1) 1700000060000 ]}
                    initialHealth 1700000030000 0 []));
    try reflexivity.
  simpl. lia.
Defined.



End InventoryCacheProperties.



